(** * LEONA: orchestration, scheduling, memory and automation core

    A shallow embedding of the Python sources
      backend/core/agent_orchestrator.py
      backend/core/memory_manager.py
      backend/agents/scheduler_agent.py
      backend/agents/automation_agent.py
    together with the properties the design document states about them.

    Conventions.
    - Python [str] is modelled as [string] (a sequence of bytes; a non-ASCII
      character of a source literal is its UTF-8 encoding).
    - A Python exception is a value of [exn]; a call that may raise returns an
      [outcome].  Code that threads effects (language-model calls, registry
      lookups) runs in the state-and-exception monad [M].
    - [datetime.now()], the language model, [json.loads]/[json.dumps] and
      [strftime] are external: they are parameters of the sections that use
      them, and concrete instances are supplied where a statement is
      evaluated. *)

From Stdlib Require Import ZArith String Ascii List Lia Bool Floats.
From Stdlib Require Import DecimalString DecimalNat.
From Stdlib Require Import Sorting.Sorted Sorting.Permutation.
From stdpp Require Import base gmap strings list fin_maps.

Local Open Scope string_scope.
Local Open Scope Z_scope.

(* ===================================================================== *)
(** * Python values, exceptions and effects                               *)
(* ===================================================================== *)

Module Py.

Set Warnings "-register-all".

(** The values [json.loads] can return, plus what the agents store next to
    them.  A [dict] keeps insertion order and has unique keys. *)
Inductive pyval : Type :=
| PNone
| PBool (b : bool)
| PInt (z : Z)
| PFloat (f : float)
| PStr (s : string)
| PList (l : list pyval)
| PDict (d : list (string * pyval)).

(** The exceptions the modelled code can raise. *)
Inductive exn : Type :=
| KeyError (key : string)
| TypeError (what : string)
| ValueError (what : string)
| AttributeError (what : string)
| JSONDecodeError
| BackendError (what : string).

Inductive outcome (A : Type) : Type :=
| Ret (a : A)
| Raise (e : exn).
Arguments Ret {A} a.
Arguments Raise {A} e.

(** [bool(v)]: Python truthiness. *)
Definition truthy (v : pyval) : bool :=
  match v with
  | PNone => false
  | PBool b => b
  | PInt z => negb (Z.eqb z 0)
  | PFloat f => negb (PrimFloat.eqb f 0%float)
  | PStr s => negb (String.eqb s EmptyString)
  | PList l => match l with [] => false | _ => true end
  | PDict d => match d with [] => false | _ => true end
  end.

(** [d.get(k)] / [d[k]] on the association list of a dict. *)
Fixpoint dict_get (k : string) (d : list (string * pyval)) : option pyval :=
  match d with
  | [] => None
  | (k', v) :: d' => if String.eqb k k' then Some v else dict_get k d'
  end.

(** [d[k] = v]: replaces the value of an existing key in place, appends a
    new key at the end. *)
Fixpoint dict_set (k : string) (v : pyval) (d : list (string * pyval))
  : list (string * pyval) :=
  match d with
  | [] => [(k, v)]
  | (k', v') :: d' =>
      if String.eqb k k' then (k, v) :: d' else (k', v') :: dict_set k v d'
  end.

(** [v[k]] for a string key [k]: a dict raises [KeyError] on a missing key,
    every other value raises [TypeError] (a list or a string wants integer
    indices, the rest is not subscriptable). *)
Definition subscript (v : pyval) (k : string) : outcome pyval :=
  match v with
  | PDict d => match dict_get k d with
               | Some x => Ret x
               | None => Raise (KeyError k)
               end
  | PList _ => Raise (TypeError "list indices must be integers or slices, not str")
  | PStr _ => Raise (TypeError "string indices must be integers, not 'str'")
  | _ => Raise (TypeError "object is not subscriptable")
  end.

(** ** Strings *)

Definition nl : string := String "010"%char EmptyString.
Definition dquote : string := String "034"%char EmptyString.

Fixpoint str_rev_onto (s acc : string) : string :=
  match s with
  | EmptyString => acc
  | String c s' => str_rev_onto s' (String c acc)
  end.
Definition str_rev (s : string) : string := str_rev_onto s EmptyString.

(** [s.endswith(suffix)] *)
Fixpoint endswith (s suffix : string) : bool :=
  if String.eqb s suffix then true
  else match s with
       | EmptyString => false
       | String _ s' => endswith s' suffix
       end.

(** [s.startswith(p)] *)
Definition startswith (s p : string) : bool := String.prefix p s.

(** [sub in s] *)
Fixpoint contains (sub s : string) : bool :=
  if String.prefix sub s then true
  else match s with
       | EmptyString => false
       | String _ s' => contains sub s'
       end.

(** ASCII white space, as [str.strip()] removes it. *)
Definition is_space (c : ascii) : bool :=
  let n := nat_of_ascii c in
  ((9 <=? n) && (n <=? 13))%nat || (n =? 32)%nat || ((28 <=? n) && (n <=? 31))%nat.

Fixpoint lstrip (s : string) : string :=
  match s with
  | String c s' => if is_space c then lstrip s' else s
  | EmptyString => EmptyString
  end.
Definition strip (s : string) : string :=
  str_rev (lstrip (str_rev (lstrip s))).

(** [s.lower()] on ASCII letters. *)
Definition lower_char (c : ascii) : ascii :=
  let n := nat_of_ascii c in
  if ((65 <=? n) && (n <=? 90))%nat then ascii_of_nat (n + 32) else c.
Fixpoint lower (s : string) : string :=
  match s with
  | EmptyString => EmptyString
  | String c s' => String (lower_char c) (lower s')
  end.

(** ** The state-and-exception monad *)

Definition M (S A : Type) : Type := S -> outcome A * S.

Definition ret {S A} (a : A) : M S A := fun s => (Ret a, s).
Definition raise {S A} (e : exn) : M S A := fun s => (Raise e, s).
Definition bind {S A B} (m : M S A) (k : A -> M S B) : M S B :=
  fun s => match m s with
           | (Ret a, s') => k a s'
           | (Raise e, s') => (Raise e, s')
           end.
(** [try: m  except: h] with a bare [except], which catches everything. *)
Definition try_except {S A} (m : M S A) (h : M S A) : M S A :=
  fun s => match m s with
           | (Ret a, s') => (Ret a, s')
           | (Raise _, s') => h s'
           end.
Definition lift {S A} (o : outcome A) : M S A := fun s => (o, s).

End Py.

Import Py.

Notation "'do' x <- m ; k" := (bind m (fun x => k))
  (at level 10, x name, m at level 100, k at level 200).

(** ** Facts about the string operations *)

Module PyFacts.

Lemma append_nil_l (s : string) : EmptyString +:+ s = s.
Proof. reflexivity. Qed.

Lemma append_cons (c : ascii) (s t : string) :
  String c s +:+ t = String c (s +:+ t).
Proof. reflexivity. Qed.

Lemma append_nil_r (s : string) : s +:+ EmptyString = s.
Proof.
  induction s as [|c s IH]; [reflexivity|].
  rewrite append_cons, IH. reflexivity.
Qed.

Lemma append_assoc (a b c : string) : (a +:+ b) +:+ c = a +:+ (b +:+ c).
Proof.
  induction a as [|x a IH]; [reflexivity|].
  rewrite !append_cons, IH. reflexivity.
Qed.

Lemma endswith_refl (s : string) : endswith s s = true.
Proof.
  destruct s as [|c s]; [reflexivity|].
  change (endswith (String c s) (String c s))
    with (if String.eqb (String c s) (String c s) then true
          else endswith s (String c s)).
  rewrite String.eqb_refl. reflexivity.
Qed.

(** [s.endswith(suffix)] holds exactly when [s] is some text followed by
    [suffix]. *)
Lemma endswith_spec (s suffix : string) :
  endswith s suffix = true <-> exists p, s = p +:+ suffix.
Proof.
  split.
  - induction s as [|c s IH]; cbn [endswith].
    + destruct (String.eqb EmptyString suffix) eqn:E; [|discriminate].
      intros _. exists EmptyString. apply String.eqb_eq in E. subst. reflexivity.
    + destruct (String.eqb (String c s) suffix) eqn:E.
      * intros _. exists EmptyString. apply String.eqb_eq in E. subst. reflexivity.
      * intros H. destruct (IH H) as [p ->]. exists (String c p). reflexivity.
  - intros [p ->]. induction p as [|c p IH].
    + apply endswith_refl.
    + rewrite append_cons. cbn [endswith].
      destruct (String.eqb _ suffix); [reflexivity|exact IH].
Qed.

Lemma prefix_append (a b : string) : String.prefix a (a +:+ b) = true.
Proof.
  induction a as [|c a IH]; [destruct b; reflexivity|].
  rewrite append_cons. simpl. destruct (ascii_dec c c); [exact IH|congruence].
Qed.

(** A text made of white space only. *)
Fixpoint blank (s : string) : bool :=
  match s with
  | EmptyString => true
  | String c s' => is_space c && blank s'
  end.

Lemma lstrip_blank (s : string) : blank s = true -> lstrip s = EmptyString.
Proof.
  induction s as [|c s IH]; simpl; [reflexivity|].
  destruct (is_space c); simpl; [exact IH|discriminate].
Qed.

(** [strip] of a text made of white space only is the empty text. *)
Lemma strip_blank (s : string) : blank s = true -> strip s = EmptyString.
Proof. intros H. unfold strip. rewrite (lstrip_blank s H). reflexivity. Qed.

End PyFacts.

(* ===================================================================== *)
(** * A reference JSON codec                                              *)
(* ===================================================================== *)

(** [json.loads] and [json.dumps] belong to the Python library, and the
    sections below take them as parameters.  This module gives an
    executable decoder and encoder for the fragment of JSON whose numbers
    are integers and whose strings are ASCII with the short escapes; it
    instantiates those parameters wherever a statement is evaluated on a
    concrete text.  Texts outside the fragment (fractions, exponents,
    [\u] escapes) are not what it is meant for. *)
Module Json.

Definition is_ws (c : ascii) : bool :=
  match nat_of_ascii c with
  | 32%nat | 9%nat | 10%nat | 13%nat => true
  | _ => false
  end.

Fixpoint skip_ws (s : string) : string :=
  match s with
  | String c s' => if is_ws c then skip_ws s' else s
  | EmptyString => EmptyString
  end.

Definition is_digit (c : ascii) : bool :=
  let n := nat_of_ascii c in ((48 <=? n) && (n <=? 57))%nat.

Definition digit_val (c : ascii) : Z := Z.of_nat (nat_of_ascii c) - 48.

(** Reads the digits at the front of [s], accumulating their value. *)
Fixpoint read_digits (s : string) (acc : Z) : Z * string :=
  match s with
  | String c s' =>
      if is_digit c then read_digits s' (10 * acc + digit_val c) else (acc, s)
  | EmptyString => (acc, s)
  end.

(** An optional minus sign, then [0] or a digit string with no leading
    zero; not followed by a fraction or an exponent. *)
Definition read_int (s : string) : option (Z * string) :=
  let '(neg, body) := match s with
                      | String "-"%char r => (true, r)
                      | _ => (false, s)
                      end in
  match body with
  | String c r =>
      if is_digit c then
        let '(n, rest) := if Ascii.eqb c "0"%char then (0, r)
                          else read_digits body 0 in
        match rest with
        | String c' _ =>
            if is_digit c' || Ascii.eqb c' "."%char || Ascii.eqb c' "e"%char
               || Ascii.eqb c' "E"%char
            then None else Some (if neg then - n else n, rest)
        | EmptyString => Some (if neg then - n else n, rest)
        end
      else None
  | EmptyString => None
  end.

(** The body of a string literal, after its opening quote. *)
Fixpoint read_string (s : string) : option (string * string) :=
  match s with
  | EmptyString => None
  | String c r =>
      if Ascii.eqb c "034"%char then Some (EmptyString, r)
      else if Ascii.eqb c "\"%char then
        match r with
        | String e r' =>
            let unescaped :=
              match nat_of_ascii e with
              | 34%nat => Some "034"%char
              | 92%nat => Some "\"%char
              | 47%nat => Some "/"%char
              | 98%nat => Some "008"%char
              | 102%nat => Some "012"%char
              | 110%nat => Some "010"%char
              | 114%nat => Some "013"%char
              | 116%nat => Some "009"%char
              | _ => None
              end in
            match unescaped, read_string r' with
            | Some u, Some (body, rest) => Some (String u body, rest)
            | _, _ => None
            end
        | EmptyString => None
        end
      else if (nat_of_ascii c <? 32)%nat then None
      else match read_string r with
           | Some (body, rest) => Some (String c body, rest)
           | None => None
           end
  end.

Definition drop_prefix (p s : string) : option string :=
  if String.prefix p s
  then Some (String.substring (String.length p) (String.length s - String.length p) s)
  else None.

Fixpoint parse_value (fuel : nat) (s : string) : option (pyval * string) :=
  match fuel with
  | O => None
  | S fuel' =>
      match skip_ws s with
      | EmptyString => None
      | String c r =>
          match nat_of_ascii c with
          | 110%nat => r' ← drop_prefix "ull" r; Some (PNone, r')
          | 116%nat => r' ← drop_prefix "rue" r; Some (PBool true, r')
          | 102%nat => r' ← drop_prefix "alse" r; Some (PBool false, r')
          | 34%nat => '(body, r') ← read_string r; Some (PStr body, r')
          | 91%nat =>
              match skip_ws r with
              | String "]"%char r' => Some (PList [], r')
              | _ => parse_elements fuel' r []
              end
          | 123%nat =>
              match skip_ws r with
              | String "}"%char r' => Some (PDict [], r')
              | _ => parse_members fuel' r []
              end
          | _ => '(n, r') ← read_int (String c r); Some (PInt n, r')
          end
      end
  end
with parse_elements (fuel : nat) (s : string) (acc : list pyval)
  : option (pyval * string) :=
  match fuel with
  | O => None
  | S fuel' =>
      match parse_value fuel' s with
      | Some (v, r) =>
          match skip_ws r with
          | String ","%char r' => parse_elements fuel' r' (v :: acc)
          | String "]"%char r' => Some (PList (rev (v :: acc)), r')
          | _ => None
          end
      | None => None
      end
  end
with parse_members (fuel : nat) (s : string) (acc : list (string * pyval))
  : option (pyval * string) :=
  match fuel with
  | O => None
  | S fuel' =>
      match skip_ws s with
      | String c r =>
          if Ascii.eqb c "034"%char then
            match read_string r with
            | Some (key, r1) =>
                match skip_ws r1 with
                | String ":"%char r2 =>
                    match parse_value fuel' r2 with
                    | Some (v, r3) =>
                        match skip_ws r3 with
                        | String ","%char r4 =>
                            parse_members fuel' r4 (dict_set key v acc)
                        | String "}"%char r4 =>
                            Some (PDict (dict_set key v acc), r4)
                        | _ => None
                        end
                    | None => None
                    end
                | _ => None
                end
            | None => None
            end
          else None
      | EmptyString => None
      end
  end.

(** [json.loads(text)] on the fragment: one value, white space around it,
    nothing after it. *)
Definition loads (text : string) : outcome pyval :=
  match parse_value (2 * String.length text + 2) text with
  | Some (v, rest) =>
      match skip_ws rest with
      | EmptyString => Ret v
      | _ => Raise JSONDecodeError
      end
  | None => Raise JSONDecodeError
  end.

Definition escape_char (c : ascii) : string :=
  match nat_of_ascii c with
  | 34%nat => "\" +:+ dquote
  | 92%nat => "\\"
  | 8%nat => "\b"
  | 12%nat => "\f"
  | 10%nat => "\n"
  | 13%nat => "\r"
  | 9%nat => "\t"
  | _ => String c EmptyString
  end.

Fixpoint escape (s : string) : string :=
  match s with
  | EmptyString => EmptyString
  | String c s' => escape_char c +:+ escape s'
  end.

Fixpoint pos_digits (fuel : nat) (n : Z) (acc : string) : string :=
  match fuel with
  | O => acc
  | S fuel' =>
      let acc' := String (ascii_of_nat (48 + Z.to_nat (n mod 10))) acc in
      if n <? 10 then acc' else pos_digits fuel' (n / 10) acc'
  end.

Definition int_repr (n : Z) : string :=
  if n <? 0 then "-" +:+ pos_digits (S (Z.to_nat (Z.log2 (- n)))) (- n) EmptyString
  else pos_digits (S (Z.to_nat (Z.log2 n))) n EmptyString.

Fixpoint join (sep : string) (l : list string) : string :=
  match l with
  | [] => EmptyString
  | [x] => x
  | x :: l' => x +:+ sep +:+ join sep l'
  end.

(** [json.dumps(v)] on the fragment, with Python's default separators.
    Floats are outside the fragment: the encoder writes the [NaN] token in
    their place. *)
Fixpoint dumps (v : pyval) : string :=
  match v with
  | PNone => "null"
  | PBool true => "true"
  | PBool false => "false"
  | PInt z => int_repr z
  | PFloat _ => "NaN"
  | PStr s => dquote +:+ escape s +:+ dquote
  | PList l => "[" +:+ join ", " (map dumps l) +:+ "]"
  | PDict d =>
      "{" +:+ join ", "
        (map (fun kv => dquote +:+ escape (fst kv) +:+ dquote +:+ ": " +:+ dumps (snd kv)) d)
      +:+ "}"
  end.

End Json.

(* ===================================================================== *)
(** * The orchestrator (backend/core/agent_orchestrator.py)               *)
(* ===================================================================== *)

Module Orchestrator.

(** What the orchestrator does to its collaborators, in order. *)
Inductive event : Type :=
| EvGenerate (prompt : string) (max_tokens : Z)
| EvAgentLookup (key : pyval)
| EvExecute (agent : string) (user_input : string) (parameters : pyval)
| EvGetContext (user_input : string).

(** The state threaded through a request: the events so far, oldest first. *)
Definition world : Type := list event.

Definition is_generate (e : event) : bool :=
  match e with EvGenerate _ _ => true | _ => false end.
Definition is_lookup (e : event) : bool :=
  match e with EvAgentLookup _ => true | _ => false end.

Definition generate_calls (w : world) : nat :=
  List.length (List.filter is_generate w).

(** The keys of [self.agents], as [_initialize_agents] fills it. *)
Definition agent_names : list string := ["scheduler"; "file"; "system"; "web"].

(** The fixed texts of [process_input]. *)
Definition signature_suffix : string := " Always one call away.".
Definition suggestion_prefix : string := nl +:+ nl +:+ "💡 By the way, ".

Section WithCollaborators.

(** [json.loads]. *)
Variable json_loads : string -> outcome pyval.
(** [LLMEngine.generate]: what the [n]-th call answers to a prompt. *)
Variable llm : nat -> string -> Z -> outcome string.
(** [agent.execute(user_input, parameters)] of the registered agent; an
    agent may itself call the model. *)
Variable agent_execute : string -> string -> pyval -> M world string.
(** [MemoryManager.get_context]. *)
Variable memory_get_context : string -> M world string.

(** [await self.llm.generate(prompt, max_tokens=...)] *)
Definition llm_generate (prompt : string) (max_tokens : Z) : M world string :=
  fun w => (llm (generate_calls w) prompt max_tokens,
            (w ++ [EvGenerate prompt max_tokens])%list).

(** [self.agents.get(key)]: a list or a dict is unhashable. *)
Definition agents_get (key : pyval) : M world (option string) :=
  fun w =>
    (match key with
     | PStr s => Ret (if existsb (String.eqb s) agent_names then Some s else None)
     | PList _ => Raise (TypeError "unhashable type: 'list'")
     | PDict _ => Raise (TypeError "unhashable type: 'dict'")
     | _ => Ret None
     end, (w ++ [EvAgentLookup key])%list).

Definition run_agent (name user_input : string) (parameters : pyval)
  : M world string :=
  fun w => agent_execute name user_input parameters
             (w ++ [EvExecute name user_input parameters])%list.

Definition get_context (user_input : string) : M world string :=
  fun w => memory_get_context user_input (w ++ [EvGetContext user_input])%list.

Definition analyze_prompt (user_input : string) : string :=
  "Analyze this request and determine which agent should handle it:" +:+ nl +:+
  "        User: " +:+ user_input +:+ nl +:+
  "        " +:+ nl +:+
  "        Available agents:" +:+ nl +:+
  "        - scheduler: calendar, reminders, scheduling" +:+ nl +:+
  "        - file: file operations, document management" +:+ nl +:+
  "        - system: system commands, app launching" +:+ nl +:+
  "        - web: web browsing, information gathering" +:+ nl +:+
  "        " +:+ nl +:+
  "        Respond with the agent name and any parameters in JSON format.".

(** The value [_analyze_intent] returns when the answer does not parse. *)
Definition intent_sentinel : pyval :=
  PDict [("primary_agent", PNone); ("parameters", PDict [])].

Definition _analyze_intent (user_input : string) : M world pyval :=
  do response <- llm_generate (analyze_prompt user_input) 512;
  try_except (lift (json_loads response)) (ret intent_sentinel).

Definition suggestions_prompt (user_input result context : string) : string :=
  "Based on this interaction:" +:+ nl +:+
  "        User: " +:+ user_input +:+ nl +:+
  "        Response: " +:+ result +:+ nl +:+
  "        Context: " +:+ context +:+ nl +:+
  "        " +:+ nl +:+
  "        As LEONA, provide a brief, helpful proactive suggestion if relevant." +:+ nl +:+
  "        Be elegant and concise. Return empty string if no suggestion needed.".

Definition _generate_suggestions (user_input result : string) : M world string :=
  do context <- get_context user_input;
  do suggestion <- llm_generate (suggestions_prompt user_input result context) 100;
  ret (strip suggestion).

(** The general-conversation branch at the end of [process_input]. *)
Definition add_signature (response : string) : string :=
  (if negb (endswith response ".") then response +:+ "." else response)
  +:+ signature_suffix.

Definition process_input (user_input : string) : M world string :=
  do intent <- _analyze_intent user_input;
  do primary <- lift (subscript intent "primary_agent");
  do routed <-
    (if truthy primary then
       do agent <- agents_get primary;
       match agent with
       | Some name =>
           do parameters <- lift (subscript intent "parameters");
           do result <- run_agent name user_input parameters;
           do suggestions <- _generate_suggestions user_input result;
           ret (Some (if negb (String.eqb suggestions EmptyString)
                      then result +:+ suggestion_prefix +:+ suggestions
                      else result))
       | None => ret None
       end
     else ret None);
  match routed with
  | Some result => ret result
  | None =>
      do response <- llm_generate user_input 512;
      ret (add_signature response)
  end.

(** ** Properties *)

Lemma analyze_intent_world (user_input : string) (w w1 : world) (o : outcome pyval) :
  _analyze_intent user_input w = (o, w1) ->
  w1 = (w ++ [EvGenerate (analyze_prompt user_input) 512])%list.
Proof.
  unfold _analyze_intent, bind, llm_generate, try_except, lift, ret.
  destruct (llm _ _ _) as [response|e]; [|congruence].
  destruct (json_loads response); congruence.
Qed.

(** C1. When the language model answers the classification prompt with a
    text that [json.loads] rejects, [_analyze_intent] returns the sentinel
    [{primary_agent: None, parameters: {}}]; it does not raise, and its
    only effect is the one model call. *)
Theorem analyze_intent_degrades_on_non_json
  (user_input text : string) (e : exn) (w : world) :
  llm (generate_calls w) (analyze_prompt user_input) 512 = Ret text ->
  json_loads text = Raise e ->
  _analyze_intent user_input w =
    (Ret (PDict [("primary_agent", PNone); ("parameters", PDict [])]),
     (w ++ [EvGenerate (analyze_prompt user_input) 512])%list).
Proof.
  intros Hllm Hjson.
  unfold _analyze_intent, bind, llm_generate, try_except, lift, ret.
  rewrite Hllm, Hjson. reflexivity.
Qed.

(** C2 (amended). When classification yields an intent whose
    [primary_agent] is [None], [process_input] looks up no agent, calls the
    model once more on the raw user text, and returns the model's text,
    followed by a full stop when the text does not already end with one,
    followed by [" Always one call away."]. *)
Theorem process_input_null_agent_falls_back
  (user_input raw : string) (intent : pyval) (w w1 : world) :
  _analyze_intent user_input w = (Ret intent, w1) ->
  subscript intent "primary_agent" = Ret PNone ->
  llm (generate_calls w1) user_input 512 = Ret raw ->
  process_input user_input w =
    (Ret ((if endswith raw "." then raw else raw +:+ ".") +:+ signature_suffix),
     (w ++ [EvGenerate (analyze_prompt user_input) 512;
            EvGenerate user_input 512])%list)
  /\ List.filter is_lookup
       [EvGenerate (analyze_prompt user_input) 512; EvGenerate user_input 512] = [].
Proof.
  intros Hintent Hprimary Hllm.
  pose proof (analyze_intent_world _ _ _ _ Hintent) as Hw1.
  split; [|reflexivity].
  unfold process_input, bind at 1. rewrite Hintent.
  unfold bind at 1, lift. rewrite Hprimary. simpl truthy. cbv iota.
  unfold bind, ret, llm_generate. rewrite Hllm.
  unfold add_signature. subst w1. rewrite <- app_assoc. simpl.
  destruct (endswith raw "."); reflexivity.
Qed.

(** C10. When the model's classification answer parses to a JSON object
    that has no key [primary_agent], [process_input] raises
    [KeyError('primary_agent')] to its caller; the conversational fallback
    is not reached (the only model call is the classification). *)
Theorem process_input_missing_primary_agent_raises
  (user_input text : string) (d : list (string * pyval)) (w : world) :
  llm (generate_calls w) (analyze_prompt user_input) 512 = Ret text ->
  json_loads text = Ret (PDict d) ->
  dict_get "primary_agent" d = None ->
  process_input user_input w =
    (Raise (KeyError "primary_agent"),
     (w ++ [EvGenerate (analyze_prompt user_input) 512])%list).
Proof.
  intros Hllm Hjson Hkey.
  unfold process_input, _analyze_intent, bind, llm_generate, try_except, lift, ret.
  rewrite Hllm, Hjson. simpl. rewrite Hkey. reflexivity.
Qed.

End WithCollaborators.

(** ** Concrete runs *)

(** A model stub that answers the first call with [first] and every later
    call with [later]. *)
Definition stub_llm (first later : string) : nat -> string -> Z -> outcome string :=
  fun n _ _ => match n with O => Ret first | _ => Ret later end.

Definition no_agent : string -> string -> pyval -> M world string :=
  fun _ _ _ => raise (BackendError "agent not modelled").
Definition no_context : string -> M world string :=
  fun _ => ret EmptyString.

Definition null_agent_text : string :=
  "{" +:+ dquote +:+ "primary_agent" +:+ dquote +:+ ": null}".
Definition wrong_key_text : string :=
  "{" +:+ dquote +:+ "agent" +:+ dquote +:+ ": " +:+
  dquote +:+ "scheduler" +:+ dquote +:+ "}".

Lemma analyze_intent_degrades_on_non_json_witness :
  _analyze_intent Json.loads (stub_llm "I think the scheduler fits." "Hello")
    "remind me to call Bob" [] =
  (Ret (PDict [("primary_agent", PNone); ("parameters", PDict [])]),
   [EvGenerate (analyze_prompt "remind me to call Bob") 512]).
Proof.
  apply (analyze_intent_degrades_on_non_json Json.loads
           (stub_llm "I think the scheduler fits." "Hello")
           "remind me to call Bob" "I think the scheduler fits."
           JSONDecodeError []).
  - reflexivity.
  - vm_compute. reflexivity.
Defined.

Lemma process_input_null_agent_falls_back_witness :
  process_input Json.loads (stub_llm null_agent_text "Hello") no_agent no_context
    "how are you" [] =
  (Ret "Hello. Always one call away.",
   [EvGenerate (analyze_prompt "how are you") 512; EvGenerate "how are you" 512])
  /\ List.filter is_lookup
       [EvGenerate (analyze_prompt "how are you") 512;
        EvGenerate "how are you" 512] = [].
Proof.
  apply (process_input_null_agent_falls_back Json.loads
           (stub_llm null_agent_text "Hello") no_agent no_context
           "how are you" "Hello" (PDict [("primary_agent", PNone)]) []
           [EvGenerate (analyze_prompt "how are you") 512]).
  - vm_compute. reflexivity.
  - reflexivity.
  - reflexivity.
Defined.

(** C2 as stated fails: for the model text [Hello] the result is not that
    text with the fixed suffix appended. *)
Lemma process_input_signature_not_plain_append :
  fst (process_input Json.loads (stub_llm null_agent_text "Hello") no_agent
         no_context "how are you" [])
    = Ret "Hello. Always one call away."
  /\ fst (process_input Json.loads (stub_llm null_agent_text "Hello") no_agent
            no_context "how are you" [])
    <> Ret ("Hello" +:+ signature_suffix).
Proof.
  split; [vm_compute; reflexivity|].
  vm_compute. intros H. discriminate H.
Qed.

Lemma process_input_missing_primary_agent_raises_witness :
  process_input Json.loads (stub_llm wrong_key_text "Hello") no_agent no_context
    "remind me to call Bob" [] =
  (Raise (KeyError "primary_agent"),
   [EvGenerate (analyze_prompt "remind me to call Bob") 512]).
Proof.
  apply (process_input_missing_primary_agent_raises Json.loads
           (stub_llm wrong_key_text "Hello") no_agent no_context
           "remind me to call Bob" wrong_key_text [("agent", PStr "scheduler")] []).
  - reflexivity.
  - vm_compute. reflexivity.
  - reflexivity.
Defined.

(** ** Further routing behaviour *)

Section Routing.

Variable json_loads : string -> outcome pyval.
Variable llm : nat -> string -> Z -> outcome string.
Variable agent_execute : string -> string -> pyval -> M world string.
Variable memory_get_context : string -> M world string.

Abbreviation analyze := (_analyze_intent json_loads llm).
Abbreviation process :=
  (process_input json_loads llm agent_execute memory_get_context).

Lemma generate_calls_app (w : world) (e : event) :
  generate_calls (w ++ [e])%list
  = (generate_calls w + (if is_generate e then 1 else 0))%nat.
Proof.
  unfold generate_calls. rewrite List.filter_app, List.length_app. simpl.
  destruct (is_generate e); reflexivity.
Qed.

Lemma registered_nonempty (name : string) :
  existsb (String.eqb name) agent_names = true -> truthy (PStr name) = true.
Proof. destruct name; [discriminate|reflexivity]. Qed.

(** The text returned by the conversational fallback always starts with
    the model's text and always ends with [. Always one call away.]. *)
Theorem add_signature_shape (raw : string) :
  String.prefix raw (add_signature raw) = true
  /\ endswith (add_signature raw) ". Always one call away." = true.
Proof.
  unfold add_signature, signature_suffix. split.
  - destruct (negb (endswith raw ".")).
    + rewrite PyFacts.append_assoc. apply PyFacts.prefix_append.
    + apply PyFacts.prefix_append.
  - destruct (endswith raw ".") eqn:E; simpl negb; cbv iota.
    + apply PyFacts.endswith_spec in E. destruct E as [p ->].
      apply PyFacts.endswith_spec. exists p.
      rewrite PyFacts.append_assoc. reflexivity.
    + apply PyFacts.endswith_spec. exists raw.
      rewrite PyFacts.append_assoc. reflexivity.
Qed.

(** A classification that names an agent the orchestrator has not
    registered is looked up once, executes nothing, and ends in the
    conversational fallback. *)
Theorem process_input_unknown_agent_falls_back
  (user_input raw name : string) (intent : pyval) (w w1 : world) :
  analyze user_input w = (Ret intent, w1) ->
  subscript intent "primary_agent" = Ret (PStr name) ->
  name <> EmptyString ->
  existsb (String.eqb name) agent_names = false ->
  llm (generate_calls w1) user_input 512 = Ret raw ->
  process user_input w =
    (Ret (add_signature raw),
     (w1 ++ [EvAgentLookup (PStr name); EvGenerate user_input 512])%list).
Proof.
  intros Hintent Hprimary Hname Hunknown Hllm.
  unfold process_input, bind at 1. rewrite Hintent.
  unfold bind at 1, lift. rewrite Hprimary.
  assert (Ht : truthy (PStr name) = true).
  { simpl. destruct (String.eqb name EmptyString) eqn:E; [|reflexivity].
    apply String.eqb_eq in E. contradiction. }
  rewrite Ht. unfold bind, agents_get, ret, llm_generate. rewrite Hunknown.
  rewrite generate_calls_app. simpl is_generate. rewrite Nat.add_0_r, Hllm.
  rewrite <- app_assoc. reflexivity.
Qed.

(** A classification that names a registered agent but carries no
    [parameters] key raises [KeyError('parameters')] after the lookup: the
    agent is not executed and there is no fallback. *)
Theorem process_input_missing_parameters_raises
  (user_input name : string) (d : list (string * pyval)) (w w1 : world) :
  analyze user_input w = (Ret (PDict d), w1) ->
  dict_get "primary_agent" d = Some (PStr name) ->
  existsb (String.eqb name) agent_names = true ->
  dict_get "parameters" d = None ->
  process user_input w =
    (Raise (KeyError "parameters"), (w1 ++ [EvAgentLookup (PStr name)])%list).
Proof.
  intros Hintent Hprimary Hreg Hparams.
  unfold process_input, bind at 1. rewrite Hintent.
  unfold bind at 1, lift, subscript. rewrite Hprimary.
  rewrite (registered_nonempty _ Hreg).
  unfold bind, agents_get, ret. rewrite Hreg, Hparams. reflexivity.
Qed.

(** A classification answer that is valid JSON but not an object (a
    list, a string, a number, [true], [null]) makes [process_input] raise
    [TypeError]; only the classification call has been made. *)
Theorem process_input_non_object_raises
  (user_input text : string) (v : pyval) (w : world) :
  llm (generate_calls w) (analyze_prompt user_input) 512 = Ret text ->
  json_loads text = Ret v ->
  (forall d, v <> PDict d) ->
  exists what,
    process user_input w =
      (Raise (TypeError what),
       (w ++ [EvGenerate (analyze_prompt user_input) 512])%list).
Proof.
  intros Hllm Hjson Hv.
  unfold process_input, _analyze_intent, bind, llm_generate, try_except, lift, ret.
  rewrite Hllm, Hjson.
  destruct v; simpl; try (eexists; reflexivity).
  exfalso. eapply Hv. reflexivity.
Qed.

(** A [primary_agent] that is a non-empty list or dict cannot be a
    dictionary key: the lookup raises [TypeError]. *)
Theorem process_input_unhashable_agent_raises
  (user_input : string) (intent primary : pyval) (w w1 : world) :
  analyze user_input w = (Ret intent, w1) ->
  subscript intent "primary_agent" = Ret primary ->
  truthy primary = true ->
  (exists l, primary = PList l) \/ (exists d, primary = PDict d) ->
  exists what,
    process user_input w =
      (Raise (TypeError what), (w1 ++ [EvAgentLookup primary])%list).
Proof.
  intros Hintent Hprimary Ht Hshape.
  unfold process_input, bind at 1. rewrite Hintent.
  unfold bind at 1, lift. rewrite Hprimary, Ht.
  unfold bind, agents_get.
  destruct Hshape as [[l ->]|[d ->]]; eexists; reflexivity.
Qed.

(** The routed path: the agent's result is returned, followed by
    [suggestion_prefix] and the stripped suggestion unless that is empty;
    no signature is added.  A suggestion of white space only leaves the
    result as it is. *)
Theorem process_input_routed
  (user_input name result context suggestion : string)
  (d : list (string * pyval)) (parameters : pyval) (w w1 w2 w3 : world) :
  analyze user_input w = (Ret (PDict d), w1) ->
  dict_get "primary_agent" d = Some (PStr name) ->
  existsb (String.eqb name) agent_names = true ->
  dict_get "parameters" d = Some parameters ->
  agent_execute name user_input parameters
    (w1 ++ [EvAgentLookup (PStr name); EvExecute name user_input parameters])%list
  = (Ret result, w2) ->
  memory_get_context user_input (w2 ++ [EvGetContext user_input])%list
  = (Ret context, w3) ->
  llm (generate_calls w3) (suggestions_prompt user_input result context) 100
  = Ret suggestion ->
  process user_input w =
    (Ret (if String.eqb (strip suggestion) EmptyString then result
          else result +:+ suggestion_prefix +:+ strip suggestion),
     (w3 ++ [EvGenerate (suggestions_prompt user_input result context) 100])%list)
  /\ (PyFacts.blank suggestion = true -> fst (process user_input w) = Ret result).
Proof.
  intros Hintent Hprimary Hreg Hparams Hexec Hctx Hllm.
  assert (Hrun : process user_input w =
    (Ret (if String.eqb (strip suggestion) EmptyString then result
          else result +:+ suggestion_prefix +:+ strip suggestion),
     (w3 ++ [EvGenerate (suggestions_prompt user_input result context) 100])%list)).
  { unfold process_input, bind at 1. rewrite Hintent.
    unfold bind at 1, lift, subscript. rewrite Hprimary.
    rewrite (registered_nonempty _ Hreg).
    unfold bind at 1. unfold bind at 1. unfold agents_get. rewrite Hreg.
    unfold bind at 1. unfold lift. rewrite Hparams.
    unfold bind at 1. unfold run_agent. rewrite <- app_assoc. simpl app.
    rewrite Hexec.
    unfold bind at 1. unfold _generate_suggestions, bind at 1.
    unfold get_context. rewrite Hctx.
    unfold bind, llm_generate, ret. rewrite Hllm.
    destruct (String.eqb (strip suggestion) EmptyString); reflexivity. }
  split; [exact Hrun|].
  intros Hblank. rewrite Hrun. simpl fst.
  rewrite (PyFacts.strip_blank _ Hblank). reflexivity.
Qed.

(** An exception raised by the agent is not caught: it leaves
    [process_input] as it is, and no suggestion is asked for. *)
Theorem process_input_agent_exception_propagates
  (user_input name : string) (e : exn)
  (d : list (string * pyval)) (parameters : pyval) (w w1 w2 : world) :
  analyze user_input w = (Ret (PDict d), w1) ->
  dict_get "primary_agent" d = Some (PStr name) ->
  existsb (String.eqb name) agent_names = true ->
  dict_get "parameters" d = Some parameters ->
  agent_execute name user_input parameters
    (w1 ++ [EvAgentLookup (PStr name); EvExecute name user_input parameters])%list
  = (Raise e, w2) ->
  process user_input w = (Raise e, w2).
Proof.
  intros Hintent Hprimary Hreg Hparams Hexec.
  unfold process_input, bind at 1. rewrite Hintent.
  unfold bind at 1, lift, subscript. rewrite Hprimary.
  rewrite (registered_nonempty _ Hreg).
  unfold bind at 1. unfold bind at 1. unfold agents_get. rewrite Hreg.
  unfold bind at 1. unfold lift. rewrite Hparams.
  unfold bind at 1. unfold run_agent. rewrite <- app_assoc. simpl app.
  rewrite Hexec. reflexivity.
Qed.

End Routing.

(** ** Concrete runs of the routing cases *)

Definition quoted (s : string) : string := dquote +:+ s +:+ dquote.

(** [{"primary_agent": <agent>, "parameters": {}}] *)
Definition intent_text (agent : string) : string :=
  "{" +:+ quoted "primary_agent" +:+ ": " +:+ agent +:+ ", " +:+
  quoted "parameters" +:+ ": {}}".

(** [{"primary_agent": "scheduler"}] *)
Definition no_parameters_text : string :=
  "{" +:+ quoted "primary_agent" +:+ ": " +:+ quoted "scheduler" +:+ "}".

(** An agent that answers every request with the same text. *)
Definition fixed_agent (answer : string) : string -> string -> pyval -> M world string :=
  fun _ _ _ => ret answer.

Definition classify_event : event := EvGenerate (analyze_prompt "dim the lights") 512.

Lemma process_input_unknown_agent_falls_back_witness :
  process_input Json.loads (stub_llm (intent_text (quoted "automation")) "Done")
    no_agent no_context "dim the lights" [] =
  (Ret (add_signature "Done"),
   [classify_event; EvAgentLookup (PStr "automation");
    EvGenerate "dim the lights" 512]).
Proof.
  apply (process_input_unknown_agent_falls_back Json.loads
           (stub_llm (intent_text (quoted "automation")) "Done") no_agent no_context
           "dim the lights" "Done" "automation"
           (PDict [("primary_agent", PStr "automation"); ("parameters", PDict [])])
           [] [classify_event]).
  - vm_compute. reflexivity.
  - reflexivity.
  - discriminate.
  - reflexivity.
  - reflexivity.
Defined.

Lemma process_input_missing_parameters_raises_witness :
  process_input Json.loads (stub_llm no_parameters_text "Done")
    (fixed_agent "Reminder set.") no_context "dim the lights" [] =
  (Raise (KeyError "parameters"),
   [classify_event; EvAgentLookup (PStr "scheduler")]).
Proof.
  apply (process_input_missing_parameters_raises Json.loads
           (stub_llm no_parameters_text "Done") (fixed_agent "Reminder set.")
           no_context "dim the lights" "scheduler"
           [("primary_agent", PStr "scheduler")] [] [classify_event]).
  - vm_compute. reflexivity.
  - reflexivity.
  - reflexivity.
  - reflexivity.
Defined.

Lemma process_input_non_object_raises_witness :
  exists what,
    process_input Json.loads (stub_llm ("[" +:+ quoted "scheduler" +:+ "]") "Done")
      (fixed_agent "Reminder set.") no_context "dim the lights" [] =
    (Raise (TypeError what), [classify_event]).
Proof.
  apply (process_input_non_object_raises Json.loads
           (stub_llm ("[" +:+ quoted "scheduler" +:+ "]") "Done")
           (fixed_agent "Reminder set.") no_context "dim the lights"
           ("[" +:+ quoted "scheduler" +:+ "]") (PList [PStr "scheduler"]) []).
  - reflexivity.
  - vm_compute. reflexivity.
  - intros d. discriminate.
Defined.

Lemma process_input_unhashable_agent_raises_witness :
  exists what,
    process_input Json.loads
      (stub_llm (intent_text ("[" +:+ quoted "scheduler" +:+ "]")) "Done")
      (fixed_agent "Reminder set.") no_context "dim the lights" [] =
    (Raise (TypeError what),
     [classify_event; EvAgentLookup (PList [PStr "scheduler"])]).
Proof.
  apply (process_input_unhashable_agent_raises Json.loads
           (stub_llm (intent_text ("[" +:+ quoted "scheduler" +:+ "]")) "Done")
           (fixed_agent "Reminder set.") no_context "dim the lights"
           (PDict [("primary_agent", PList [PStr "scheduler"]);
                   ("parameters", PDict [])])
           (PList [PStr "scheduler"]) [] [classify_event]).
  - vm_compute. reflexivity.
  - reflexivity.
  - reflexivity.
  - left. eexists. reflexivity.
Defined.

Definition routed_world : world :=
  [classify_event; EvAgentLookup (PStr "scheduler");
   EvExecute "scheduler" "dim the lights" (PDict []);
   EvGetContext "dim the lights"].

Lemma process_input_routed_witness :
  process_input Json.loads (stub_llm (intent_text (quoted "scheduler")) "   ")
    (fixed_agent "Reminder set.") no_context "dim the lights" [] =
  (Ret (if String.eqb (strip "   ") EmptyString then "Reminder set."
        else "Reminder set." +:+ suggestion_prefix +:+ strip "   "),
   (routed_world ++
    [EvGenerate (suggestions_prompt "dim the lights" "Reminder set." EmptyString) 100])%list)
  /\ (PyFacts.blank "   " = true ->
      fst (process_input Json.loads (stub_llm (intent_text (quoted "scheduler")) "   ")
             (fixed_agent "Reminder set.") no_context "dim the lights" [])
      = Ret "Reminder set.").
Proof.
  apply (process_input_routed Json.loads
           (stub_llm (intent_text (quoted "scheduler")) "   ")
           (fixed_agent "Reminder set.") no_context
           "dim the lights" "scheduler" "Reminder set." EmptyString "   "
           [("primary_agent", PStr "scheduler"); ("parameters", PDict [])]
           (PDict []) [] [classify_event]
           [classify_event; EvAgentLookup (PStr "scheduler");
            EvExecute "scheduler" "dim the lights" (PDict [])]
           routed_world).
  - vm_compute. reflexivity.
  - reflexivity.
  - reflexivity.
  - reflexivity.
  - reflexivity.
  - reflexivity.
  - reflexivity.
Defined.

Lemma process_input_agent_exception_propagates_witness :
  process_input Json.loads (stub_llm (intent_text (quoted "scheduler")) "Done")
    no_agent no_context "dim the lights" [] =
  (Raise (BackendError "agent not modelled"),
   [classify_event; EvAgentLookup (PStr "scheduler");
    EvExecute "scheduler" "dim the lights" (PDict [])]).
Proof.
  apply (process_input_agent_exception_propagates Json.loads
           (stub_llm (intent_text (quoted "scheduler")) "Done")
           no_agent no_context "dim the lights" "scheduler"
           (BackendError "agent not modelled")
           [("primary_agent", PStr "scheduler"); ("parameters", PDict [])]
           (PDict []) [] [classify_event]).
  - vm_compute. reflexivity.
  - reflexivity.
  - reflexivity.
  - reflexivity.
  - reflexivity.
Defined.

End Orchestrator.

(* ===================================================================== *)
(** * The memory store (backend/core/memory_manager.py)                   *)
(* ===================================================================== *)

Module Memory.

(** A value as SQLite holds it in a column (the storage classes the store
    is given: NULL, INTEGER and TEXT). *)
Inductive sqlval : Type :=
| SqlNull
| SqlInt (z : Z)
| SqlText (s : string).

(** SQLite's ordering of values in [ORDER BY ... ASC]: NULL first, then
    numbers by value, then text by its bytes. *)
Definition sql_leb (a b : sqlval) : bool :=
  match a, b with
  | SqlNull, _ => true
  | SqlInt _, SqlNull => false
  | SqlInt x, SqlInt y => x <=? y
  | SqlInt _, SqlText _ => true
  | SqlText _, SqlNull => false
  | SqlText _, SqlInt _ => false
  | SqlText s, SqlText t => String.leb s t
  end.

(** A row of the [tasks] table, columns as [_initialize_db] creates them. *)
Record task : Type := Task {
  id : Z;
  created_at : string;
  due_date : sqlval;
  title : sqlval;
  description : sqlval;
  status : string;
  priority : Z
}.

(** The database: the [tasks] rows in rowid order, and the [preferences]
    table, whose primary key is [key] and whose [value] column holds JSON
    text. *)
Record db : Type := Db {
  tasks : list task;
  preferences : gmap string string
}.

Definition empty_db : db := {| tasks := []; preferences := ∅ |}.

Definition is_pending (t : task) : bool := String.eqb (status t) "pending".

(** [ORDER BY priority DESC, due_date ASC]: [a] may stand before [b]. *)
Definition task_leb (a b : task) : bool :=
  (priority b <? priority a)
  || ((priority a =? priority b) && sql_leb (due_date a) (due_date b)).

(** The sorter behind [ORDER BY]: rows are inserted one by one, each in
    front of the first row it may stand before, so rows that compare equal
    keep their rowid order. *)
Fixpoint insert_row (t : task) (l : list task) : list task :=
  match l with
  | [] => [t]
  | u :: l' => if task_leb t u then t :: u :: l' else u :: insert_row t l'
  end.

Fixpoint order_rows (l : list task) : list task :=
  match l with
  | [] => []
  | t :: l' => insert_row t (order_rows l')
  end.

(** [SELECT * FROM tasks WHERE status = 'pending'
     ORDER BY priority DESC, due_date ASC] *)
Definition get_pending_tasks (d : db) : list task :=
  order_rows (List.filter is_pending (tasks d)).

(** [INSERT INTO tasks (title, description, due_date, priority)]: the new
    row takes the next rowid, the current timestamp and status 'pending'. *)
Definition store_task (now : string) (ttl dsc due : sqlval) (prio : Z) (d : db) : db :=
  {| tasks := (tasks d ++
               [{| id := Z.of_nat (List.length (tasks d)) + 1;
                   created_at := now; due_date := due; title := ttl;
                   description := dsc; status := "pending";
                   priority := prio |}])%list;
     preferences := preferences d |}.

Section Preferences.

Variable json_dumps : pyval -> outcome string.
Variable json_loads : string -> outcome pyval.

(** [INSERT OR REPLACE INTO preferences (key, value)
     VALUES (key, json.dumps(value))] *)
Definition update_preference (key : string) (value : pyval) : M db unit :=
  do text <- lift (json_dumps value);
  fun d => (Ret tt, {| tasks := tasks d;
                       preferences := <[key := text]> (preferences d) |}).

(** [SELECT value FROM preferences WHERE key = ?], then [json.loads] of the
    row's text, or [None] when there is no row. *)
Definition get_preference (key : string) : M db pyval :=
  fun d => match preferences d !! key with
           | Some text => (json_loads text, d)
           | None => (Ret PNone, d)
           end.

(** A sequence of [update_preference] calls; a call that raises writes
    nothing. *)
Fixpoint run_updates (ups : list (string * pyval)) (d : db) : db :=
  match ups with
  | [] => d
  | (k, v) :: ups' => run_updates ups' (snd (update_preference k v d))
  end.

(** ** Properties of the preference table *)

Lemma update_preference_writes (k : string) (v : pyval) (text : string) (d : db) :
  json_dumps v = Ret text ->
  update_preference k v d =
    (Ret tt, {| tasks := tasks d; preferences := <[k := text]> (preferences d) |}).
Proof.
  intros H. unfold update_preference, bind, lift. rewrite H. reflexivity.
Qed.

Lemma update_preference_other (k k' : string) (v : pyval) (d : db) :
  k <> k' ->
  preferences (snd (update_preference k v d)) !! k' = preferences d !! k'.
Proof.
  intros Hne. unfold update_preference, bind, lift.
  destruct (json_dumps v); simpl; [|reflexivity].
  apply lookup_insert_ne. exact Hne.
Qed.

Lemma run_updates_other (ups : list (string * pyval)) (k : string) (d : db) :
  ~ In k (List.map fst ups) ->
  preferences (run_updates ups d) !! k = preferences d !! k.
Proof.
  revert d. induction ups as [|[k' v'] ups IH]; intros d Hk; simpl in *.
  - reflexivity.
  - rewrite IH by tauto. apply update_preference_other. tauto.
Qed.

(** C9. After [update_preference k v], whatever the store held before,
    [get_preference k] returns [v], also when other keys are written in
    between; a key that was never written reads as [None].  [v] is a value
    that [json.dumps] encodes and [json.loads] decodes back. *)
Theorem preference_last_write_wins
  (k : string) (v : pyval) (text : string) (d : db) :
  json_dumps v = Ret text ->
  json_loads text = Ret v ->
  fst (update_preference k v d) = Ret tt
  /\ fst (get_preference k (snd (update_preference k v d))) = Ret v
  /\ (forall ups, ~ In k (List.map fst ups) ->
        fst (get_preference k (run_updates ups (snd (update_preference k v d))))
        = Ret v)
  /\ (forall ups, ~ In k (List.map fst ups) ->
        fst (get_preference k (run_updates ups empty_db)) = Ret PNone).
Proof.
  intros Hd Hl. rewrite (update_preference_writes _ _ _ _ Hd). simpl.
  split; [reflexivity|]. split; [|split].
  - unfold get_preference. simpl. rewrite lookup_insert_eq, Hl. reflexivity.
  - intros ups Hk. unfold get_preference.
    rewrite (run_updates_other _ _ _ Hk). simpl.
    rewrite lookup_insert_eq, Hl. reflexivity.
  - intros ups Hk. unfold get_preference.
    rewrite (run_updates_other _ _ _ Hk). simpl.
    rewrite lookup_empty. reflexivity.
Qed.

End Preferences.

Definition ref_dumps (v : pyval) : outcome string := Ret (Json.dumps v).

Definition theme_v1 : pyval := PStr "light".
Definition theme_v2 : pyval := PDict [("mode", PStr "dark"); ("size", PInt 12)].

(** A store in which the key was already written once. *)
Definition theme_db : db :=
  snd (update_preference ref_dumps "theme" theme_v1 empty_db).

Lemma preference_last_write_wins_witness :
  fst (update_preference ref_dumps "theme" theme_v2 theme_db) = Ret tt
  /\ fst (get_preference Json.loads "theme"
            (snd (update_preference ref_dumps "theme" theme_v2 theme_db)))
     = Ret theme_v2
  /\ (forall ups, ~ In "theme" (List.map fst ups) ->
        fst (get_preference Json.loads "theme"
               (run_updates ref_dumps ups
                  (snd (update_preference ref_dumps "theme" theme_v2 theme_db))))
        = Ret theme_v2)
  /\ (forall ups, ~ In "theme" (List.map fst ups) ->
        fst (get_preference Json.loads "theme"
               (run_updates ref_dumps ups empty_db)) = Ret PNone).
Proof.
  apply (preference_last_write_wins ref_dumps Json.loads "theme" theme_v2
           (Json.dumps theme_v2) theme_db).
  - reflexivity.
  - vm_compute. reflexivity.
Defined.

(** ** Properties of the task query *)

(** The order of [ORDER BY priority DESC, due_date ASC], as a relation. *)
Definition before (a b : task) : Prop :=
  priority a > priority b
  \/ (priority a = priority b /\ sql_leb (due_date a) (due_date b) = true).

Lemma ascii_compare_trans (a b c : ascii) (o : comparison) :
  Ascii.compare a b = o -> Ascii.compare b c = o -> Ascii.compare a c = o.
Proof.
  unfold Ascii.compare. destruct o; intros H1 H2.
  - apply N.compare_eq_iff in H1, H2. apply N.compare_eq_iff. congruence.
  - rewrite N.compare_lt_iff in *. lia.
  - rewrite N.compare_gt_iff in *. lia.
Qed.

Lemma string_compare_lt_trans (s t u : string) :
  String.compare s t = Lt -> String.compare t u = Lt -> String.compare s u = Lt.
Proof.
  revert t u. induction s as [|a s IH]; intros [|b t] [|c u]; simpl;
    try congruence.
  destruct (Ascii.compare a b) eqn:Hab; try discriminate;
    destruct (Ascii.compare b c) eqn:Hbc; try discriminate; intros H1 H2.
  - rewrite (ascii_compare_trans _ _ _ _ Hab Hbc). eauto.
  - apply Ascii.compare_eq_iff in Hab. subst. rewrite Hbc. reflexivity.
  - apply Ascii.compare_eq_iff in Hbc. subst. rewrite Hab. reflexivity.
  - rewrite (ascii_compare_trans _ _ _ _ Hab Hbc). reflexivity.
Qed.

Lemma string_leb_trans (s t u : string) :
  String.leb s t = true -> String.leb t u = true -> String.leb s u = true.
Proof.
  unfold String.leb.
  destruct (String.compare s t) eqn:Hst; try discriminate;
    destruct (String.compare t u) eqn:Htu; try discriminate; intros _ _.
  - apply String.compare_eq_iff in Hst, Htu. subst.
    destruct (String.compare u u) eqn:Huu; try reflexivity.
    pose proof (String.compare_antisym u u) as Ha. rewrite Huu in Ha.
    discriminate Ha.
  - apply String.compare_eq_iff in Hst. subst. rewrite Htu. reflexivity.
  - apply String.compare_eq_iff in Htu. subst. rewrite Hst. reflexivity.
  - rewrite (string_compare_lt_trans _ _ _ Hst Htu). reflexivity.
Qed.

Lemma sql_leb_trans (a b c : sqlval) :
  sql_leb a b = true -> sql_leb b c = true -> sql_leb a c = true.
Proof.
  destruct a, b, c; simpl; try congruence; try lia.
  apply string_leb_trans.
Qed.

Lemma sql_leb_total (a b : sqlval) : sql_leb a b = false -> sql_leb b a = true.
Proof.
  destruct a, b; simpl; try congruence; try lia.
  intros H. destruct (String.leb_total s s0); congruence.
Qed.

Lemma task_leb_before (a b : task) : task_leb a b = true <-> before a b.
Proof.
  unfold task_leb, before.
  rewrite orb_true_iff, andb_true_iff, Z.ltb_lt, Z.eqb_eq. intuition lia.
Qed.

Lemma before_trans (a b c : task) : before a b -> before b c -> before a c.
Proof.
  unfold before. intros [H1|[H1 L1]] [H2|[H2 L2]]; try (left; lia).
  right. split; [lia|]. eapply sql_leb_trans; eauto.
Qed.

Lemma before_total (a b : task) : task_leb a b = false -> before b a.
Proof.
  unfold task_leb, before.
  rewrite orb_false_iff, andb_false_iff, Z.ltb_ge, Z.eqb_neq.
  intros [Hp [Hne|Hle]]; [left; lia|].
  destruct (Z.eq_dec (priority a) (priority b)) as [Heq|Hne]; [|left; lia].
  right. split; [lia|]. apply sql_leb_total. assumption.
Qed.

Lemma insert_row_perm (t : task) (l : list task) :
  Permutation (insert_row t l) (t :: l).
Proof.
  induction l as [|u l IH]; simpl; [reflexivity|].
  destruct (task_leb t u); [reflexivity|].
  rewrite IH. apply perm_swap.
Qed.

Lemma order_rows_perm (l : list task) : Permutation (order_rows l) l.
Proof.
  induction l as [|t l IH]; simpl; [reflexivity|].
  rewrite insert_row_perm. constructor. exact IH.
Qed.

Lemma insert_row_sorted (t : task) (l : list task) :
  StronglySorted before l -> StronglySorted before (insert_row t l).
Proof.
  induction 1 as [|u l Hs IH Hall]; simpl.
  - repeat constructor.
  - destruct (task_leb t u) eqn:Hle.
    + apply task_leb_before in Hle. constructor.
      * constructor; assumption.
      * constructor; [assumption|].
        eapply List.Forall_impl; [|exact Hall].
        intros c Hc. eapply before_trans; eauto.
    + constructor; [assumption|].
      apply before_total in Hle.
      eapply Permutation_Forall; [symmetry; apply insert_row_perm|].
      constructor; assumption.
Qed.

Lemma order_rows_sorted (l : list task) : StronglySorted before (order_rows l).
Proof.
  induction l as [|t l IH]; simpl; [constructor|].
  apply insert_row_sorted. exact IH.
Qed.

(** C5. [get_pending_tasks] returns exactly the stored tasks whose status
    is 'pending' (each once), and every returned task stands before all
    later ones in the order priority descending, then due_date ascending.
    Priorities are integers (1, 2, 3 among them); due dates are arbitrary
    stored values. *)
Theorem get_pending_tasks_sorted (d : db) :
  Forall (fun t => status t = "pending") (get_pending_tasks d)
  /\ Permutation (get_pending_tasks d) (List.filter is_pending (tasks d))
  /\ StronglySorted before (get_pending_tasks d).
Proof.
  unfold get_pending_tasks. split; [|split].
  - eapply Permutation_Forall; [symmetry; apply order_rows_perm|].
    apply List.Forall_forall. intros t Ht. apply List.filter_In in Ht.
    destruct Ht as [_ Ht]. unfold is_pending in Ht.
    apply String.eqb_eq. exact Ht.
  - apply order_rows_perm.
  - apply order_rows_sorted.
Qed.

Lemma in_get_pending_tasks (d : db) (t : task) :
  In t (get_pending_tasks d) <-> In t (tasks d) /\ status t = "pending".
Proof.
  unfold get_pending_tasks. split.
  - intros H. apply (Permutation_in _ (order_rows_perm _)) in H.
    apply List.filter_In in H. destruct H as [H1 H2]. split; [exact H1|].
    apply String.eqb_eq. exact H2.
  - intros [H1 H2].
    apply (Permutation_in _ (Permutation_sym (order_rows_perm _))).
    apply List.filter_In. split; [exact H1|].
    unfold is_pending. apply String.eqb_eq. exact H2.
Qed.

(** Three stored tasks, one of them done: the query drops the done one and
    puts priority 3 before priority 1, and the earlier of the two due
    dates first within priority 3. *)
Example get_pending_tasks_example :
  let row i due st p :=
    {| id := i; created_at := "2024-03-01 08:00:00"; due_date := SqlText due;
       title := SqlText "t"; description := SqlNull; status := st; priority := p |} in
  List.map id
    (get_pending_tasks
       {| tasks := [row 1 "2024-03-12T09:00:00" "pending" 1;
                    row 2 "2024-03-11T15:00:00" "done" 3;
                    row 3 "2024-03-14T10:30:00" "pending" 3;
                    row 4 "2024-03-11T15:00:00" "pending" 3];
          preferences := ∅ |})
  = [4; 3; 1].
Proof. reflexivity. Qed.

(** ** Storing tasks and composing preference updates *)

(** The row [store_task] adds. *)
Definition stored_row (stamp : string) (ttl dsc due : sqlval) (prio : Z) (d : db)
  : task :=
  {| id := Z.of_nat (List.length (tasks d)) + 1; created_at := stamp;
     due_date := due; title := ttl; description := dsc; status := "pending";
     priority := prio |}.

Lemma store_task_pending_perm
  (stamp : string) (ttl dsc due : sqlval) (prio : Z) (d : db) :
  Permutation (get_pending_tasks (store_task stamp ttl dsc due prio d))
    (stored_row stamp ttl dsc due prio d :: get_pending_tasks d).
Proof.
  unfold get_pending_tasks, store_task. cbn [tasks].
  rewrite order_rows_perm, List.filter_app. cbn [List.filter].
  change (is_pending _) with true. cbv iota.
  rewrite <- Permutation_cons_append.
  constructor. symmetry. apply order_rows_perm.
Qed.

(** A stored task is pending at once: after [store_task] the query returns
    the new row together with exactly the rows it returned before, and the
    preferences are untouched. *)
Theorem store_task_then_pending
  (stamp : string) (ttl dsc due : sqlval) (prio : Z) (d : db) :
  Permutation (get_pending_tasks (store_task stamp ttl dsc due prio d))
    (stored_row stamp ttl dsc due prio d :: get_pending_tasks d)
  /\ StronglySorted before (get_pending_tasks (store_task stamp ttl dsc due prio d))
  /\ preferences (store_task stamp ttl dsc due prio d) = preferences d.
Proof.
  split; [apply store_task_pending_perm|].
  split; [apply order_rows_sorted|reflexivity].
Qed.

Section PreferenceUpdates.

Variable json_dumps : pyval -> outcome string.

Abbreviation write k v d := (snd (update_preference json_dumps k v d)).

Lemma db_eq (d1 d2 : db) :
  tasks d1 = tasks d2 -> preferences d1 = preferences d2 -> d1 = d2.
Proof. destruct d1, d2. simpl. intros -> ->. reflexivity. Qed.

(** Preference writes compose like assignments: a second write to the
    same key replaces the first, writing the same value twice is writing it
    once, writes to different keys commute, and no write touches the
    tasks. *)
Theorem update_preference_composes
  (k k' : string) (v1 v2 : pyval) (t1 t2 : string) (d : db) :
  json_dumps v1 = Ret t1 ->
  json_dumps v2 = Ret t2 ->
  write k v2 (write k v1 d) = write k v2 d
  /\ write k v1 (write k v1 d) = write k v1 d
  /\ (k <> k' -> write k' v2 (write k v1 d) = write k v1 (write k' v2 d))
  /\ tasks (write k v1 d) = tasks d
  /\ get_pending_tasks (write k v1 d) = get_pending_tasks d.
Proof.
  intros H1 H2.
  rewrite !(update_preference_writes json_dumps _ _ _ _ H1),
          !(update_preference_writes json_dumps _ _ _ _ H2).
  cbn [snd tasks preferences].
  split; [apply db_eq; [reflexivity|apply insert_insert_eq]|].
  split; [apply db_eq; [reflexivity|apply insert_insert_eq]|].
  split; [|split; reflexivity].
  intros Hne. apply db_eq; [reflexivity|]. cbn [preferences].
  apply insert_insert_ne. congruence.
Qed.

End PreferenceUpdates.

Lemma update_preference_composes_witness :
  snd (update_preference ref_dumps "theme" theme_v2
         (snd (update_preference ref_dumps "theme" theme_v1 empty_db)))
  = snd (update_preference ref_dumps "theme" theme_v2 empty_db)
  /\ tasks (snd (update_preference ref_dumps "theme" theme_v1 empty_db)) = [].
Proof.
  destruct (update_preference_composes ref_dumps "theme" "font" theme_v1 theme_v2
              (Json.dumps theme_v1) (Json.dumps theme_v2) empty_db
              eq_refl eq_refl) as (H1 & _ & _ & H4 & _).
  split; [exact H1|exact H4].
Defined.

(** ** The conversation log *)

(** A row of the [conversations] table. *)
Record conversation : Type := Conversation {
  conv_id : Z;
  timestamp : string;
  user_input : string;
  leona_response : string;
  context : string
}.

(** [store_conversation(user_input, leona_response, context)]: one more
    row; [stamp] is the store's [CURRENT_TIMESTAMP]. *)
Definition store_conversation (stamp input response ctx : string)
  (log : list conversation) : list conversation :=
  (log ++ [{| conv_id := Z.of_nat (List.length log) + 1; timestamp := stamp;
              user_input := input; leona_response := response;
              context := ctx |}])%list.

(** [ORDER BY timestamp DESC]: [a] may stand before [b]. *)
Definition newer_leb (a b : conversation) : bool :=
  String.leb (timestamp b) (timestamp a).

Fixpoint insert_conversation (c : conversation) (l : list conversation)
  : list conversation :=
  match l with
  | [] => [c]
  | u :: l' =>
      if newer_leb c u then c :: u :: l' else u :: insert_conversation c l'
  end.

Fixpoint order_conversations (l : list conversation) : list conversation :=
  match l with
  | [] => []
  | c :: l' => insert_conversation c (order_conversations l')
  end.

(** [LIMIT n]: a negative [n] is no limit. *)
Definition limit_rows {A} (n : Z) (l : list A) : list A :=
  if n <? 0 then l else firstn (Z.to_nat n) l.

(** [SELECT * FROM conversations ORDER BY timestamp DESC LIMIT ?] *)
Definition get_recent_conversations (limit : Z) (log : list conversation)
  : list conversation :=
  limit_rows limit (order_conversations log).

Definition newer (a b : conversation) : Prop :=
  String.leb (timestamp b) (timestamp a) = true.

Lemma insert_conversation_perm (c : conversation) (l : list conversation) :
  Permutation (insert_conversation c l) (c :: l).
Proof.
  induction l as [|u l IH]; simpl; [reflexivity|].
  destruct (newer_leb c u); [reflexivity|].
  rewrite IH. apply perm_swap.
Qed.

Lemma order_conversations_perm (l : list conversation) :
  Permutation (order_conversations l) l.
Proof.
  induction l as [|c l IH]; simpl; [reflexivity|].
  rewrite insert_conversation_perm. constructor. exact IH.
Qed.

Lemma insert_conversation_sorted (c : conversation) (l : list conversation) :
  StronglySorted newer l -> StronglySorted newer (insert_conversation c l).
Proof.
  induction 1 as [|u l Hs IH Hall]; simpl.
  - repeat constructor.
  - destruct (newer_leb c u) eqn:Hle.
    + constructor; [constructor; assumption|].
      constructor; [exact Hle|].
      eapply List.Forall_impl; [|exact Hall].
      intros x Hx. unfold newer in *. unfold newer_leb in Hle.
      eapply string_leb_trans; eauto.
    + constructor; [assumption|].
      eapply Permutation_Forall; [symmetry; apply insert_conversation_perm|].
      constructor; [|assumption].
      unfold newer. unfold newer_leb in Hle.
      destruct (String.leb_total (timestamp c) (timestamp u)); congruence.
Qed.

Lemma order_conversations_sorted (l : list conversation) :
  StronglySorted newer (order_conversations l).
Proof.
  induction l as [|c l IH]; simpl; [constructor|].
  apply insert_conversation_sorted. exact IH.
Qed.

Lemma in_firstn {A} (n : nat) (l : list A) (x : A) : In x (firstn n l) -> In x l.
Proof.
  intros H. rewrite <- (List.firstn_skipn n l). apply in_or_app. left. exact H.
Qed.

Lemma in_skipn {A} (n : nat) (l : list A) (x : A) : In x (skipn n l) -> In x l.
Proof.
  intros H. rewrite <- (List.firstn_skipn n l). apply in_or_app. right. exact H.
Qed.

Lemma sorted_split {A} (R : A -> A -> Prop) (n : nat) (l : list A) :
  StronglySorted R l ->
  StronglySorted R (firstn n l)
  /\ (forall a b, In a (firstn n l) -> In b (skipn n l) -> R a b).
Proof.
  intros Hs. revert n. induction Hs as [|x l Hs IH Hall]; intros [|n]; simpl.
  - split; [constructor|intros a b []].
  - split; [constructor|intros a b []].
  - split; [constructor|intros a b []].
  - destruct (IH n) as [H1 H2]. split.
    + constructor; [exact H1|].
      rewrite List.Forall_forall in *. intros y Hy.
      apply Hall. eapply in_firstn; eauto.
    + intros a b [<-|Ha] Hb.
      * rewrite List.Forall_forall in Hall. apply Hall.
        eapply in_skipn; eauto.
      * apply H2; assumption.
Qed.

(** [get_recent_conversations(limit)] returns [min(limit, n)] of the [n]
    stored rows (all of them for a negative limit), newest first, and no
    row it leaves out is newer than a row it returns. *)
Theorem get_recent_conversations_newest (limit : Z) (log : list conversation) :
  let recent := get_recent_conversations limit log in
  List.length recent
  = (if limit <? 0 then List.length log
     else Nat.min (Z.to_nat limit) (List.length log))
  /\ StronglySorted newer recent
  /\ exists older,
       Permutation (recent ++ older)%list log
       /\ forall a b, In a recent -> In b older -> newer a b.
Proof.
  cbv zeta. unfold get_recent_conversations, limit_rows.
  pose proof (order_conversations_perm log) as Hperm.
  pose proof (order_conversations_sorted log) as Hsorted.
  destruct (limit <? 0).
  - split; [apply Permutation_length; exact Hperm|].
    split; [exact Hsorted|].
    exists []. rewrite app_nil_r. split; [exact Hperm|intros a b _ []].
  - destruct (sorted_split newer (Z.to_nat limit) _ Hsorted) as [H1 H2].
    split; [rewrite List.length_firstn, (Permutation_length Hperm); reflexivity|].
    split; [exact H1|].
    exists (skipn (Z.to_nat limit) (order_conversations log)).
    split; [rewrite List.firstn_skipn; exact Hperm|exact H2].
Qed.

Lemma order_conversations_newest_first (c : conversation) (log : list conversation) :
  Forall (fun u => String.ltb (timestamp u) (timestamp c) = true) log ->
  order_conversations (log ++ [c])%list = c :: order_conversations log.
Proof.
  induction log as [|u log IH]; intros Hall; [reflexivity|].
  inversion Hall as [|? ? Hu Hrest]; subst.
  cbn [app order_conversations]. rewrite (IH Hrest).
  cbn [insert_conversation].
  assert (Hlt : newer_leb u c = false).
  { unfold newer_leb, String.leb. unfold String.ltb in Hu.
    rewrite String.compare_antisym.
    destruct (String.compare (timestamp u) (timestamp c)); try discriminate.
    reflexivity. }
  rewrite Hlt. reflexivity.
Qed.

(** A conversation stored with a timestamp later than every stored one is
    the first that [get_recent_conversations] returns. *)
Theorem store_conversation_then_recent
  (stamp input response ctx : string) (limit : Z) (log : list conversation) :
  Forall (fun u => String.ltb (timestamp u) stamp = true) log ->
  0 < limit ->
  exists rest,
    get_recent_conversations limit (store_conversation stamp input response ctx log)
    = {| conv_id := Z.of_nat (List.length log) + 1; timestamp := stamp;
         user_input := input; leona_response := response; context := ctx |}
      :: rest.
Proof.
  intros Hall Hlimit. unfold get_recent_conversations, store_conversation, limit_rows.
  rewrite order_conversations_newest_first by exact Hall.
  destruct (limit <? 0) eqn:E; [apply Z.ltb_lt in E; lia|].
  destruct (Z.to_nat limit) as [|n] eqn:En; [lia|].
  cbn [firstn]. eexists. reflexivity.
Qed.

Lemma store_conversation_then_recent_witness :
  exists rest,
    get_recent_conversations 1
      (store_conversation "2024-03-10 09:27:00" "Test input" "Test response"
         "test_context"
         (store_conversation "2024-03-10 09:26:53" "hello" "Hello." "" []))
    = {| conv_id := 2; timestamp := "2024-03-10 09:27:00";
         user_input := "Test input"; leona_response := "Test response";
         context := "test_context" |} :: rest.
Proof.
  apply (store_conversation_then_recent "2024-03-10 09:27:00" "Test input"
           "Test response" "test_context" 1
           (store_conversation "2024-03-10 09:26:53" "hello" "Hello." "" [])).
  - repeat constructor.
  - lia.
Defined.

End Memory.

(* ===================================================================== *)
(** * Naive datetimes                                                     *)
(* ===================================================================== *)

(** A [datetime.datetime] without time zone is a point on the proleptic
    Gregorian time line with microsecond resolution: the number of
    microseconds since the midnight that starts day 0, where day 1 is
    0001-01-01 as in [date.toordinal()].  A [timedelta] is a number of
    microseconds.  Python's limits on the year (1..9999) are not
    modelled. *)
Module Datetime.

Definition datetime : Type := Z.
Definition timedelta : Type := Z.

Definition us_per_second : Z := 1000000.
Definition us_per_minute : Z := 60 * us_per_second.
Definition us_per_hour : Z := 60 * us_per_minute.
Definition us_per_day : Z := 24 * us_per_hour.

(** The fields of a datetime. *)
Definition ordinal (t : datetime) : Z := t / us_per_day.
Definition hour (t : datetime) : Z := (t mod us_per_day) / us_per_hour.
Definition minute (t : datetime) : Z := (t mod us_per_hour) / us_per_minute.
Definition second (t : datetime) : Z := (t mod us_per_minute) / us_per_second.
Definition microsecond (t : datetime) : Z := t mod us_per_second.

Definition make (day h m s us : Z) : datetime :=
  day * us_per_day + h * us_per_hour + m * us_per_minute + s * us_per_second + us.

(** [timedelta(weeks=, days=, hours=, minutes=)] with integer arguments. *)
Definition days (n : Z) : timedelta := n * us_per_day.
Definition weeks (n : Z) : timedelta := 7 * n * us_per_day.
Definition hours (n : Z) : timedelta := n * us_per_hour.
Definition minutes (n : Z) : timedelta := n * us_per_minute.

(** [t.replace(hour=h, minute=m, second=s)]: the date and the microsecond
    stay; a field out of range raises [ValueError]. *)
Definition replace_hms (t : datetime) (h m s : Z) : outcome datetime :=
  if negb ((0 <=? h) && (h <=? 23)) then Raise (ValueError "hour must be in 0..23")
  else if negb ((0 <=? m) && (m <=? 59)) then Raise (ValueError "minute must be in 0..59")
  else if negb ((0 <=? s) && (s <=? 59)) then Raise (ValueError "second must be in 0..59")
  else Ret (make (ordinal t) h m s (microsecond t)).

(** ** Calendar dates and text forms (reference implementations) *)

(** [date(y, m, d).toordinal()] *)
Definition ordinal_of_ymd (y m d : Z) : Z :=
  let y' := if m <=? 2 then y - 1 else y in
  let era := y' / 400 in
  let yoe := y' - era * 400 in
  let mp := if m <=? 2 then m + 9 else m - 3 in
  let doy := (153 * mp + 2) / 5 + d - 1 in
  let doe := yoe * 365 + yoe / 4 - yoe / 100 + doy in
  era * 146097 + doe - 305.

(** The year, month and day of an ordinal. *)
Definition ymd_of_ordinal (n : Z) : Z * Z * Z :=
  let z := n + 305 in
  let era := z / 146097 in
  let doe := z - era * 146097 in
  let yoe := (doe - doe / 1460 + doe / 36524 - doe / 146096) / 365 in
  let doy := doe - (365 * yoe + yoe / 4 - yoe / 100) in
  let mp := (5 * doy + 2) / 153 in
  let d := doy - (153 * mp + 2) / 5 + 1 in
  let m := if mp <? 10 then mp + 3 else mp - 9 in
  (if m <=? 2 then yoe + era * 400 + 1 else yoe + era * 400, m, d).

Definition digit_char (n : Z) : ascii := ascii_of_nat (48 + Z.to_nat (n mod 10)).

(** [n] written with exactly [width] digits, zero padded. *)
Fixpoint zero_pad (width : nat) (n : Z) : string :=
  match width with
  | O => EmptyString
  | S w => zero_pad w (n / 10) +:+ String (digit_char n) EmptyString
  end.

(** [t.isoformat()] *)
Definition isoformat (t : datetime) : string :=
  let '(y, m, d) := ymd_of_ordinal (ordinal t) in
  zero_pad 4 y +:+ "-" +:+ zero_pad 2 m +:+ "-" +:+ zero_pad 2 d +:+ "T" +:+
  zero_pad 2 (hour t) +:+ ":" +:+ zero_pad 2 (minute t) +:+ ":" +:+
  zero_pad 2 (second t) +:+
  (if microsecond t =? 0 then EmptyString else "." +:+ zero_pad 6 (microsecond t)).

(** Reads exactly [width] digits. *)
Fixpoint read_fixed (width : nat) (s : string) (acc : Z) : option (Z * string) :=
  match width with
  | O => Some (acc, s)
  | S w =>
      match s with
      | String c s' =>
          if Json.is_digit c then read_fixed w s' (10 * acc + Json.digit_val c)
          else None
      | EmptyString => None
      end
  end.

Definition expect (c : ascii) (s : string) : option string :=
  match s with
  | String c' s' => if Ascii.eqb c c' then Some s' else None
  | EmptyString => None
  end.

Definition parse_iso (s : string) : option datetime :=
  '(y, s) ← read_fixed 4 s 0; s ← expect "-" s;
  '(m, s) ← read_fixed 2 s 0; s ← expect "-" s;
  '(d, s) ← read_fixed 2 s 0;
  if negb ((1 <=? y) && (1 <=? m) && (m <=? 12) && (1 <=? d)
           && (ordinal_of_ymd y m d <? ordinal_of_ymd (if m =? 12 then y + 1 else y)
                                         (if m =? 12 then 1 else m + 1) 1))
  then None else
  let day := ordinal_of_ymd y m d in
  match s with
  | EmptyString => Some (make day 0 0 0 0)
  | String _ s =>
      '(hh, s) ← read_fixed 2 s 0; s ← expect ":" s;
      '(mm, s) ← read_fixed 2 s 0; s ← expect ":" s;
      '(ss, s) ← read_fixed 2 s 0;
      if negb ((hh <=? 23) && (mm <=? 59) && (ss <=? 59)) then None else
      match s with
      | EmptyString => Some (make day hh mm ss 0)
      | String c s =>
          if Ascii.eqb c "." then
            '(us, s) ← read_fixed 6 s 0;
            match s with
            | EmptyString => Some (make day hh mm ss us)
            | _ => None
            end
          else None
      end
  end.

(** [datetime.fromisoformat(s)] on the texts [isoformat] writes. *)
Definition fromisoformat (s : string) : outcome datetime :=
  match parse_iso s with
  | Some t => Ret t
  | None => Raise (ValueError "Invalid isoformat string")
  end.

Definition month_name (m : Z) : string :=
  match m with
  | 1 => "January" | 2 => "February" | 3 => "March" | 4 => "April"
  | 5 => "May" | 6 => "June" | 7 => "July" | 8 => "August"
  | 9 => "September" | 10 => "October" | 11 => "November" | _ => "December"
  end.

(** [t.strftime(format)] for the directives [%B %d %I %M %p] (C locale);
    every other character is copied. *)
Fixpoint strftime (format : string) (t : datetime) : string :=
  match format with
  | String "%" (String c rest) =>
      (match nat_of_ascii c with
       | 66%nat => month_name (snd (fst (ymd_of_ordinal (ordinal t))))
       | 100%nat => zero_pad 2 (snd (ymd_of_ordinal (ordinal t)))
       | 73%nat => zero_pad 2 (if hour t mod 12 =? 0 then 12 else hour t mod 12)
       | 77%nat => zero_pad 2 (minute t)
       | 112%nat => if hour t <? 12 then "AM" else "PM"
       | _ => String "%" (String c EmptyString)
       end) +:+ strftime rest t
  | String c rest => String c (strftime rest t)
  | EmptyString => EmptyString
  end.

End Datetime.

(** ** Facts about the fields of a datetime *)

Module DatetimeFacts.

Import Datetime.

Ltac unfold_fields :=
  unfold ordinal, hour, minute, second, microsecond, make, days, weeks, hours,
    minutes, us_per_day, us_per_hour, us_per_minute, us_per_second in *.

(** Every datetime has fields in range. *)
Lemma fields_in_range (t : datetime) :
  0 <= hour t <= 23 /\ 0 <= minute t <= 59 /\ 0 <= second t <= 59
  /\ 0 <= microsecond t <= 999999.
Proof. unfold_fields. repeat split; Z.to_euclidean_division_equations; lia. Qed.

(** The fields of [make] are its arguments, when they are in range. *)
Lemma make_fields (d h m s us : Z) :
  0 <= h <= 23 -> 0 <= m <= 59 -> 0 <= s <= 59 -> 0 <= us <= 999999 ->
  ordinal (make d h m s us) = d /\ hour (make d h m s us) = h
  /\ minute (make d h m s us) = m /\ second (make d h m s us) = s
  /\ microsecond (make d h m s us) = us.
Proof.
  intros Hh Hm Hs Hus. unfold_fields.
  repeat split; Z.to_euclidean_division_equations; lia.
Qed.

(** A datetime is [make] of its fields. *)
Lemma make_of_fields (t : datetime) :
  make (ordinal t) (hour t) (minute t) (second t) (microsecond t) = t.
Proof. unfold_fields. Z.to_euclidean_division_equations. lia. Qed.

(** Adding whole days moves the date and keeps the time of day. *)
Lemma add_days_fields (t n : Z) :
  ordinal (t + days n) = ordinal t + n /\ hour (t + days n) = hour t
  /\ minute (t + days n) = minute t /\ second (t + days n) = second t
  /\ microsecond (t + days n) = microsecond t.
Proof.
  unfold_fields. repeat split; Z.to_euclidean_division_equations; lia.
Qed.

(** [replace(hour, minute, second)] succeeds exactly on fields in range,
    and then sets them, keeping the date and the microsecond. *)
Lemma replace_hms_fields (t t' h m s : Z) :
  replace_hms t h m s = Ret t' ->
  0 <= h <= 23 /\ 0 <= m <= 59 /\ 0 <= s <= 59
  /\ ordinal t' = ordinal t /\ hour t' = h /\ minute t' = m /\ second t' = s
  /\ microsecond t' = microsecond t.
Proof.
  unfold replace_hms.
  destruct ((0 <=? h) && (h <=? 23)) eqn:Eh; [|discriminate].
  destruct ((0 <=? m) && (m <=? 59)) eqn:Em; [|discriminate].
  destruct ((0 <=? s) && (s <=? 59)) eqn:Es; [|discriminate].
  cbn [negb]. intros H. injection H as <-.
  apply andb_true_iff in Eh, Em, Es.
  rewrite !Z.leb_le in Eh, Em, Es.
  destruct (fields_in_range t) as (_ & _ & _ & Hus).
  destruct (make_fields (ordinal t) h m s (microsecond t)) as (H1 & H2 & H3 & H4 & H5);
    lia.
Qed.

Lemma replace_hms_raises (t h m s : Z) (e : exn) :
  replace_hms t h m s = Raise e ->
  (exists what, e = ValueError what)
  /\ (h < 0 \/ 23 < h \/ m < 0 \/ 59 < m \/ s < 0 \/ 59 < s).
Proof.
  unfold replace_hms.
  destruct ((0 <=? h) && (h <=? 23)) eqn:Eh; cbn [negb].
  - destruct ((0 <=? m) && (m <=? 59)) eqn:Em; cbn [negb].
    + destruct ((0 <=? s) && (s <=? 59)) eqn:Es; cbn [negb]; [discriminate|].
      intros H. injection H as <-. split; [eauto|].
      apply andb_false_iff in Es. rewrite !Z.leb_gt in Es. lia.
    + intros H. injection H as <-. split; [eauto|].
      apply andb_false_iff in Em. rewrite !Z.leb_gt in Em. lia.
  - intros H. injection H as <-. split; [eauto|].
    apply andb_false_iff in Eh. rewrite !Z.leb_gt in Eh. lia.
Qed.

End DatetimeFacts.

(* ===================================================================== *)
(** * The scheduler agent (backend/agents/scheduler_agent.py)             *)
(* ===================================================================== *)

Module Scheduler.

Import Datetime.

(** An entry of [self.reminders]. *)
Record reminder : Type := Reminder {
  id : Z;
  title : string;
  time : datetime;
  priority : string;
  created_at : datetime;
  notified : bool
}.

Definition set_notified (r : reminder) : reminder :=
  {| id := id r; title := title r; time := time r; priority := priority r;
     created_at := created_at r; notified := true |}.

(** The agent's own collection and the store it shares.  ([recurring_tasks]
    is only ever appended to and read by a loop whose body is [pass]; it is
    left out.) *)
Record agent : Type := Agent {
  reminders : list reminder;
  memory : Memory.db
}.

(** The parsed scheduling request [_add_reminder] reads: each field is
    [None] when the key is absent. *)
Record request : Type := Request {
  req_title : option string;
  req_parsed_time : option datetime;
  req_priority : option string
}.

(** The event dict [_check_conflicts] reads: [start_time], [time] and
    [duration] (minutes), each [None] when the key is absent. *)
Record event : Type := Event {
  ev_start_time : option datetime;
  ev_time : option datetime;
  ev_duration : option Z
}.

(** ** The regular expression of [_parse_natural_time]

    [(\d{1,2}):?(\d{0,2})?\s*(am|pm)?], searched from the left.  Every part
    after the first group can match the empty string, so the search stops
    at the first digit and each greedy choice stands. *)

(** At most [n] digits from the front of [s], and the rest. *)
Fixpoint take_digits (n : nat) (s : string) : string * string :=
  match n, s with
  | S n', String c s' =>
      if Json.is_digit c
      then let '(ds, rest) := take_digits n' s' in (String c ds, rest)
      else (EmptyString, s)
  | _, _ => (EmptyString, s)
  end.

(** The groups of the match that starts at a digit. *)
Definition match_here (s : string) : string * string * option string :=
  let '(g1, r1) := take_digits 2 s in
  let r2 := match r1 with String ":" r => r | _ => r1 end in
  let '(g2, r3) := take_digits 2 r2 in
  let r4 := lstrip r3 in
  (g1, g2,
   if String.prefix "am" r4 then Some "am"
   else if String.prefix "pm" r4 then Some "pm" else None).

(** [re.search(pattern, s)]: the groups, or [None] without a digit. *)
Fixpoint time_search (s : string) : option (string * string * option string) :=
  match s with
  | EmptyString => None
  | String c s' => if Json.is_digit c then Some (match_here s) else time_search s'
  end.

(** [int(s)] of a digit string. *)
Definition int_of_digits (s : string) : Z := fst (Json.read_digits s 0).

(** [s.capitalize()] on ASCII letters. *)
Definition upper_char (c : ascii) : ascii :=
  let n := nat_of_ascii c in
  if ((97 <=? n) && (n <=? 122))%nat then ascii_of_nat (n - 32) else c.
Definition capitalize (s : string) : string :=
  match s with
  | EmptyString => EmptyString
  | String c s' => String (upper_char c) (lower s')
  end.

Definition or_default {A} (o : option A) (d : A) : A :=
  match o with Some x => x | None => d end.

Section WithLibraries.

(** [dateutil.parser.parse], [datetime.isoformat], [datetime.fromisoformat]
    and [datetime.strftime]. *)
Variable dateutil_parse : string -> outcome datetime.
Variable isoformat : datetime -> string.
Variable fromisoformat : string -> outcome datetime.
Variable strftime : string -> datetime -> string.

(** [_parse_natural_time(time_str)], with [now] the reading of
    [datetime.now()]. *)
Definition _parse_natural_time (now : datetime) (time_str : string)
  : outcome datetime :=
  let time_str_lower := lower time_str in
  let overlay (base_date : datetime) : outcome datetime :=
    match time_search time_str_lower with
    | Some (g1, g2, am_pm) =>
        let hour := int_of_digits g1 in
        let minute := if String.eqb g2 EmptyString then 0 else int_of_digits g2 in
        let hour :=
          match am_pm with
          | Some "pm" => if hour <? 12 then hour + 12 else hour
          | Some "am" => if hour =? 12 then 0 else hour
          | _ => hour
          end in
        replace_hms base_date hour minute 0
    | None => Ret base_date
    end in
  if contains "tomorrow" time_str_lower then overlay (now + days 1)
  else if contains "today" time_str_lower then overlay now
  else if contains "next week" time_str_lower then overlay (now + weeks 1)
  else if contains "next month" time_str_lower then overlay (now + days 30)
  else match dateutil_parse time_str with
       | Ret t => Ret t
       | Raise _ => overlay now
       end.

(** The index of the priority map in [_add_reminder]. *)
Definition priority_number (p : string) : outcome Z :=
  if String.eqb p "high" then Ret 1
  else if String.eqb p "medium" then Ret 2
  else if String.eqb p "low" then Ret 3
  else Raise (KeyError p).

Definition reminder_response (r : reminder) : string :=
  "✅ Reminder set successfully!" +:+ nl +:+
  nl +:+
  "📅 **" +:+ title r +:+ "**" +:+ nl +:+
  "⏰ Time: " +:+ strftime "%B %d at %I:%M %p" (time r) +:+ nl +:+
  "🎯 Priority: " +:+ capitalize (priority r) +:+ nl +:+
  nl +:+
  "I'll notify you when it's time. Would you like to add any additional details or set another reminder?".

(** [_add_reminder(data)].  [now1] and [now2] are its two readings of
    [datetime.now()], [stamp] the store's timestamp for the new row.  The
    reminder is appended before the priority is looked up, so it stays in
    the list when the lookup raises. *)
Definition _add_reminder (now1 now2 : datetime) (stamp : string) (data : request)
  : M agent string :=
  fun a =>
    let r := {| id := Z.of_nat (List.length (reminders a)) + 1;
                title := or_default (req_title data) "Reminder";
                time := or_default (req_parsed_time data) (now1 + hours 1);
                priority := or_default (req_priority data) "medium";
                created_at := now2;
                notified := false |} in
    let a1 := {| reminders := (reminders a ++ [r])%list; memory := memory a |} in
    match priority_number (priority r) with
    | Raise e => (Raise e, a1)
    | Ret n =>
        (Ret (reminder_response r),
         {| reminders := reminders a1;
            memory := Memory.store_task stamp (Memory.SqlText (title r))
                        Memory.SqlNull (Memory.SqlText (isoformat (time r))) n
                        (memory a1) |})
    end.

(** [if task['due_date']: task_time = datetime.fromisoformat(...)]: [None]
    when the stored value is falsy, otherwise the parse (which raises on a
    value that is not an ISO text). *)
Definition due_time (t : Memory.task) : option (outcome datetime) :=
  match Memory.due_date t with
  | Memory.SqlNull => None
  | Memory.SqlInt z =>
      if z =? 0 then None
      else Some (Raise (TypeError "fromisoformat: argument must be str"))
  | Memory.SqlText s =>
      if String.eqb s EmptyString then None else Some (fromisoformat s)
  end.

(** [str(task['title'])] inside the f-string. *)
Definition title_text (t : Memory.task) : string :=
  match Memory.title t with
  | Memory.SqlNull => "None"
  | Memory.SqlInt z => Json.int_repr z
  | Memory.SqlText s => s
  end.

(** The loop of [_check_conflicts]: the titles of the tasks whose time
    lies in the window, in order. *)
Fixpoint collect_conflicts (event_start event_end : datetime)
  (tasks : list Memory.task) : outcome (list string) :=
  match tasks with
  | [] => Ret []
  | t :: tasks' =>
      match due_time t with
      | None => collect_conflicts event_start event_end tasks'
      | Some (Raise e) => Raise e
      | Some (Ret task_time) =>
          match collect_conflicts event_start event_end tasks' with
          | Raise e => Raise e
          | Ret conflicts =>
              if (event_start <=? task_time) && (task_time <=? event_end)
              then Ret (title_text t :: conflicts) else Ret conflicts
          end
      end
  end.

(** [event.get('start_time') or event.get('time')] *)
Definition event_start_of (ev : event) : option datetime :=
  match ev_start_time ev with
  | Some t => Some t
  | None => ev_time ev
  end.

(** [_check_conflicts(event)]: the empty string means no conflict. *)
Definition _check_conflicts (ev : event) : M agent string :=
  fun a =>
    let tasks := Memory.get_pending_tasks (memory a) in
    match event_start_of ev with
    | None => (Raise (TypeError "unsupported operand type(s) for +: 'NoneType' and 'datetime.timedelta'"), a)
    | Some event_start =>
        let event_end := event_start + minutes (or_default (ev_duration ev) 60) in
        match collect_conflicts event_start event_end tasks with
        | Raise e => (Raise e, a)
        | Ret [] => (Ret EmptyString, a)
        | Ret (first :: _) =>
            (Ret ("You have '" +:+ first +:+ "' scheduled at that time"), a)
        end
    end.

End WithLibraries.

(** One pass of the [for reminder in self.reminders] loop of
    [_reminder_checker]: the reminders after it and the lines printed. *)
Definition check_reminder (now : datetime) (r : reminder) : reminder * list string :=
  if negb (notified r) && (time r <=? now)
  then (set_notified r, ["🔔 REMINDER: " +:+ title r])
  else (r, []).

Fixpoint check_reminders (now : datetime) (rs : list reminder)
  : list reminder * list string :=
  match rs with
  | [] => ([], [])
  | r :: rs' =>
      let '(r', out) := check_reminder now r in
      let '(rs'', out') := check_reminders now rs' in
      (r' :: rs'', (out ++ out')%list)
  end.

(** One iteration of the [while True] body, at clock reading [now]. *)
Definition reminder_checker_iteration (now : datetime) (a : agent) : agent :=
  {| reminders := fst (check_reminders now (reminders a)); memory := memory a |}.

(** [_reminder_checker] over the clock readings of its first iterations. *)
Fixpoint _reminder_checker (nows : list datetime) (a : agent) : agent :=
  match nows with
  | [] => a
  | now :: nows' => _reminder_checker nows' (reminder_checker_iteration now a)
  end.

(** ** The reminder life cycle *)

Section ReminderLifeCycle.

Variable isoformat : datetime -> string.
Variable strftime : string -> datetime -> string.

(** What can happen to [self.reminders]: an iteration of the checker, or a
    call of [_add_reminder]. *)
Inductive op : Type :=
| Check (now : datetime)
| Add (now1 now2 : datetime) (stamp : string) (data : request).

Definition step (o : op) (a : agent) : agent :=
  match o with
  | Check now => reminder_checker_iteration now a
  | Add now1 now2 stamp data =>
      snd (_add_reminder isoformat strftime now1 now2 stamp data a)
  end.

Fixpoint run (ops : list op) (a : agent) : agent :=
  match ops with
  | [] => a
  | o :: ops' => run ops' (step o a)
  end.

(** The [notified] flag of the [i]-th reminder, if there is one. *)
Definition flag (i : nat) (a : agent) : option bool :=
  notified <$> reminders a !! i.

(** The flag of reminder [i] goes from false to true between [a] and [a']. *)
Definition flipped (i : nat) (a a' : agent) : bool :=
  match flag i a, flag i a' with
  | Some false, Some true => true
  | _, _ => false
  end.

(** How often the flag of reminder [i] goes from false to true in a run. *)
Fixpoint flips (i : nat) (ops : list op) (a : agent) : nat :=
  match ops with
  | [] => 0%nat
  | o :: ops' =>
      ((if flipped i a (step o a) then 1 else 0) + flips i ops' (step o a))%nat
  end.

Lemma check_reminders_map (now : datetime) (rs : list reminder) :
  fst (check_reminders now rs) = List.map (fun r => fst (check_reminder now r)) rs.
Proof.
  induction rs as [|r rs IH]; simpl; [reflexivity|].
  destruct (check_reminder now r) as [r' out].
  destruct (check_reminders now rs) as [rs' out'].
  simpl in *. congruence.
Qed.

Lemma check_reminder_fired (now : datetime) (r : reminder) :
  notified r = true -> fst (check_reminder now r) = r.
Proof. intros H. unfold check_reminder. rewrite H. reflexivity. Qed.

Lemma check_reminder_flag (now : datetime) (r : reminder) :
  notified r = false -> notified (fst (check_reminder now r)) = true ->
  time r <= now.
Proof.
  unfold check_reminder. intros Hn.
  destruct (time r <=? now) eqn:Hle; rewrite Hn; simpl.
  - intros _. apply Z.leb_le. exact Hle.
  - congruence.
Qed.

Lemma check_lookup (now : datetime) (a : agent) (i : nat) :
  reminders (reminder_checker_iteration now a) !! i
  = (fun r => fst (check_reminder now r)) <$> reminders a !! i.
Proof.
  unfold reminder_checker_iteration. simpl.
  rewrite check_reminders_map. apply list_lookup_fmap.
Qed.

Lemma add_lookup (now1 now2 : datetime) (stamp : string) (data : request)
  (a : agent) (i : nat) (r : reminder) :
  reminders a !! i = Some r ->
  reminders (snd (_add_reminder isoformat strftime now1 now2 stamp data a)) !! i
  = Some r.
Proof.
  intros H. unfold _add_reminder.
  destruct (priority_number _); simpl; apply lookup_app_l_Some; exact H.
Qed.

Lemma step_keeps_fired (o : op) (a : agent) (i : nat) (r : reminder) :
  reminders a !! i = Some r -> notified r = true ->
  reminders (step o a) !! i = Some r.
Proof.
  intros Hi Hn. destruct o as [now|now1 now2 stamp data]; cbn [step].
  - rewrite check_lookup, Hi. simpl. rewrite check_reminder_fired; auto.
  - apply add_lookup. exact Hi.
Qed.

Lemma run_keeps_fired (ops : list op) (a : agent) (i : nat) (r : reminder) :
  reminders a !! i = Some r -> notified r = true ->
  reminders (run ops a) !! i = Some r.
Proof.
  revert a. induction ops as [|o ops IH]; intros a Hi Hn; simpl; [exact Hi|].
  apply IH; [|exact Hn]. apply step_keeps_fired; assumption.
Qed.

Lemma flips_after_fired (ops : list op) (a : agent) (i : nat) :
  flag i a = Some true -> flips i ops a = 0%nat.
Proof.
  revert a. induction ops as [|o ops IH]; intros a Hf; simpl; [reflexivity|].
  unfold flag in Hf. destruct (reminders a !! i) as [r|] eqn:Hi; [|discriminate].
  simpl in Hf. injection Hf as Hn.
  pose proof (step_keeps_fired o a i r Hi Hn) as Hi'.
  rewrite IH by (unfold flag; rewrite Hi'; simpl; congruence).
  unfold flipped, flag. rewrite Hi. simpl. rewrite Hn. reflexivity.
Qed.

Lemma flips_at_most_once (ops : list op) (a : agent) (i : nat) :
  (flips i ops a <= 1)%nat.
Proof.
  revert a. induction ops as [|o ops IH]; intros a; simpl; [lia|].
  destruct (flipped i a (step o a)) eqn:Hf.
  - rewrite flips_after_fired; [lia|].
    unfold flipped in Hf.
    destruct (flag i a) as [[|]|]; try discriminate.
    destruct (flag i (step o a)) as [[|]|]; try discriminate. reflexivity.
  - specialize (IH (step o a)). lia.
Qed.

Lemma flipped_only_by_due_check (o : op) (a : agent) (i : nat) :
  flipped i a (step o a) = true ->
  exists now r, o = Check now /\ reminders a !! i = Some r
                /\ notified r = false /\ time r <= now.
Proof.
  unfold flipped, flag. intros Hf.
  destruct (reminders a !! i) as [r|] eqn:Hi; simpl in Hf; [|discriminate].
  destruct (notified r) eqn:Hn; [discriminate|].
  destruct o as [now|now1 now2 stamp data].
  - exists now, r. repeat split; auto.
    cbn [step] in Hf. rewrite check_lookup, Hi in Hf. simpl in Hf.
    destruct (notified (fst (check_reminder now r))) eqn:Hn'; [|discriminate].
    eapply check_reminder_flag; eauto.
  - cbn [step] in Hf. rewrite (add_lookup _ _ _ _ _ _ _ Hi) in Hf. simpl in Hf.
    rewrite Hn in Hf. discriminate.
Qed.

(** C4. In every run of checker iterations and [_add_reminder] calls, from
    every state: the [notified] flag of a reminder goes from false to true
    at most once; a step that flips it is a checker iteration whose clock
    reading is at or after the reminder's time; and a reminder whose flag
    is true is left exactly as it is by everything that follows, further
    checker iterations included. *)
Theorem reminder_notified_monotonic (i : nat) (ops : list op) (a : agent) :
  (flips i ops a <= 1)%nat
  /\ (forall o, flipped i a (step o a) = true ->
        exists now r, o = Check now /\ reminders a !! i = Some r
                      /\ notified r = false /\ time r <= now)
  /\ (forall r, reminders a !! i = Some r -> notified r = true ->
        reminders (run ops a) !! i = Some r)
  /\ (forall r nows, reminders a !! i = Some r -> notified r = true ->
        reminders (_reminder_checker nows a) !! i = Some r).
Proof.
  split; [apply flips_at_most_once|].
  split; [intros o; apply flipped_only_by_due_check|].
  split; [intros r; apply run_keeps_fired|].
  intros r nows. revert a.
  induction nows as [|now nows IH]; intros a Hi Hn; simpl; [exact Hi|].
  apply IH; [|exact Hn]. apply (step_keeps_fired (Check now)); assumption.
Qed.

End ReminderLifeCycle.

(** ** The conflict check *)

Section Conflicts.

Variable fromisoformat : string -> outcome datetime.

Abbreviation due_time := (due_time fromisoformat).
Abbreviation collect_conflicts := (collect_conflicts fromisoformat).

(** Every due date in [tasks] is empty or a text that parses. *)
Definition due_dates_parse (tasks : list Memory.task) : Prop :=
  forall t, In t tasks -> due_time t = None \/ exists T, due_time t = Some (Ret T).

Lemma collect_conflicts_spec (event_start event_end : datetime)
  (tasks : list Memory.task) :
  due_dates_parse tasks ->
  exists titles,
    collect_conflicts event_start event_end tasks = Ret titles
    /\ (titles <> [] <->
        exists t T, In t tasks /\ due_time t = Some (Ret T)
                    /\ event_start <= T <= event_end).
Proof.
  induction tasks as [|t tasks IH]; intros Hparse.
  - exists []. split; [reflexivity|]. split; [congruence|].
    intros (t & T & [] & _).
  - destruct IH as (titles & Hrun & Hiff).
    { intros u Hu. apply Hparse. right. exact Hu. }
    simpl. destruct (Hparse t (or_introl eq_refl)) as [Hnone|[T HT]].
    + rewrite Hnone. exists titles. split; [exact Hrun|].
      rewrite Hiff. split.
      * intros (u & U & Hu & HU & Hwin). exists u, U. auto.
      * intros (u & U & [Hu|Hu] & HU & Hwin); [subst; congruence|].
        exists u, U. auto.
    + rewrite HT, Hrun.
      destruct ((event_start <=? T) && (T <=? event_end)) eqn:Hin.
      * exists (title_text t :: titles). split; [reflexivity|].
        split; [|congruence]. intros _. exists t, T.
        apply andb_true_iff in Hin. destruct Hin as [H1 H2].
        apply Z.leb_le in H1, H2. auto.
      * exists titles. split; [reflexivity|]. rewrite Hiff. split.
        -- intros (u & U & Hu & HU & Hwin). exists u, U. auto.
        -- intros (u & U & [Hu|Hu] & HU & Hwin); [|exists u, U; auto].
           subst u. rewrite HT in HU. injection HU as ->.
           apply andb_false_iff in Hin.
           destruct Hin as [Hin|Hin]; apply Z.leb_gt in Hin; lia.
Qed.

(** C3. For an event whose start is [event_start] and a store whose
    pending due dates are empty or parse, [_check_conflicts] reports a
    conflict (a non-empty text) exactly when some pending task's due time
    [T] has [event_start <= T <= event_start + duration], both bounds
    included.  So an event of non-negative duration that starts exactly at
    a pending task's time conflicts, and an event that ends one
    microsecond before the only pending time does not. *)
Theorem check_conflicts_inclusive_window
  (ev : event) (a : agent) (event_start : datetime) :
  event_start_of ev = Some event_start ->
  due_dates_parse (Memory.get_pending_tasks (memory a)) ->
  exists msg,
    _check_conflicts fromisoformat ev a = (Ret msg, a)
    /\ (msg <> EmptyString <->
        exists t T,
          In t (Memory.tasks (memory a)) /\ Memory.status t = "pending"
          /\ due_time t = Some (Ret T)
          /\ event_start <= T
             <= event_start + minutes (or_default (ev_duration ev) 60))
    /\ (forall t,
          In t (Memory.tasks (memory a)) -> Memory.status t = "pending" ->
          due_time t = Some (Ret event_start) ->
          0 <= or_default (ev_duration ev) 60 ->
          msg <> EmptyString)
    /\ (forall T,
          (forall t T', In t (Memory.tasks (memory a)) ->
                        Memory.status t = "pending" ->
                        due_time t = Some (Ret T') -> T' = T) ->
          event_start + minutes (or_default (ev_duration ev) 60) = T - 1 ->
          msg = EmptyString).
Proof.
  intros Hstart Hparse.
  set (event_end := event_start + minutes (or_default (ev_duration ev) 60)).
  destruct (collect_conflicts_spec event_start event_end _ Hparse)
    as (titles & Hrun & Hiff).
  assert (Hmsg : exists msg,
             _check_conflicts fromisoformat ev a = (Ret msg, a)
             /\ (msg <> EmptyString <-> titles <> [])).
  { unfold _check_conflicts. rewrite Hstart. fold event_end. rewrite Hrun.
    destruct titles as [|first rest].
    - exists EmptyString. split; [reflexivity|]. tauto.
    - eexists. split; [reflexivity|]. split; intros _; discriminate. }
  destruct Hmsg as (msg & Hcall & Hne). exists msg.
  assert (Hwin : msg <> EmptyString <->
                 exists t T,
                   In t (Memory.tasks (memory a)) /\ Memory.status t = "pending"
                   /\ due_time t = Some (Ret T)
                   /\ event_start <= T <= event_end).
  { rewrite Hne, Hiff. split; intros (t & T & H).
    - exists t, T. rewrite Memory.in_get_pending_tasks in H. tauto.
    - exists t, T. rewrite Memory.in_get_pending_tasks. tauto. }
  split; [exact Hcall|]. split; [exact Hwin|]. split.
  - intros t Hin Hst Hdue Hdur. apply Hwin. exists t, event_start.
    unfold event_end, minutes, us_per_minute, us_per_second. repeat split; auto; lia.
  - intros T Honly Hend.
    destruct (string_dec msg EmptyString) as [|Hn]; [assumption|].
    apply Hwin in Hn. destruct Hn as (t & T' & Hin & Hst & Hdue & Hlo & Hhi).
    rewrite (Honly t T' Hin Hst Hdue) in Hhi. lia.
Qed.

End Conflicts.

(** ** Parsing a time and adding a reminder *)

Lemma ordinal_next_day (t : datetime) : ordinal (t + days 1) = ordinal t + 1.
Proof.
  unfold ordinal, days. rewrite Z.div_add by (vm_compute; congruence).
  reflexivity.
Qed.

Lemma microsecond_next_day (t : datetime) :
  microsecond (t + days 1) = microsecond t.
Proof.
  unfold microsecond, days.
  replace (1 * us_per_day) with (86400 * us_per_second) by reflexivity.
  apply Z_mod_plus_full.
Qed.

(** What [_parse_natural_time] makes of [tomorrow at 3pm]: tomorrow's date,
    15:00:00, and the microsecond of the clock reading. *)
Lemma parse_tomorrow_3pm (dateutil_parse : string -> outcome datetime)
  (now : datetime) :
  _parse_natural_time dateutil_parse now "tomorrow at 3pm"
  = Ret (make (ordinal now + 1) 15 0 0 (microsecond now)).
Proof.
  unfold _parse_natural_time.
  change (contains "tomorrow" (lower "tomorrow at 3pm")) with true.
  change (time_search (lower "tomorrow at 3pm")) with (Some ("3", EmptyString, Some "pm")).
  cbv iota beta.
  change (int_of_digits "3") with 3.
  change (String.eqb EmptyString EmptyString) with true.
  cbv iota beta.
  change (3 <? 12) with true. cbv iota.
  change (3 + 12) with 15.
  unfold replace_hms.
  change (negb ((0 <=? 15) && (15 <=? 23))) with false.
  change (negb ((0 <=? 0) && (0 <=? 59))) with false.
  cbv iota.
  rewrite ordinal_next_day, microsecond_next_day. reflexivity.
Qed.

(** A request with one of the three priorities (or none) is stored: the
    new reminder is the last of the list, carries the parsed time, has
    [notified = False], and the response contains [Reminder set]. *)
Lemma add_reminder_sets_reminder
  (isoformat : datetime -> string) (strftime : string -> datetime -> string)
  (now1 now2 : datetime) (stamp : string) (data : request) (a : agent)
  (when : datetime) (n : Z) :
  req_parsed_time data = Some when ->
  priority_number (or_default (req_priority data) "medium") = Ret n ->
  exists response a',
    _add_reminder isoformat strftime now1 now2 stamp data a = (Ret response, a')
    /\ contains "Reminder set" response = true
    /\ exists r, reminders a' = (reminders a ++ [r])%list
                 /\ time r = when /\ notified r = false.
Proof.
  intros Hwhen Hprio. unfold _add_reminder. cbn [priority]. rewrite Hprio.
  eexists. eexists. split; [reflexivity|]. split.
  - reflexivity.
  - eexists. split; [reflexivity|]. cbn [time notified]. rewrite Hwhen.
    split; reflexivity.
Qed.

(** ** Concrete runs *)

Definition day_2024_03_11 : Z := ordinal_of_ymd 2024 3 11.

Definition no_dateutil : string -> outcome datetime :=
  fun _ => Raise (ValueError "Unknown string format").

(** C6 (evaluation).  With the clock at 2024-03-10 09:26:53.589793,
    [tomorrow at 3pm] parses to 2024-03-11 15:00:00.589793: tomorrow's
    date, hour 15, minute and second 0, but not exactly 15:00:00, because
    [replace(hour, minute, second=0)] keeps the clock's microsecond.  The
    reminder made from it has [notified = False] and a response that
    contains [Reminder set]. *)
Theorem parse_tomorrow_3pm_keeps_microsecond :
  let now := make (ordinal_of_ymd 2024 3 10) 9 26 53 589793 in
  let parsed := make day_2024_03_11 15 0 0 589793 in
  _parse_natural_time no_dateutil now "tomorrow at 3pm" = Ret parsed
  /\ Datetime.isoformat parsed = "2024-03-11T15:00:00.589793"
  /\ parsed <> make day_2024_03_11 15 0 0 0
  /\ (forall dateutil_parse clock,
        _parse_natural_time dateutil_parse clock "tomorrow at 3pm"
        = Ret (make (ordinal clock + 1) 15 0 0 (microsecond clock)))
  /\ (let '(response, a') :=
         _add_reminder Datetime.isoformat Datetime.strftime now now
           "2024-03-10 09:26:53"
           {| req_title := Some "call Bob"; req_parsed_time := Some parsed;
              req_priority := Some "medium" |}
           {| reminders := []; memory := Memory.empty_db |} in
       List.map notified (reminders a') = [false]
       /\ List.map time (reminders a') = [parsed]
       /\ match response with
          | Ret text => contains "Reminder set" text = true
          | Raise _ => False
          end).
Proof.
  split; [vm_compute; reflexivity|].
  split; [vm_compute; reflexivity|].
  split; [vm_compute; congruence|].
  split; [intros; apply parse_tomorrow_3pm|].
  vm_compute. repeat split; reflexivity.
Qed.

(** A store with one pending task, due on 2024-03-11 at 15:00. *)
Definition one_task_agent : agent :=
  {| reminders := [];
     memory := Memory.store_task "2024-03-10 09:26:53" (Memory.SqlText "call Bob")
                 Memory.SqlNull (Memory.SqlText "2024-03-11T15:00:00") 2
                 Memory.empty_db |}.

Definition event_at (start : datetime) (duration : Z) : event :=
  {| ev_start_time := Some start; ev_time := None; ev_duration := Some duration |}.

Lemma check_conflicts_inclusive_window_witness :
  exists msg,
    _check_conflicts Datetime.fromisoformat
      (event_at (make day_2024_03_11 15 0 0 0) 60) one_task_agent
    = (Ret msg, one_task_agent)
    /\ msg = "You have 'call Bob' scheduled at that time".
Proof.
  destruct (check_conflicts_inclusive_window Datetime.fromisoformat
              (event_at (make day_2024_03_11 15 0 0 0) 60) one_task_agent
              (make day_2024_03_11 15 0 0 0))
    as (msg & Hcall & _).
  - reflexivity.
  - intros t Ht. vm_compute in Ht. destruct Ht as [<-|[]].
    right. eexists. vm_compute. reflexivity.
  - exists msg. split; [exact Hcall|].
    vm_compute in Hcall. congruence.
Defined.

(** The boundary cases on that store: an event that starts at the task's
    time, or ends exactly at it, conflicts; one that ends a microsecond
    earlier, or starts a microsecond later, does not. *)
Example check_conflicts_boundaries :
  let T := make day_2024_03_11 15 0 0 0 in
  let check ev := fst (_check_conflicts Datetime.fromisoformat ev one_task_agent) in
  check (event_at T 60) = Ret "You have 'call Bob' scheduled at that time"
  /\ check (event_at (T - minutes 60) 60)
     = Ret "You have 'call Bob' scheduled at that time"
  /\ check (event_at (T - minutes 60 - 1) 60) = Ret EmptyString
  /\ check (event_at (T + 1) 60) = Ret EmptyString.
Proof. vm_compute. repeat split; reflexivity. Qed.

(** A reminder due at 15:00 is left alone by a check at 14:59, fired by a
    check at 15:00, and untouched by the check after that. *)
Example reminder_fires_once_example :
  let T := make day_2024_03_11 15 0 0 0 in
  let r := {| id := 1; title := "call Bob"; time := T; priority := "medium";
              created_at := T - days 1; notified := false |} in
  let a := {| reminders := [r]; memory := Memory.empty_db |} in
  List.map notified (reminders (_reminder_checker [T - minutes 1] a)) = [false]
  /\ List.map notified (reminders (_reminder_checker [T - minutes 1; T] a)) = [true]
  /\ _reminder_checker [T - minutes 1; T; T + minutes 1] a
     = _reminder_checker [T - minutes 1; T] a
  /\ snd (check_reminders T [r]) = ["🔔 REMINDER: call Bob"]
  /\ snd (check_reminders (T + minutes 1) [set_notified r]) = [].
Proof. vm_compute. repeat split; reflexivity. Qed.

(** ** More on time parsing *)

Section ParsingFacts.

Variable dateutil_parse : string -> outcome datetime.

Abbreviation parse := (_parse_natural_time dateutil_parse).

(** The clock time the pattern finds in [time_str_lower], laid over
    [base_date]: the second half of [_parse_natural_time]. *)
Definition overlay_time (time_str_lower : string) (base_date : datetime)
  : outcome datetime :=
  match time_search time_str_lower with
  | Some (g1, g2, am_pm) =>
      let hour := int_of_digits g1 in
      let minute := if String.eqb g2 EmptyString then 0 else int_of_digits g2 in
      let hour :=
        match am_pm with
        | Some "pm" => if hour <? 12 then hour + 12 else hour
        | Some "am" => if hour =? 12 then 0 else hour
        | _ => hour
        end in
      replace_hms base_date hour minute 0
  | None => Ret base_date
  end.

(** The days the relative keyword of a time string adds, in the order the
    keywords are tried. *)
Definition keyword_days (time_str : string) : option Z :=
  let l := lower time_str in
  if contains "tomorrow" l then Some 1
  else if contains "today" l then Some 0
  else if contains "next week" l then Some 7
  else if contains "next month" l then Some 30
  else None.

Lemma parse_with_keyword (now : datetime) (s : string) (n : Z) :
  keyword_days s = Some n ->
  parse now s = overlay_time (lower s) (now + days n).
Proof.
  unfold keyword_days, _parse_natural_time, overlay_time. cbv zeta.
  destruct (contains "tomorrow" (lower s)); [intros [= <-]; reflexivity|].
  destruct (contains "today" (lower s)).
  { intros [= <-]. replace (now + days 0) with now
      by (unfold days; lia). reflexivity. }
  destruct (contains "next week" (lower s)); [intros [= <-]; reflexivity|].
  destruct (contains "next month" (lower s)); [intros [= <-]; reflexivity|].
  discriminate.
Qed.

Lemma parse_without_keyword (now : datetime) (s : string) :
  keyword_days s = None ->
  parse now s = match dateutil_parse s with
                | Ret t => Ret t
                | Raise _ => overlay_time (lower s) now
                end.
Proof.
  unfold keyword_days, _parse_natural_time, overlay_time. cbv zeta.
  destruct (contains "tomorrow" (lower s)); [discriminate|].
  destruct (contains "today" (lower s)); [discriminate|].
  destruct (contains "next week" (lower s)); [discriminate|].
  destruct (contains "next month" (lower s)); [discriminate|].
  reflexivity.
Qed.

Lemma read_digits_nonneg (s : string) (acc : Z) :
  0 <= acc -> 0 <= fst (Json.read_digits s acc).
Proof.
  revert acc. induction s as [|c s IH]; intros acc Hacc; simpl; [exact Hacc|].
  destruct (Json.is_digit c) eqn:E; [|exact Hacc].
  apply IH. unfold Json.digit_val, Json.is_digit in *.
  apply andb_true_iff in E. destruct E as [E _].
  apply Nat.leb_le in E. lia.
Qed.

Lemma int_of_digits_nonneg (s : string) : 0 <= int_of_digits s.
Proof. apply read_digits_nonneg. lia. Qed.

(** The third group of the pattern is [am], [pm] or absent. *)
Lemma time_search_am_pm (s g1 g2 : string) (am_pm : option string) :
  time_search s = Some (g1, g2, am_pm) ->
  am_pm = None \/ am_pm = Some "am" \/ am_pm = Some "pm".
Proof.
  induction s as [|c s IH]; cbn [time_search]; [discriminate|].
  destruct (Json.is_digit c); [|exact IH].
  unfold match_here.
  destruct (take_digits 2 (String c s)) as [d1 r1].
  destruct (take_digits 2 _) as [d2 r3].
  destruct (String.prefix "am" (lstrip r3)); [intros [= _ _ <-]; auto|].
  destruct (String.prefix "pm" (lstrip r3)); intros [= _ _ <-]; auto.
Qed.

(** A time string with a relative keyword parses to the date that keyword
    names (tomorrow before today before next week before next month), with
    the microsecond of the clock reading; without a digit in it the result
    is the clock reading moved by whole days, and with a digit its second
    is 0. *)
Theorem parse_keyword_date (now t : datetime) (s : string) (n : Z) :
  keyword_days s = Some n ->
  parse now s = Ret t ->
  ordinal t = ordinal now + n
  /\ microsecond t = microsecond now
  /\ (time_search (lower s) = None -> t = now + days n)
  /\ (time_search (lower s) <> None -> second t = 0).
Proof.
  intros Hkey Hparse. rewrite (parse_with_keyword _ _ _ Hkey) in Hparse.
  unfold overlay_time in Hparse.
  destruct (DatetimeFacts.add_days_fields now n) as (Hord & _ & _ & _ & Hus).
  destruct (time_search (lower s)) as [[[g1 g2] am_pm]|].
  - apply DatetimeFacts.replace_hms_fields in Hparse.
    destruct Hparse as (_ & _ & _ & Ho & _ & _ & Hs & Hu).
    repeat split; congruence.
  - injection Hparse as <-. repeat split; congruence.
Qed.

(** [_parse_natural_time] raises only [ValueError], and only when the
    number the pattern reads as the hour is above 23 or the one it reads
    as the minute is above 59. *)
Theorem parse_raises_only_out_of_range (now : datetime) (s : string) (e : exn) :
  parse now s = Raise e ->
  exists what g1 g2 am_pm,
    e = ValueError what
    /\ time_search (lower s) = Some (g1, g2, am_pm)
    /\ (24 <= int_of_digits g1 \/ 60 <= int_of_digits g2).
Proof.
  intros Hparse.
  assert (Hoverlay : exists base, overlay_time (lower s) base = Raise e).
  { destruct (keyword_days s) as [n|] eqn:Hkey.
    - rewrite (parse_with_keyword _ _ _ Hkey) in Hparse. eauto.
    - rewrite (parse_without_keyword _ _ Hkey) in Hparse.
      destruct (dateutil_parse s); [discriminate|eauto]. }
  destruct Hoverlay as [base Hoverlay]. unfold overlay_time in Hoverlay.
  destruct (time_search (lower s)) as [[[g1 g2] am_pm]|] eqn:Hsearch;
    [|discriminate].
  pose proof (int_of_digits_nonneg g1) as Hg1.
  pose proof (int_of_digits_nonneg g2) as Hg2.
  apply DatetimeFacts.replace_hms_raises in Hoverlay.
  destruct Hoverlay as [[what ->] Hrange].
  exists what, g1, g2, am_pm. split; [reflexivity|]. split; [reflexivity|].
  assert (Hminute : 59 < (if String.eqb g2 EmptyString then 0 else int_of_digits g2)
                    -> 60 <= int_of_digits g2)
    by (destruct (String.eqb g2 EmptyString); lia).
  assert (Hminute' : 0 <= (if String.eqb g2 EmptyString then 0 else int_of_digits g2))
    by (destruct (String.eqb g2 EmptyString); lia).
  destruct (time_search_am_pm _ _ _ _ Hsearch) as [-> | [-> | ->]];
    cbv iota beta in Hrange.
  - lia.
  - destruct (int_of_digits g1 =? 12) eqn:E; [apply Z.eqb_eq in E|]; lia.
  - destruct (int_of_digits g1 <? 12) eqn:E; [apply Z.ltb_lt in E|]; lia.
Qed.

End ParsingFacts.

Lemma parse_keyword_date_witness :
  ordinal (make day_2024_03_11 15 0 0 589793)
  = ordinal (make (ordinal_of_ymd 2024 3 10) 9 26 53 589793) + 1
  /\ microsecond (make day_2024_03_11 15 0 0 589793)
     = microsecond (make (ordinal_of_ymd 2024 3 10) 9 26 53 589793).
Proof.
  destruct (parse_keyword_date no_dateutil
              (make (ordinal_of_ymd 2024 3 10) 9 26 53 589793)
              (make day_2024_03_11 15 0 0 589793) "tomorrow at 3pm" 1)
    as (H1 & H2 & _).
  - reflexivity.
  - vm_compute. reflexivity.
  - split; [exact H1|exact H2].
Defined.

Lemma parse_raises_only_out_of_range_witness :
  exists what g1 g2 am_pm,
    ValueError "hour must be in 0..23" = ValueError what
    /\ time_search (lower "Tomorrow at 25:00") = Some (g1, g2, am_pm)
    /\ (24 <= int_of_digits g1 \/ 60 <= int_of_digits g2).
Proof.
  apply (parse_raises_only_out_of_range no_dateutil
           (make (ordinal_of_ymd 2024 3 10) 9 26 53 589793) "Tomorrow at 25:00"
           (ValueError "hour must be in 0..23")).
  vm_compute. reflexivity.
Defined.

(** ** More on reminders *)

Section ReminderFacts.

Variable isoformat : datetime -> string.
Variable strftime : string -> datetime -> string.

Abbreviation add_reminder := (_add_reminder isoformat strftime).

(** The reminder [_add_reminder] builds from a request. *)
Definition new_reminder (now1 now2 : datetime) (data : request) (a : agent)
  : reminder :=
  {| id := Z.of_nat (List.length (reminders a)) + 1;
     title := or_default (req_title data) "Reminder";
     time := or_default (req_parsed_time data) (now1 + hours 1);
     priority := or_default (req_priority data) "medium";
     created_at := now2;
     notified := false |}.

(** A priority other than [high], [medium] and [low] makes [_add_reminder]
    raise [KeyError], but only after the reminder was appended: the
    reminder stays in the list, unnotified, and nothing is stored in the
    memory. *)
Theorem add_reminder_unknown_priority
  (now1 now2 : datetime) (stamp p : string) (data : request) (a : agent) :
  req_priority data = Some p ->
  p <> "high" -> p <> "medium" -> p <> "low" ->
  add_reminder now1 now2 stamp data a
  = (Raise (KeyError p),
     {| reminders := (reminders a ++ [new_reminder now1 now2 data a])%list;
        memory := memory a |})
  /\ notified (new_reminder now1 now2 data a) = false
  /\ priority (new_reminder now1 now2 data a) = p.
Proof.
  intros Hp H1 H2 H3.
  assert (Hnum : priority_number p = Raise (KeyError p)).
  { unfold priority_number.
    destruct (String.eqb_spec p "high"); [contradiction|].
    destruct (String.eqb_spec p "medium"); [contradiction|].
    destruct (String.eqb_spec p "low"); [contradiction|]. reflexivity. }
  unfold _add_reminder, new_reminder. cbn [priority]. rewrite Hp. cbn [or_default].
  rewrite Hnum. repeat split; reflexivity.
Qed.

(** A reminder with one of the three priorities is stored as a pending
    task whose due date is the ISO text of its time and whose priority is
    1 for [high], 2 for [medium] and 3 for [low]; the pending tasks are
    the new row and the ones before. *)
Theorem add_reminder_stores_task
  (now1 now2 : datetime) (stamp : string) (data : request) (a : agent) (n : Z) :
  priority_number (or_default (req_priority data) "medium") = Ret n ->
  let r := new_reminder now1 now2 data a in
  let a' := snd (add_reminder now1 now2 stamp data a) in
  let row := Memory.stored_row stamp (Memory.SqlText (title r)) Memory.SqlNull
               (Memory.SqlText (isoformat (time r))) n (memory a) in
  reminders a' = (reminders a ++ [r])%list
  /\ Permutation (Memory.get_pending_tasks (memory a'))
       (row :: Memory.get_pending_tasks (memory a))
  /\ (n = 1 /\ priority r = "high" \/ n = 2 /\ priority r = "medium"
      \/ n = 3 /\ priority r = "low").
Proof.
  intros Hnum. cbv zeta. unfold _add_reminder, new_reminder. cbn [priority].
  rewrite Hnum. cbn [snd reminders memory title time].
  split; [reflexivity|]. split; [apply Memory.store_task_pending_perm|].
  unfold priority_number in Hnum.
  destruct (String.eqb_spec (or_default (req_priority data) "medium") "high") as [->|_];
    [injection Hnum as <-; auto|].
  destruct (String.eqb_spec (or_default (req_priority data) "medium") "medium") as [->|_];
    [injection Hnum as <-; auto|].
  destruct (String.eqb_spec (or_default (req_priority data) "medium") "low") as [->|_];
    [injection Hnum as <-; auto|discriminate].
Qed.

(** In the list of pending tasks a reminder added as [high] (priority
    number 1) stands after every pending task with a larger priority
    number, so after every [medium] and [low] reminder. *)
Theorem high_priority_reminder_listed_last
  (now1 now2 : datetime) (stamp : string) (data : request) (a : agent) :
  req_priority data = Some "high" ->
  let r := new_reminder now1 now2 data a in
  let a' := snd (add_reminder now1 now2 stamp data a) in
  let row := Memory.stored_row stamp (Memory.SqlText (title r)) Memory.SqlNull
               (Memory.SqlText (isoformat (time r))) 1 (memory a) in
  forall l1 l2,
    Memory.get_pending_tasks (memory a') = (l1 ++ row :: l2)%list ->
    Forall (fun t => Memory.priority t <= 1) l2.
Proof.
  intros Hp. cbv zeta. intros l1 l2 Hsplit.
  pose proof (Memory.order_rows_sorted
                (List.filter Memory.is_pending
                   (Memory.tasks (memory (snd (add_reminder now1 now2 stamp data a))))))
    as Hsorted.
  fold (Memory.get_pending_tasks (memory (snd (add_reminder now1 now2 stamp data a))))
    in Hsorted.
  rewrite Hsplit in Hsorted.
  assert (Htail : StronglySorted Memory.before
            (Memory.stored_row stamp
               (Memory.SqlText (title (new_reminder now1 now2 data a)))
               Memory.SqlNull
               (Memory.SqlText (isoformat (time (new_reminder now1 now2 data a))))
               1 (memory a) :: l2)).
  { clear Hsplit. induction l1 as [|x l1 IH]; [exact Hsorted|].
    apply IH. inversion Hsorted; assumption. }
  inversion Htail as [|? ? _ Hall]; subst.
  eapply List.Forall_impl; [|exact Hall].
  intros t Ht. unfold Memory.before in Ht. cbn [Memory.priority Memory.stored_row] in Ht.
  lia.
Qed.

(** Reminder ids count from 1 in the order of the list: starting from an
    empty list, after any run of [_add_reminder] calls and checker
    iterations the reminder at index [i] has id [i + 1], so no two
    reminders share an id. *)
Theorem reminder_ids_count_up (ops : list op) (m : Memory.db) (i : nat) (r : reminder) :
  reminders (run isoformat strftime ops {| reminders := []; memory := m |}) !! i
  = Some r ->
  id r = Z.of_nat i + 1.
Proof.
  assert (Hinv : forall ops a,
             (forall i r, reminders a !! i = Some r -> id r = Z.of_nat i + 1) ->
             forall i r, reminders (run isoformat strftime ops a) !! i = Some r ->
                         id r = Z.of_nat i + 1).
  { clear. induction ops as [|o ops IH]; intros a Ha; [exact Ha|].
    cbn [run]. apply IH. intros i r.
    destruct o as [now|now1 now2 stamp data]; cbn [step].
    - rewrite check_lookup. destruct (reminders a !! i) as [r0|] eqn:E; [|discriminate].
      cbn. intros [= <-]. specialize (Ha _ _ E).
      unfold check_reminder. destruct (_ && _); exact Ha.
    - assert (Hr : reminders (snd (_add_reminder isoformat strftime now1 now2 stamp data a))
                   = (reminders a ++ [new_reminder now1 now2 data a])%list).
      { unfold _add_reminder, new_reminder.
        destruct (priority_number _); reflexivity. }
      rewrite Hr. intros Hi.
      apply lookup_app_Some in Hi. destruct Hi as [Hi|[Hlen Hi]].
      + apply Ha. exact Hi.
      + apply list_lookup_singleton_Some in Hi. destruct Hi as [Hi <-].
        cbn [id new_reminder]. lia. }
  apply Hinv. intros j r0 Hj. cbn [reminders] in Hj.
  rewrite lookup_nil in Hj. discriminate.
Qed.

End ReminderFacts.




Lemma add_reminder_unknown_priority_witness :
  fst (_add_reminder Datetime.isoformat Datetime.strftime
         (make day_2024_03_11 9 0 0 0) (make day_2024_03_11 9 0 0 0)
         "2024-03-11 09:00:00"
         {| req_title := Some "call Bob"; req_parsed_time := None;
            req_priority := Some "urgent" |}
         {| reminders := []; memory := Memory.empty_db |})
  = Raise (KeyError "urgent").
Proof.
  refine (f_equal fst
            (proj1 (add_reminder_unknown_priority Datetime.isoformat Datetime.strftime
                      (make day_2024_03_11 9 0 0 0) (make day_2024_03_11 9 0 0 0)
                      "2024-03-11 09:00:00" "urgent"
                      {| req_title := Some "call Bob"; req_parsed_time := None;
                         req_priority := Some "urgent" |}
                      {| reminders := []; memory := Memory.empty_db |}
                      eq_refl _ _ _)));
    discriminate.
Defined.

Lemma add_reminder_stores_task_witness :
  List.length
    (Memory.get_pending_tasks
       (memory (snd (_add_reminder Datetime.isoformat Datetime.strftime
                       (make day_2024_03_11 9 0 0 0) (make day_2024_03_11 9 0 0 0)
                       "2024-03-11 09:00:00"
                       {| req_title := Some "call Bob"; req_parsed_time := None;
                          req_priority := Some "low" |}
                       one_task_agent))))
  = 2%nat.
Proof.
  destruct (add_reminder_stores_task Datetime.isoformat Datetime.strftime
              (make day_2024_03_11 9 0 0 0) (make day_2024_03_11 9 0 0 0)
              "2024-03-11 09:00:00"
              {| req_title := Some "call Bob"; req_parsed_time := None;
                 req_priority := Some "low" |}
              one_task_agent 3 eq_refl) as (_ & Hperm & _).
  rewrite (Permutation_length Hperm). reflexivity.
Defined.

Lemma high_priority_reminder_listed_last_witness :
  Memory.get_pending_tasks
    (memory (snd (_add_reminder Datetime.isoformat Datetime.strftime
                    (make day_2024_03_11 9 0 0 0) (make day_2024_03_11 9 0 0 0)
                    "2024-03-11 09:00:00"
                    {| req_title := Some "pay rent"; req_parsed_time := None;
                       req_priority := Some "high" |}
                    one_task_agent)))
  = (Memory.get_pending_tasks (memory one_task_agent)
     ++ Memory.stored_row "2024-03-11 09:00:00" (Memory.SqlText "pay rent")
          Memory.SqlNull
          (Memory.SqlText (Datetime.isoformat (make day_2024_03_11 9 0 0 0 + hours 1)))
          1 (memory one_task_agent) :: [])%list
  /\ Forall (fun t => Memory.priority t <= 1) [].
Proof.
  assert (Hlist :
    Memory.get_pending_tasks
      (memory (snd (_add_reminder Datetime.isoformat Datetime.strftime
                      (make day_2024_03_11 9 0 0 0) (make day_2024_03_11 9 0 0 0)
                      "2024-03-11 09:00:00"
                      {| req_title := Some "pay rent"; req_parsed_time := None;
                         req_priority := Some "high" |}
                      one_task_agent)))
    = (Memory.get_pending_tasks (memory one_task_agent)
       ++ Memory.stored_row "2024-03-11 09:00:00" (Memory.SqlText "pay rent")
            Memory.SqlNull
            (Memory.SqlText (Datetime.isoformat (make day_2024_03_11 9 0 0 0 + hours 1)))
            1 (memory one_task_agent) :: [])%list)
    by (vm_compute; reflexivity).
  split; [exact Hlist|].
  exact (high_priority_reminder_listed_last Datetime.isoformat Datetime.strftime
           (make day_2024_03_11 9 0 0 0) (make day_2024_03_11 9 0 0 0)
           "2024-03-11 09:00:00"
           {| req_title := Some "pay rent"; req_parsed_time := None;
              req_priority := Some "high" |}
           one_task_agent eq_refl _ _ Hlist).
Defined.

Lemma reminder_ids_count_up_witness :
  id {| id := 1; title := "call Bob"; time := make day_2024_03_11 10 0 0 0;
        priority := "medium"; created_at := make day_2024_03_11 9 0 0 0;
        notified := false |} = Z.of_nat 0 + 1.
Proof.
  apply (reminder_ids_count_up Datetime.isoformat Datetime.strftime
           [Add (make day_2024_03_11 9 0 0 0) (make day_2024_03_11 9 0 0 0)
              "2024-03-11 09:00:00"
              {| req_title := Some "call Bob"; req_parsed_time := None;
                 req_priority := None |}]
           Memory.empty_db 0).
  vm_compute. reflexivity.
Defined.

(** ** Schedule requests as the agent holds them *)

(** A value of the dict [_parse_schedule_request] returns: a value of the
    model's JSON answer, or the datetime stored under [parsed_time]. *)
Inductive sval : Type :=
| SJson (v : pyval)
| SDatetime (t : datetime).

Definition s_truthy (v : sval) : bool :=
  match v with
  | SJson v => truthy v
  | SDatetime _ => true
  end.

Fixpoint sdict_get (k : string) (d : list (string * sval)) : option sval :=
  match d with
  | [] => None
  | (k', v) :: d' => if String.eqb k k' then Some v else sdict_get k d'
  end.

Fixpoint sdict_set (k : string) (v : sval) (d : list (string * sval))
  : list (string * sval) :=
  match d with
  | [] => [(k, v)]
  | (k', v') :: d' =>
      if String.eqb k k' then (k, v) :: d' else (k', v') :: sdict_set k v d'
  end.

(** [d.get(k, default)] *)
Definition sdict_get_or (k : string) (d : list (string * sval)) (default : sval)
  : sval :=
  match sdict_get k d with Some v => v | None => default end.

Definition of_json (d : list (string * pyval)) : list (string * sval) :=
  List.map (fun kv => (fst kv, SJson (snd kv))) d.

(** What [_parse_schedule_request] returns: a dict, or the JSON value the
    model answered when that is not an object. *)
Inductive schedule_data : Type :=
| SDict (d : list (string * sval))
| SOther (v : pyval).

Definition unknown_request : schedule_data :=
  SDict [("action", SJson (PStr "unknown"))].

Definition schedule_prompt (user_input : string) : string :=
  "Parse this scheduling request:" +:+ nl +:+
  "        User: " +:+ user_input +:+ nl +:+
  "        " +:+ nl +:+
  "        Extract:" +:+ nl +:+
  "        - action: (add_reminder, add_event, list_schedule, add_recurring, check_conflicts, suggest_time)" +:+ nl +:+
  "        - title: Event/reminder title" +:+ nl +:+
  "        - time: When (parse natural language like " +:+ dquote +:+
  "tomorrow at 3pm" +:+ dquote +:+ ", " +:+ dquote +:+ "next Monday" +:+ dquote +:+
  ")" +:+ nl +:+
  "        - duration: How long (for events)" +:+ nl +:+
  "        - recurring: Pattern if recurring (daily, weekly, monthly)" +:+ nl +:+
  "        - priority: high, medium, low" +:+ nl +:+
  "        " +:+ nl +:+
  "        Return as JSON.".

(** ['time' in data] *)
Definition has_time (data : pyval) : outcome bool :=
  match data with
  | PDict d => Ret (match dict_get "time" d with Some _ => true | None => false end)
  | PList l =>
      Ret (existsb (fun v => match v with
                             | PStr x => String.eqb x "time"
                             | _ => false
                             end) l)
  | PStr x => Ret (contains "time" x)
  | _ => Raise (TypeError "argument is not iterable")
  end.

Section Requests.

Variable llm : string -> outcome string.
Variable json_loads : string -> outcome pyval.
Variable dateutil_parse : string -> outcome datetime.
Variable fromisoformat : string -> outcome datetime.
Variable isoformat : datetime -> string.
Variable strftime : string -> datetime -> string.
Variable json_dumps : pyval -> outcome string.
(** [timedelta(minutes=f)] for a float [f]. *)
Variable float_minutes : float -> outcome timedelta.
(** [str(v)] as an f-string formats it. *)
Variable sval_str : sval -> string.

(** The body of the [try] of [_parse_schedule_request]. *)
Definition parse_answer (now : datetime) (response : string) : outcome schedule_data :=
  match json_loads response with
  | Raise e => Raise e
  | Ret data =>
      match has_time data with
      | Raise e => Raise e
      | Ret false =>
          Ret (match data with PDict d => SDict (of_json d) | v => SOther v end)
      | Ret true =>
          match data with
          | PDict d =>
              match dict_get "time" d with
              | Some (PStr time_str) =>
                  match _parse_natural_time dateutil_parse now time_str with
                  | Ret t => Ret (SDict (sdict_set "parsed_time" (SDatetime t) (of_json d)))
                  | Raise e => Raise e
                  end
              | Some _ => Raise (AttributeError "object has no attribute 'lower'")
              | None => Raise (KeyError "time")
              end
          | PList _ => Raise (TypeError "list indices must be integers or slices, not str")
          | _ => Raise (TypeError "string indices must be integers, not 'str'")
          end
      end
  end.

(** [_parse_schedule_request(user_input)], with [now] the clock reading
    of [_parse_natural_time]. *)
Definition _parse_schedule_request (now : datetime) (user_input : string)
  : outcome schedule_data :=
  match llm (schedule_prompt user_input) with
  | Raise e => Raise e
  | Ret response =>
      match parse_answer now response with
      | Ret data => Ret data
      | Raise _ => Ret unknown_request
      end
  end.

(** [timedelta(minutes=v)] *)
Definition duration_delta (v : sval) : outcome timedelta :=
  match v with
  | SJson (PInt n) => Ret (minutes n)
  | SJson (PBool b) => Ret (minutes (if b then 1 else 0))
  | SJson (PFloat f) => float_minutes f
  | _ => Raise (TypeError "unsupported type for timedelta minutes component")
  end.

(** [event.get('start_time') or event.get('time')]: [None] is Python's
    [None]. *)
Definition start_of (event : list (string * sval)) : option sval :=
  match sdict_get "start_time" event with
  | Some v => if s_truthy v then Some v else sdict_get "time" event
  | None => sdict_get "time" event
  end.

(** [_check_conflicts(event)] on an event dict with values of any type. *)
Definition _check_conflicts_dict (event : list (string * sval)) : M agent string :=
  fun a =>
    let tasks := Memory.get_pending_tasks (memory a) in
    match duration_delta (sdict_get_or "duration" event (SJson (PInt 60))) with
    | Raise e => (Raise e, a)
    | Ret delta =>
        match start_of event with
        | Some (SDatetime event_start) =>
            match collect_conflicts fromisoformat event_start (event_start + delta)
                    tasks with
            | Raise e => (Raise e, a)
            | Ret [] => (Ret EmptyString, a)
            | Ret (first :: _) =>
                (Ret ("You have '" +:+ first +:+ "' scheduled at that time"), a)
            end
        | _ => (Raise (TypeError "unsupported operand type(s) for +"), a)
        end
    end.

(** The JSON form of an event dict, if no value is a datetime. *)
Fixpoint to_json (d : list (string * sval)) : option (list (string * pyval)) :=
  match d with
  | [] => Some []
  | (k, SJson v) :: d' =>
      match to_json d' with
      | Some j => Some ((k, v) :: j)
      | None => None
      end
  | (_, SDatetime _) :: _ => None
  end.

(** [json.dumps(event)]: a datetime is not JSON serializable. *)
Definition dumps_event (event : list (string * sval)) : outcome string :=
  match to_json event with
  | Some j => json_dumps (PDict j)
  | None => Raise (TypeError "Object of type datetime is not JSON serializable")
  end.

(** The event dict [_add_calendar_event] builds; [now] is its clock
    reading. *)
Definition new_event (now : datetime) (data : list (string * sval))
  : list (string * sval) :=
  [("title", sdict_get_or "title" data (SJson (PStr "New Event")));
   ("start_time", sdict_get_or "parsed_time" data (SDatetime (now + days 1)));
   ("duration", sdict_get_or "duration" data (SJson (PInt 60)));
   ("location", sdict_get_or "location" data (SJson (PStr EmptyString)));
   ("description", sdict_get_or "description" data (SJson (PStr EmptyString)));
   ("attendees", sdict_get_or "attendees" data (SJson (PList [])))].

Definition event_response (event : list (string * sval)) (start : datetime)
  (conflicts : string) : string :=
  "📅 **Event Created: " +:+
  sval_str (sdict_get_or "title" event (SJson PNone)) +:+ "**" +:+ nl +:+ nl +:+
  "📍 When: " +:+ strftime "%B %d at %I:%M %p" start +:+ nl +:+
  "⏱️ Duration: " +:+ sval_str (sdict_get_or "duration" event (SJson PNone)) +:+
  " minutes" +:+
  (if s_truthy (sdict_get_or "location" event (SJson PNone))
   then nl +:+ "📍 Where: " +:+ sval_str (sdict_get_or "location" event (SJson PNone))
   else EmptyString) +:+
  (if negb (String.eqb conflicts EmptyString)
   then nl +:+ nl +:+ "⚠️ **Potential conflict detected:** " +:+ conflicts +:+
        nl +:+ "Would you like me to suggest an alternative time?"
   else nl +:+ nl +:+
        "✨ Your calendar is clear for this time. I'll remind you 15 minutes before.").

(** [_add_calendar_event(data)]; [stamp] is the store's timestamp. *)
Definition _add_calendar_event (now : datetime) (stamp : string)
  (data : list (string * sval)) : M agent string :=
  fun a =>
    let event := new_event now data in
    match _check_conflicts_dict event a with
    | (Raise e, a1) => (Raise e, a1)
    | (Ret conflicts, a1) =>
        let task_title :=
          "Event: " +:+ sval_str (sdict_get_or "title" event (SJson PNone)) in
        match dumps_event event with
        | Raise e => (Raise e, a1)
        | Ret text =>
            match sdict_get_or "start_time" event (SJson PNone) with
            | SDatetime start =>
                (Ret (event_response event start conflicts),
                 {| reminders := reminders a1;
                    memory := Memory.store_task stamp (Memory.SqlText task_title)
                                (Memory.SqlText text)
                                (Memory.SqlText (isoformat start)) 3 (memory a1) |})
            | SJson _ =>
                (Raise (AttributeError "object has no attribute 'isoformat'"), a1)
            end
        end
    end.

(** *** Properties *)

Lemma sdict_get_of_json (k : string) (d : list (string * pyval)) :
  sdict_get k (of_json d) = SJson <$> dict_get k d.
Proof.
  induction d as [|[k' v] d IH]; [reflexivity|].
  cbn [of_json List.map sdict_get dict_get fst snd].
  destruct (String.eqb k k'); [reflexivity|exact IH].
Qed.

Lemma sdict_get_set_other (k k' : string) (v : sval) (d : list (string * sval)) :
  k <> k' -> sdict_get k (sdict_set k' v d) = sdict_get k d.
Proof.
  intros Hne. induction d as [|[k0 v0] d IH]; cbn [sdict_set sdict_get].
  - destruct (String.eqb_spec k k'); [contradiction|reflexivity].
  - destruct (String.eqb_spec k' k0) as [->|Hk0]; cbn [sdict_get].
    + destruct (String.eqb_spec k k0); [contradiction|reflexivity].
    + destruct (String.eqb k k0); [reflexivity|exact IH].
Qed.

Lemma sdict_get_set_same (k : string) (v : sval) (d : list (string * sval)) :
  sdict_get k (sdict_set k v d) = Some v.
Proof.
  induction d as [|[k0 v0] d IH]; cbn [sdict_set sdict_get].
  - rewrite String.eqb_refl. reflexivity.
  - destruct (String.eqb_spec k k0) as [->|Hk0]; cbn [sdict_get].
    + rewrite String.eqb_refl. reflexivity.
    + destruct (String.eqb_spec k k0); [contradiction|exact IH].
Qed.

(** When the model answers, [_parse_schedule_request] returns and never
    raises.  An answer that is not JSON gives [{action: unknown}]; so does
    an answer whose [time] text makes [_parse_natural_time] raise, which
    drops the title and everything else of the request; a [time] text that
    parses is returned as a datetime under [parsed_time], next to the
    answer's own keys. *)
Theorem parse_schedule_request_never_raises
  (now : datetime) (user_input response : string) :
  llm (schedule_prompt user_input) = Ret response ->
  exists data,
    _parse_schedule_request now user_input = Ret data
    /\ (forall e, json_loads response = Raise e -> data = unknown_request)
    /\ (forall d time_str,
          json_loads response = Ret (PDict d) ->
          dict_get "time" d = Some (PStr time_str) ->
          match _parse_natural_time dateutil_parse now time_str with
          | Raise _ => data = unknown_request
          | Ret t =>
              data = SDict (sdict_set "parsed_time" (SDatetime t) (of_json d))
          end)
    /\ (forall d,
          json_loads response = Ret (PDict d) ->
          dict_get "time" d = None -> data = SDict (of_json d)).
Proof.
  intros Hllm. unfold _parse_schedule_request. rewrite Hllm.
  destruct (parse_answer now response) as [data|e] eqn:Hanswer.
  - exists data. split; [reflexivity|]. unfold parse_answer in Hanswer.
    split; [intros e He; rewrite He in Hanswer; discriminate|].
    split.
    + intros d time_str Hd Htime. rewrite Hd in Hanswer.
      cbn [has_time] in Hanswer. rewrite Htime in Hanswer.
      destruct (_parse_natural_time dateutil_parse now time_str);
        [congruence|discriminate].
    + intros d Hd Htime. rewrite Hd in Hanswer.
      cbn [has_time] in Hanswer. rewrite Htime in Hanswer. congruence.
  - exists unknown_request. split; [reflexivity|].
    split; [reflexivity|]. unfold parse_answer in Hanswer. split.
    + intros d time_str Hd Htime. rewrite Hd in Hanswer.
      cbn [has_time] in Hanswer. rewrite Htime in Hanswer.
      destruct (_parse_natural_time dateutil_parse now time_str);
        [discriminate|reflexivity].
    + intros d Hd Htime. rewrite Hd in Hanswer.
      cbn [has_time] in Hanswer. rewrite Htime in Hanswer. discriminate.
Qed.

Lemma check_conflicts_dict_state (event : list (string * sval)) (a : agent) :
  snd (_check_conflicts_dict event a) = a.
Proof.
  unfold _check_conflicts_dict.
  destruct (duration_delta _); [|reflexivity].
  destruct (start_of event) as [[v|t]|]; try reflexivity.
  destruct (collect_conflicts _ _ _ _) as [[|first rest]|e]; reflexivity.
Qed.

(** On an event dict whose [start_time] and [time] are not datetimes (JSON
    values, or absent), [_check_conflicts] raises and changes nothing. *)
Lemma check_conflicts_dict_needs_datetime (event : list (string * sval)) (a : agent) :
  (forall t, sdict_get "start_time" event <> Some (SDatetime t)) ->
  (forall t, sdict_get "time" event <> Some (SDatetime t)) ->
  exists e, _check_conflicts_dict event a = (Raise e, a).
Proof.
  intros Hstart Htime. unfold _check_conflicts_dict.
  destruct (duration_delta _) as [delta|e]; [|eauto].
  assert (Hno : forall t, start_of event <> Some (SDatetime t)).
  { intros t. unfold start_of.
    destruct (sdict_get "start_time" event) as [[v|t0]|] eqn:E.
    - cbn [s_truthy]. destruct (truthy v); [discriminate|apply Htime].
    - exfalso. exact (Hstart t0 eq_refl).
    - apply Htime. }
  destruct (start_of event) as [[v|t]|]; eauto.
  exfalso. exact (Hno t eq_refl).
Qed.

(** The [check_conflicts] action can never succeed: on every dict that
    [_parse_schedule_request] builds from a model answer, the stored time
    is under [parsed_time] while [_check_conflicts] reads [start_time] and
    [time], which hold the answer's JSON values; the call raises and
    changes nothing. *)
Theorem check_conflicts_on_parsed_request_raises
  (now : datetime) (response : string) (d : list (string * sval)) (a : agent) :
  parse_answer now response = Ret (SDict d) ->
  exists e, _check_conflicts_dict d a = (Raise e, a).
Proof.
  intros Hanswer. apply check_conflicts_dict_needs_datetime.
  - intros t Ht. unfold parse_answer in Hanswer.
    destruct (json_loads response) as [data|]; [|discriminate].
    destruct (has_time data) as [[|]|]; [| |discriminate].
    + destruct data; try discriminate.
      destruct (dict_get "time" d0) as [[]|]; try discriminate.
      destruct (_parse_natural_time _ _ _); [|discriminate].
      injection Hanswer as <-.
      rewrite sdict_get_set_other, sdict_get_of_json in Ht by discriminate.
      destruct (dict_get "start_time" d0); discriminate.
    + destruct data; try discriminate. injection Hanswer as <-.
      rewrite sdict_get_of_json in Ht.
      destruct (dict_get "start_time" d0); discriminate.
  - intros t Ht. unfold parse_answer in Hanswer.
    destruct (json_loads response) as [data|]; [|discriminate].
    destruct (has_time data) as [[|]|]; [| |discriminate].
    + destruct data; try discriminate.
      destruct (dict_get "time" d0) as [[]|] eqn:E; try discriminate.
      destruct (_parse_natural_time _ _ _); [|discriminate].
      injection Hanswer as <-.
      rewrite sdict_get_set_other, sdict_get_of_json in Ht by discriminate.
      rewrite E in Ht. discriminate.
    + destruct data; try discriminate. injection Hanswer as <-.
      rewrite sdict_get_of_json in Ht.
      destruct (dict_get "time" d0); discriminate.
Qed.

(** [_add_calendar_event] always raises and never stores anything: when
    the start time is a datetime the conflict check may pass, but then
    [json.dumps(event)] meets that datetime and raises [TypeError]; when
    it is not a datetime the conflict check itself raises. *)
Theorem add_calendar_event_always_raises
  (now : datetime) (stamp : string) (data : list (string * sval)) (a : agent) :
  exists e, _add_calendar_event now stamp data a = (Raise e, a).
Proof.
  unfold _add_calendar_event.
  pose proof (check_conflicts_dict_state (new_event now data) a) as Hstate.
  destruct (sdict_get_or "parsed_time" data (SDatetime (now + days 1)))
    as [v|start] eqn:Hstart.
  - destruct (check_conflicts_dict_needs_datetime (new_event now data) a) as [e He].
    + intros t. cbn. rewrite Hstart. discriminate.
    + intros t. cbn. discriminate.
    + rewrite He. eauto.
  - destruct (_check_conflicts_dict (new_event now data) a) as [[conflicts|e] a1];
      cbn [snd] in Hstate; subst a1; [|eauto].
    assert (Hdumps : dumps_event (new_event now data)
                     = Raise (TypeError "Object of type datetime is not JSON serializable")).
    { unfold dumps_event, new_event. cbn [to_json]. rewrite Hstart.
      destruct (sdict_get_or "title" data _); reflexivity. }
    rewrite Hdumps. eauto.
Qed.

End Requests.

(** ** Suggesting meeting times *)

(** The hours [_suggest_meeting_time] tries on each day. *)
Definition meeting_hours : list Z := [9; 10; 11; 14; 15; 16].

(** [is_free] after the loop over the busy times: no busy time lies in the
    slot, both ends included. *)
Definition slot_free (busy : list datetime) (slot_start slot_end : datetime) : bool :=
  negb (existsb (fun b => (slot_start <=? b) && (b <=? slot_end)) busy).

Section Suggestions.

Variable fromisoformat : string -> outcome datetime.
Variable strftime : string -> datetime -> string.
Variable float_minutes : float -> outcome timedelta.
Variable sval_str : sval -> string.

Abbreviation delta_of := (duration_delta float_minutes).

(** [busy_times]: the parsed due date of every pending task that has
    one. *)
Fixpoint busy_times_of (tasks : list Memory.task) : outcome (list datetime) :=
  match tasks with
  | [] => Ret []
  | t :: tasks' =>
      match due_time fromisoformat t with
      | None => busy_times_of tasks'
      | Some (Raise e) => Raise e
      | Some (Ret task_time) =>
          match busy_times_of tasks' with
          | Ret busy => Ret (task_time :: busy)
          | Raise e => Raise e
          end
      end
  end.

(** The loop over the hours of one day; it ends when three slots are
    found. *)
Fixpoint scan_hours (now : datetime) (duration : sval) (busy : list datetime)
  (check_date : datetime) (hours : list Z) (suggestions : list datetime)
  : outcome (list datetime) :=
  match hours with
  | [] => Ret suggestions
  | hour :: hours' =>
      match replace_hms check_date hour 0 0 with
      | Raise e => Raise e
      | Ret slot_start =>
          match delta_of duration with
          | Raise e => Raise e
          | Ret delta =>
              if slot_free busy slot_start (slot_start + delta) && (now <? slot_start)
              then
                let suggestions' := (suggestions ++ [slot_start])%list in
                if (3 <=? List.length suggestions')%nat then Ret suggestions'
                else scan_hours now duration busy check_date hours' suggestions'
              else scan_hours now duration busy check_date hours' suggestions
          end
      end
  end.

(** The loop over the day offsets. *)
Fixpoint scan_days (now : datetime) (duration : sval) (busy : list datetime)
  (offsets : list Z) (suggestions : list datetime) : outcome (list datetime) :=
  match offsets with
  | [] => Ret suggestions
  | day_offset :: offsets' =>
      match scan_hours now duration busy (now + days day_offset) meeting_hours
              suggestions with
      | Raise e => Raise e
      | Ret suggestions' =>
          if (3 <=? List.length suggestions')%nat then Ret suggestions'
          else scan_days now duration busy offsets' suggestions'
      end
  end.

(** The slots found for the next seven days. *)
Definition find_slots (now : datetime) (duration : sval) (busy : list datetime)
  : outcome (list datetime) :=
  scan_days now duration busy [0; 1; 2; 3; 4; 5; 6] [].

(** The numbered lines of the response, counting from [i]. *)
Fixpoint slot_lines (i : nat) (slots : list datetime) : string :=
  match slots with
  | [] => EmptyString
  | slot :: slots' =>
      sval_str (SJson (PInt (Z.of_nat i))) +:+ ". " +:+
      strftime "%A, %B %d at %I:%M %p" slot +:+ nl +:+ slot_lines (S i) slots'
  end.

(** [_suggest_meeting_time(data)], with [now] its clock reading. *)
Definition _suggest_meeting_time (now : datetime) (data : list (string * sval))
  : M agent string :=
  fun a =>
    let duration := sdict_get_or "duration" data (SJson (PInt 60)) in
    match busy_times_of (Memory.get_pending_tasks (memory a)) with
    | Raise e => (Raise e, a)
    | Ret busy =>
        match find_slots now duration busy with
        | Raise e => (Raise e, a)
        | Ret [] =>
            (Ret "Your schedule is quite full! Would you like me to look at times outside business hours or next week?", a)
        | Ret suggestions =>
            (Ret ("🗓️ **Available Time Slots** (for " +:+ sval_str duration +:+
                  "-minute meeting):" +:+ nl +:+ nl +:+
                  slot_lines 1 suggestions +:+ nl +:+
                  "✨ All these times are clear in your schedule. Which works best for you?"),
             a)
        end
    end.

(** *** Properties *)

(** What makes a datetime a slot the search may suggest: it is a meeting
    hour of one of the next seven days, after [now], and no busy time lies
    in it. *)
Definition good_slot (now : datetime) (delta : timedelta) (busy : list datetime)
  (slot : datetime) : Prop :=
  (exists day_offset hour,
     0 <= day_offset <= 6 /\ In hour meeting_hours
     /\ slot = make (ordinal now + day_offset) hour 0 0 (microsecond now))
  /\ now < slot
  /\ Forall (fun b => ~ (slot <= b <= slot + delta)) busy.

Lemma slot_free_spec (busy : list datetime) (x y : datetime) :
  slot_free busy x y = true <-> Forall (fun b => ~ (x <= b <= y)) busy.
Proof.
  unfold slot_free. rewrite negb_true_iff. induction busy as [|b busy IH].
  - split; [constructor|reflexivity].
  - cbn [existsb]. rewrite orb_false_iff, IH, andb_false_iff, !Z.leb_gt. split.
    + intros [Hb Hrest]. constructor; [lia|exact Hrest].
    + intros H. inversion H; subst. split; [lia|assumption].
Qed.

Lemma scan_hours_spec (now delta : Z) (duration : sval) (busy : list datetime)
  (day_offset : Z) (hours : list Z) (suggestions : list datetime) :
  delta_of duration = Ret delta ->
  0 <= day_offset <= 6 ->
  (forall h, In h hours -> In h meeting_hours) ->
  Forall (good_slot now delta busy) suggestions ->
  (List.length suggestions < 3)%nat ->
  exists out,
    scan_hours now duration busy (now + days day_offset) hours suggestions = Ret out
    /\ Forall (good_slot now delta busy) out
    /\ (List.length out <= 3)%nat
    /\ (List.length suggestions <= List.length out)%nat.
Proof.
  intros Hdelta Hday. revert suggestions.
  induction hours as [|hour hours IH]; intros suggestions Hhours Hgood Hlen.
  - exists suggestions. repeat split; [assumption|lia|lia].
  - cbn [scan_hours].
    assert (Hhour : In hour meeting_hours) by (apply Hhours; left; reflexivity).
    assert (Hrange : 0 <= hour <= 23).
    { unfold meeting_hours in Hhour. cbn in Hhour. lia. }
    assert (Hreplace : replace_hms (now + days day_offset) hour 0 0
                       = Ret (make (ordinal now + day_offset) hour 0 0 (microsecond now))).
    { unfold replace_hms.
      assert (E : (0 <=? hour) && (hour <=? 23) = true)
        by (apply andb_true_iff; rewrite !Z.leb_le; lia).
      rewrite E. cbn.
      destruct (DatetimeFacts.add_days_fields now day_offset) as (-> & _ & _ & _ & ->).
      reflexivity. }
    rewrite Hreplace, Hdelta.
    set (slot := make (ordinal now + day_offset) hour 0 0 (microsecond now)).
    assert (Hrest : forall h, In h hours -> In h meeting_hours)
      by (intros h Hh; apply Hhours; right; exact Hh).
    destruct (slot_free busy slot (slot + delta) && (now <? slot)) eqn:E.
    + apply andb_true_iff in E. destruct E as [Hfree Hafter].
      apply slot_free_spec in Hfree. apply Z.ltb_lt in Hafter.
      assert (Hgood' : Forall (good_slot now delta busy) (suggestions ++ [slot])%list).
      { apply Forall_app. split; [exact Hgood|]. constructor; [|constructor].
        split; [|split; assumption].
        exists day_offset, hour. repeat split; try lia; assumption. }
      destruct (3 <=? List.length (suggestions ++ [slot])%list)%nat eqn:E3.
      * eexists. split; [reflexivity|]. split; [exact Hgood'|].
        rewrite List.length_app in *. cbn [List.length] in *. lia.
      * apply Nat.leb_gt in E3.
        destruct (IH (suggestions ++ [slot])%list Hrest Hgood' E3)
          as (out & Hrun & Hout & Hle & Hge).
        exists out. repeat split; try assumption.
        rewrite List.length_app in Hge. cbn [List.length] in Hge. lia.
    + apply (IH suggestions Hrest Hgood Hlen).
Qed.

Lemma scan_days_spec (now delta : Z) (duration : sval) (busy : list datetime)
  (offsets : list Z) (suggestions : list datetime) :
  delta_of duration = Ret delta ->
  (forall d, In d offsets -> 0 <= d <= 6) ->
  Forall (good_slot now delta busy) suggestions ->
  (List.length suggestions < 3)%nat ->
  exists out,
    scan_days now duration busy offsets suggestions = Ret out
    /\ Forall (good_slot now delta busy) out
    /\ (List.length out <= 3)%nat.
Proof.
  intros Hdelta. revert suggestions.
  induction offsets as [|d offsets IH]; intros suggestions Hoffsets Hgood Hlen.
  - exists suggestions. repeat split; [assumption|lia].
  - cbn [scan_days].
    destruct (scan_hours_spec now delta duration busy d meeting_hours suggestions
                Hdelta (Hoffsets d (or_introl eq_refl)) (fun h H => H) Hgood Hlen)
      as (out & Hrun & Hout & Hle & _).
    rewrite Hrun.
    destruct (3 <=? List.length out)%nat eqn:E3.
    + exists out. repeat split; assumption.
    + apply Nat.leb_gt in E3. apply IH; try assumption.
      intros d' Hd'. apply Hoffsets. right. exact Hd'.
Qed.

(** With no busy time, every hour of a day after today yields a slot, so
    three are found at the latest on the next day. *)
Lemma scan_hours_fills (now delta : Z) (duration : sval)
  (hours : list Z) (suggestions : list datetime) :
  delta_of duration = Ret delta ->
  (forall h, In h hours -> In h meeting_hours) ->
  (3 <= List.length suggestions + List.length hours)%nat ->
  (List.length suggestions < 3)%nat ->
  exists out,
    scan_hours now duration [] (now + days 1) hours suggestions = Ret out
    /\ (3 <= List.length out)%nat.
Proof.
  intros Hdelta. revert suggestions.
  induction hours as [|hour hours IH]; intros suggestions Hhours Hsum Hlen.
  - cbn [List.length] in Hsum. lia.
  - cbn [scan_hours].
    assert (Hhour : In hour meeting_hours) by (apply Hhours; left; reflexivity).
    assert (Hrange : 0 <= hour <= 23).
    { unfold meeting_hours in Hhour. cbn in Hhour. lia. }
    assert (Hreplace : replace_hms (now + days 1) hour 0 0
                       = Ret (make (ordinal now + 1) hour 0 0 (microsecond now))).
    { unfold replace_hms.
      assert (E : (0 <=? hour) && (hour <=? 23) = true)
        by (apply andb_true_iff; rewrite !Z.leb_le; lia).
      rewrite E. cbn.
      destruct (DatetimeFacts.add_days_fields now 1) as (-> & _ & _ & _ & ->).
      reflexivity. }
    rewrite Hreplace, Hdelta.
    assert (Hafter : (now <? make (ordinal now + 1) hour 0 0 (microsecond now)) = true).
    { apply Z.ltb_lt. clear -Hrange. DatetimeFacts.unfold_fields.
      Z.to_euclidean_division_equations. lia. }
    rewrite Hafter. cbn [slot_free existsb negb andb].
    destruct (3 <=? List.length (suggestions ++ [_])%list)%nat eqn:E3.
    + eexists. split; [reflexivity|]. apply Nat.leb_le in E3. exact E3.
    + apply Nat.leb_gt in E3. apply IH.
      * intros h Hh. apply Hhours. right. exact Hh.
      * rewrite List.length_app. cbn [List.length] in *. lia.
      * exact E3.
Qed.

(** For a whole number of minutes, the search returns at most three
    slots; each is a meeting hour (9, 10, 11, 14, 15 or 16, at minute and
    second 0 but with the clock's microsecond) of today or one of the next
    six days, lies after the clock reading, and contains no due time of a
    pending task, both ends of the slot included.  When nothing is
    pending, exactly three slots are returned. *)
Theorem find_slots_are_good (now n : Z) (busy : list datetime) :
  exists slots,
    find_slots now (SJson (PInt n)) busy = Ret slots
    /\ (List.length slots <= 3)%nat
    /\ Forall (good_slot now (minutes n) busy) slots
    /\ (busy = [] -> List.length slots = 3%nat).
Proof.
  unfold find_slots.
  destruct (scan_days_spec now (minutes n) (SJson (PInt n)) busy
              [0; 1; 2; 3; 4; 5; 6] [] eq_refl)
    as (slots & Hrun & Hgood & Hle).
  { intros d Hd. cbn in Hd. lia. }
  { constructor. }
  { cbn. lia. }
  exists slots. split; [exact Hrun|]. split; [exact Hle|]. split; [exact Hgood|].
  intros ->. cbn [scan_days] in Hrun.
  destruct (scan_hours_spec now (minutes n) (SJson (PInt n)) [] 0 meeting_hours []
              eq_refl ltac:(lia) (fun h H => H) ltac:(constructor) ltac:(cbn; lia))
    as (s0 & Hrun0 & Hgood0 & Hle0 & _).
  rewrite Hrun0 in Hrun.
  destruct (3 <=? List.length s0)%nat eqn:E0.
  - injection Hrun as <-. apply Nat.leb_le in E0. lia.
  - apply Nat.leb_gt in E0.
    destruct (scan_hours_fills now (minutes n) (SJson (PInt n)) meeting_hours s0
                eq_refl (fun h H => H) ltac:(cbn; lia) E0)
      as (s1 & Hrun1 & Hge1).
    rewrite Hrun1 in Hrun. apply Nat.leb_le in Hge1. rewrite Hge1 in Hrun.
    injection Hrun as <-. apply Nat.leb_le in Hge1. lia.
Qed.

(** A duration that is not a number (the model often answers a text such
    as [1 hour]) makes [_suggest_meeting_time] raise at the first slot. *)
Theorem suggest_meeting_time_bad_duration
  (now : datetime) (data : list (string * sval)) (a : agent)
  (busy : list datetime) (e : exn) :
  busy_times_of (Memory.get_pending_tasks (memory a)) = Ret busy ->
  delta_of (sdict_get_or "duration" data (SJson (PInt 60))) = Raise e ->
  _suggest_meeting_time now data a = (Raise e, a).
Proof.
  intros Hbusy Hdelta. unfold _suggest_meeting_time. rewrite Hbusy.
  assert (Hrun : find_slots now (sdict_get_or "duration" data (SJson (PInt 60))) busy
                 = Raise e).
  { unfold find_slots. cbn [scan_days meeting_hours scan_hours].
    assert (Hreplace : replace_hms (now + days 0) 9 0 0
                       = Ret (make (ordinal (now + days 0)) 9 0 0
                                (microsecond (now + days 0))))
      by reflexivity.
    rewrite Hreplace, Hdelta. reflexivity. }
  rewrite Hrun. reflexivity.
Qed.

End Suggestions.

(** ** Concrete runs of the request path *)

Definition reminder_answer : string :=
  "{" +:+ dquote +:+ "action" +:+ dquote +:+ ": " +:+ dquote +:+ "add_reminder" +:+ dquote +:+ ", " +:+
  dquote +:+ "title" +:+ dquote +:+ ": " +:+ dquote +:+ "call Bob" +:+ dquote +:+ ", " +:+
  dquote +:+ "time" +:+ dquote +:+ ": " +:+ dquote +:+ "tomorrow at 3pm" +:+ dquote +:+ ", " +:+
  dquote +:+ "priority" +:+ dquote +:+ ": " +:+ dquote +:+ "medium" +:+ dquote +:+ "}".

Definition reminder_llm : string -> outcome string := fun _ => Ret reminder_answer.

Lemma parse_schedule_request_never_raises_witness :
  _parse_schedule_request reminder_llm Json.loads no_dateutil
    (make (ordinal_of_ymd 2024 3 10) 9 26 53 589793)
    "remind me to call Bob tomorrow at 3pm"
  = Ret (SDict [("action", SJson (PStr "add_reminder"));
                ("title", SJson (PStr "call Bob"));
                ("time", SJson (PStr "tomorrow at 3pm"));
                ("priority", SJson (PStr "medium"));
                ("parsed_time", SDatetime (make day_2024_03_11 15 0 0 589793))]).
Proof.
  destruct (parse_schedule_request_never_raises reminder_llm Json.loads no_dateutil
              (make (ordinal_of_ymd 2024 3 10) 9 26 53 589793)
              "remind me to call Bob tomorrow at 3pm" reminder_answer eq_refl)
    as (data & Hrun & _ & Htime & _).
  rewrite Hrun. f_equal.
  specialize (Htime [("action", PStr "add_reminder"); ("title", PStr "call Bob");
                     ("time", PStr "tomorrow at 3pm"); ("priority", PStr "medium")]
                "tomorrow at 3pm").
  vm_compute in Htime. apply Htime; reflexivity.
Defined.

Lemma check_conflicts_on_parsed_request_raises_witness :
  exists e,
    _check_conflicts_dict Datetime.fromisoformat (fun _ => Raise (ValueError "nan"))
      [("action", SJson (PStr "add_reminder")); ("title", SJson (PStr "call Bob"));
       ("time", SJson (PStr "tomorrow at 3pm")); ("priority", SJson (PStr "medium"));
       ("parsed_time", SDatetime (make day_2024_03_11 15 0 0 589793))]
      one_task_agent
    = (Raise e, one_task_agent).
Proof.
  apply (check_conflicts_on_parsed_request_raises Json.loads no_dateutil
           Datetime.fromisoformat (fun _ => Raise (ValueError "nan"))
           (make (ordinal_of_ymd 2024 3 10) 9 26 53 589793) reminder_answer).
  vm_compute. reflexivity.
Defined.

Lemma suggest_meeting_time_bad_duration_witness :
  _suggest_meeting_time Datetime.fromisoformat Datetime.strftime
    (fun _ => Raise (ValueError "nan")) (fun _ => EmptyString)
    (make (ordinal_of_ymd 2024 3 10) 9 26 53 589793)
    [("duration", SJson (PStr "1 hour"))] one_task_agent
  = (Raise (TypeError "unsupported type for timedelta minutes component"),
     one_task_agent).
Proof.
  apply (suggest_meeting_time_bad_duration Datetime.fromisoformat Datetime.strftime
           (fun _ => Raise (ValueError "nan")) (fun _ => EmptyString)
           (make (ordinal_of_ymd 2024 3 10) 9 26 53 589793)
           [("duration", SJson (PStr "1 hour"))] one_task_agent
           [make day_2024_03_11 15 0 0 0]).
  - vm_compute. reflexivity.
  - reflexivity.
Defined.

End Scheduler.

(* ===================================================================== *)
(** * The automation agent (backend/agents/automation_agent.py)           *)
(* ===================================================================== *)

Module Automation.

Inductive TriggerType : Type := TIME | EVENT | CONDITION | WEBHOOK | IOT.

(** [TriggerType.X.value] *)
Definition trigger_value (t : TriggerType) : string :=
  match t with
  | TIME => "time" | EVENT => "event" | CONDITION => "condition"
  | WEBHOOK => "webhook" | IOT => "iot"
  end.

Definition TriggerType_eqb (a b : TriggerType) : bool :=
  String.eqb (trigger_value a) (trigger_value b).

(** A trigger dict: its ['type'] and its other keys. *)
Record trigger : Type := Trigger {
  type : TriggerType;
  fields : list (string * pyval)
}.

(** What a key of a workflow dict can hold. *)
Inductive value : Type :=
| VJson (v : pyval)
| VTrigger (t : trigger).

(** An entry of [self.triggers]. *)
Record registration : Type := Registration {
  workflow_id : string;
  config : trigger;
  registered_at : Datetime.datetime
}.

(** The agent's registries.  A workflow is a Python dict, [gmap string
    value]; the registry holds each workflow dict under its id, and the
    engine reaches a dict only through that entry, so a mutation of the
    dict is a mutation of the entry.  [triggers] keeps insertion order,
    the order in which the engine visits it. *)
Record agent : Type := Agent {
  workflows : gmap string (gmap string value);
  triggers : list (string * registration)
}.

Definition empty_agent : agent := {| workflows := ∅; triggers := [] |}.

(** [str(n)] of a natural number. *)
Definition nat_repr (n : nat) : string := NilEmpty.string_of_uint (Nat.to_uint n).

(** [d.get(k, default)] *)
Definition get_or (k : string) (d : list (string * pyval)) (default : pyval) : pyval :=
  match dict_get k d with Some v => v | None => default end.

(** [self.triggers[key] = reg] *)
Fixpoint triggers_set (key : string) (reg : registration)
  (l : list (string * registration)) : list (string * registration) :=
  match l with
  | [] => [(key, reg)]
  | (k, r) :: l' =>
      if String.eqb key k then (key, reg) :: l' else (k, r) :: triggers_set key reg l'
  end.

(** [len(v)] *)
Definition py_len (v : pyval) : outcome Z :=
  match v with
  | PStr s => Ret (Z.of_nat (String.length s))
  | PList l => Ret (Z.of_nat (List.length l))
  | PDict d => Ret (Z.of_nat (List.length d))
  | _ => Raise (TypeError "object has no len()")
  end.

(** [for x in v]: the number of iterations, or [TypeError]. *)
Definition py_iterations (v : pyval) : outcome nat :=
  match v with
  | PStr s => Ret (String.length s)
  | PList l => Ret (List.length l)
  | PDict d => Ret (List.length d)
  | _ => Raise (TypeError "object is not iterable")
  end.

Section WithEnvironment.

(** [str(v)], as an f-string formats a value. *)
Variable py_str : pyval -> string.
(** The model's answer to the rule prompt of [_create_automation_rule]. *)
Variable llm : string -> outcome string.

(** [_parse_trigger(trigger_config)]: the argument must be a dict. *)
Definition _parse_trigger (trigger_config : pyval) : outcome trigger :=
  match trigger_config with
  | PDict c =>
      match get_or "type" c (PStr "manual") with
      | PStr "time" =>
          Ret {| type := TIME;
                 fields := [("schedule", get_or "schedule" c (PStr "0 9 * * *"));
                            ("timezone", get_or "timezone" c (PStr "local"))] |}
      | PStr "event" =>
          Ret {| type := EVENT;
                 fields := [("event_name", get_or "event_name" c PNone);
                            ("source", get_or "source" c PNone)] |}
      | PStr "iot" =>
          Ret {| type := IOT;
                 fields := [("device_id", get_or "device_id" c PNone);
                            ("condition", get_or "condition" c PNone)] |}
      | _ => Ret {| type := EVENT; fields := [("event_name", PStr "manual")] |}
      end
  | _ => Raise (AttributeError "object has no attribute 'get'")
  end.

Definition field (t : trigger) (k : string) : outcome pyval :=
  match dict_get k (fields t) with
  | Some v => Ret v
  | None => Raise (KeyError k)
  end.

(** [_describe_trigger(trigger)] *)
Definition _describe_trigger (t : trigger) : outcome string :=
  match type t with
  | TIME =>
      match field t "schedule" with
      | Ret v => Ret ("Scheduled (" +:+ py_str v +:+ ")")
      | Raise e => Raise e
      end
  | EVENT =>
      match field t "event_name" with
      | Ret v => Ret ("When " +:+ py_str v +:+ " occurs")
      | Raise e => Raise e
      end
  | IOT =>
      match field t "device_id" with
      | Ret v =>
          Ret ("When device " +:+ py_str v +:+ " " +:+
               py_str (get_or "condition" (fields t) (PStr "changes")))
      | Raise e => Raise e
      end
  | _ => Ret "Manual trigger"
  end.

(** [_register_trigger(workflow_id, trigger)] *)
Definition _register_trigger (now : Datetime.datetime) (workflow_id : string)
  (t : trigger) : M agent unit :=
  fun a =>
    (Ret tt,
     {| workflows := workflows a;
        triggers := triggers_set (trigger_value (type t) +:+ "_" +:+ workflow_id)
                      {| workflow_id := workflow_id; config := t;
                         registered_at := now |}
                      (triggers a) |}).

(** The dict [_create_workflow] builds. *)
Definition new_workflow (workflow_id : string) (config : list (string * pyval))
  (t : trigger) (created : string) : gmap string value :=
  <["id" := VJson (PStr workflow_id)]>
  (<["name" := VJson (get_or "workflow_name" config (PStr "Unnamed Workflow"))]>
  (<["description" := VJson (get_or "description" config (PStr EmptyString))]>
  (<["trigger" := VTrigger t]>
  (<["conditions" := VJson (get_or "conditions" config (PList []))]>
  (<["actions" := VJson (get_or "actions" config (PList []))]>
  (<["created_at" := VJson (PStr created)]>
  (<["enabled" := VJson (PBool true)]>
  (<["last_run" := VJson PNone]>
  (<["run_count" := VJson (PInt 0)]> ∅))))))))).

(** [_create_workflow(config)].  [created] is [datetime.now().isoformat()],
    [now] the clock reading of [_register_trigger]. *)
Definition _create_workflow (created : string) (now : Datetime.datetime)
  (config : list (string * pyval)) : M agent string :=
  fun a =>
    let workflow_id := "workflow_" +:+ nat_repr (size (workflows a)) in
    match _parse_trigger (get_or "trigger" config (PDict [])) with
    | Raise e => (Raise e, a)
    | Ret t =>
        let workflow := new_workflow workflow_id config t created in
        let a1 := {| workflows := <[workflow_id := workflow]> (workflows a);
                     triggers := triggers a |} in
        let a2 := snd (_register_trigger now workflow_id t a1) in
        match _describe_trigger t with
        | Raise e => (Raise e, a2)
        | Ret described =>
            match py_len (get_or "actions" config (PList [])) with
            | Raise e => (Raise e, a2)
            | Ret n =>
                (Ret ("✅ **Workflow Created: " +:+
                      py_str (get_or "workflow_name" config (PStr "Unnamed Workflow"))
                      +:+ "**" +:+ nl +:+ nl +:+
                      "🔄 Trigger: " +:+ described +:+ nl +:+
                      "⚡ Actions: " +:+ py_str (PInt n) +:+ " steps configured" +:+ nl +:+
                      nl +:+
                      "The workflow is now active and will run automatically when triggered." +:+ nl +:+
                      "Would you like to test it or add more conditions?"),
                 a2)
            end
        end
    end.

Definition rule_prompt (config : list (string * pyval)) : string :=
  "Convert this to an automation rule:" +:+ nl +:+
  "        Request: " +:+ py_str (PDict config) +:+ nl +:+
  "        " +:+ nl +:+
  "        Format as:" +:+ nl +:+
  "        IF: [condition]" +:+ nl +:+
  "        THEN: [action]" +:+ nl +:+
  "        ELSE: [alternative action] (optional)".

(** [v[:30]] formatted into the workflow's name. *)
Definition first_30 (v : pyval) : outcome string :=
  match v with
  | PStr s => Ret (String.substring 0 30 s)
  | PList l => Ret (py_str (PList (firstn 30 l)))
  | _ => Raise (TypeError "object is not subscriptable")
  end.

(** The dict [_create_automation_rule] stores as a workflow. *)
Definition rule_workflow (rule_id name : string) (config : list (string * pyval))
  (created : string) : gmap string value :=
  <["id" := VJson (PStr rule_id)]>
  (<["name" := VJson (PStr name)]>
  (<["trigger" := VTrigger {| type := CONDITION;
                              fields := [("condition", get_or "if_condition" config PNone)] |}]>
  (<["actions" := VJson (PList [get_or "then_action" config PNone])]>
  (<["created_at" := VJson (PStr created)]>
  (<["enabled" := VJson (PBool true)]> ∅))))).

(** [_create_automation_rule(config)] *)
Definition _create_automation_rule (created : string)
  (config : list (string * pyval)) : M agent string :=
  fun a =>
    match llm (rule_prompt config) with
    | Raise e => (Raise e, a)
    | Ret rule_text =>
        let rule_id := "auto_" +:+ nat_repr (size (workflows a)) in
        match first_30 (get_or "if_condition" config PNone) with
        | Raise e => (Raise e, a)
        | Ret head =>
            (Ret ("🤖 **Automation Rule Created**" +:+ nl +:+ nl +:+
                  rule_text +:+ nl +:+ nl +:+
                  "This automation is now active and monitoring for the specified conditions." +:+ nl +:+
                  "I'll notify you whenever it triggers. Always one call away! ✨"),
             {| workflows :=
                  <[rule_id := rule_workflow rule_id
                                 ("Automation: " +:+ head +:+ "...") config created]>
                    (workflows a);
                triggers := triggers a |})
        end
    end.

End WithEnvironment.

(** [workflow['run_count'] += 1] on the stored value. *)
Definition increment (v : value) : outcome value :=
  match v with
  | VJson (PInt n) => Ret (VJson (PInt (n + 1)))
  | VJson (PBool b) => Ret (VJson (PInt ((if b then 1 else 0) + 1)))
  | VJson (PFloat f) => Ret (VJson (PFloat (f + 1)%float))
  | _ => Raise (TypeError "unsupported operand type(s) for +=")
  end.

(** [_check_and_run_workflow(workflow)] on the workflow dict: the outcome
    and the dict afterwards.  [stamp] is [datetime.now().isoformat()].
    [_execute_workflow_action] is [pass], so the loop over the actions
    only needs them to be iterable. *)
Definition _check_and_run_workflow (stamp : string) (workflow : gmap string value)
  : outcome unit * gmap string value :=
  let w1 := <["last_run" := VJson (PStr stamp)]> workflow in
  match w1 !! "run_count" with
  | None => (Raise (KeyError "run_count"), w1)
  | Some count =>
      match increment count with
      | Raise e => (Raise e, w1)
      | Ret count' =>
          let w2 := <["run_count" := count']> w1 in
          match w2 !! "actions" with
          | None => (Raise (KeyError "actions"), w2)
          | Some (VJson actions) =>
              match py_iterations actions with
              | Ret _ => (Ret tt, w2)
              | Raise e => (Raise e, w2)
              end
          | Some (VTrigger _) => (Ret tt, w2)
          end
      end
  end.

(** The same call on the registry entry [wid], as the engine makes it after
    [workflow = self.workflows[workflow_id]]. *)
Definition run_registered (stamp : string) (wid : string) : M agent unit :=
  fun a =>
    match workflows a !! wid with
    | None => (Raise (KeyError wid), a)
    | Some workflow =>
        let '(result, workflow') := _check_and_run_workflow stamp workflow in
        (result, {| workflows := <[wid := workflow']> (workflows a);
                    triggers := triggers a |})
    end.

(** [workflow['enabled']] as the engine tests it. *)
Definition is_enabled (workflow : gmap string value) : outcome bool :=
  match workflow !! "enabled" with
  | Some (VJson v) => Ret (truthy v)
  | Some (VTrigger _) => Ret true
  | None => Raise (KeyError "enabled")
  end.

(** The first loop of one [_automation_engine] iteration: every registered
    time trigger whose workflow exists and is enabled is run; the first
    exception ends the iteration.  Each call of [_check_and_run_workflow]
    reads [datetime.now().isoformat()] itself: [stamps i] is the reading of
    the call number [i] of the iteration, counting from 0, and [i] counts
    the calls made so far.  (The engine's own [current_time] is not
    used.) *)
Fixpoint run_time_triggers (stamps : nat -> string) (i : nat)
  (regs : list (string * registration)) : M agent unit :=
  match regs with
  | [] => ret tt
  | (_, reg) :: regs' =>
      fun a =>
        if TriggerType_eqb (type (config reg)) TIME then
          match workflows a !! workflow_id reg with
          | None => run_time_triggers stamps i regs' a
          | Some workflow =>
              match is_enabled workflow with
              | Raise e => (Raise e, a)
              | Ret false => run_time_triggers stamps i regs' a
              | Ret true =>
                  (do _ <- run_registered (stamps i) (workflow_id reg);
                   run_time_triggers stamps (S i) regs') a
              end
          end
        else run_time_triggers stamps i regs' a
  end.

(** One iteration of [_automation_engine]: the exception, if any, is
    printed and dropped.  (The second loop only calls
    [_evaluate_conditions], which is [pass].) *)
Definition engine_iteration (stamps : nat -> string) (a : agent) : agent :=
  snd (run_time_triggers stamps 0 (triggers a) a).

(** Lookups in a dict written as a chain of inserts with literal keys. *)
Ltac lookup_step :=
  match goal with
  | |- context [ (<[?k := _]> _) !! ?k ] => rewrite lookup_insert_eq
  | |- context [ (<[?k := _]> _) !! ?k' ] =>
      rewrite (lookup_insert_ne _ k k') by discriminate
  | |- context [ ∅ !! _ ] => rewrite lookup_empty
  end.
Ltac solve_lookup := repeat lookup_step; reflexivity.

(** ** Running a workflow *)

Lemma check_and_run_dict (stamp : string) (workflow : gmap string value) (n : Z) :
  workflow !! "run_count" = Some (VJson (PInt n)) ->
  snd (_check_and_run_workflow stamp workflow)
  = <["run_count" := VJson (PInt (n + 1))]>
      (<["last_run" := VJson (PStr stamp)]> workflow).
Proof.
  intros Hcount. unfold _check_and_run_workflow.
  rewrite lookup_insert_ne by discriminate. rewrite Hcount. cbn [increment].
  destruct (_ !! "actions") as [[actions|t]|]; try reflexivity.
  destruct (py_iterations actions); reflexivity.
Qed.


Lemma check_and_run_uncounted (stamp : string) (workflow : gmap string value) :
  workflow !! "run_count" = None ->
  _check_and_run_workflow stamp workflow
  = (Raise (KeyError "run_count"), <["last_run" := VJson (PStr stamp)]> workflow).
Proof.
  intros Hnone. unfold _check_and_run_workflow.
  rewrite lookup_insert_ne by discriminate. rewrite Hnone. reflexivity.
Qed.

Lemma rule_workflow_uncounted (rule_id name : string)
  (config : list (string * pyval)) (created : string) :
  rule_workflow rule_id name config created !! "run_count" = None.
Proof.
  unfold rule_workflow.
  rewrite !lookup_insert_ne by discriminate. apply lookup_empty.
Qed.

Lemma rule_workflow_never_run (rule_id name : string)
  (config : list (string * pyval)) (created : string) :
  rule_workflow rule_id name config created !! "last_run" = None.
Proof.
  unfold rule_workflow.
  rewrite !lookup_insert_ne by discriminate. apply lookup_empty.
Qed.

(** ** The registry invariant *)

Section Registry.

Variable py_str : pyval -> string.
Variable llm : string -> outcome string.

(** The commands that change the registries, and the engine. *)
Inductive op : Type :=
| CreateWorkflow (created : string) (now : Datetime.datetime)
    (config : list (string * pyval))
| CreateRule (created : string) (config : list (string * pyval))
| EngineIteration (stamps : nat -> string).

Definition step (o : op) (a : agent) : agent :=
  match o with
  | CreateWorkflow created now config =>
      snd (_create_workflow py_str created now config a)
  | CreateRule created config =>
      snd (_create_automation_rule py_str llm created config a)
  | EngineIteration stamps => engine_iteration stamps a
  end.

Fixpoint run (ops : list op) (a : agent) : agent :=
  match ops with
  | [] => a
  | o :: ops' => run ops' (step o a)
  end.

Definition workflow_key (k : nat) : string := "workflow_" +:+ nat_repr k.
Definition rule_key (k : nat) : string := "auto_" +:+ nat_repr k.

(** A workflow dict with a non-negative integer [run_count]. *)
Definition counted (workflow : gmap string value) : Prop :=
  exists n, 0 <= n /\ workflow !! "run_count" = Some (VJson (PInt n)).

(** What holds of the registries whatever commands were run: ids are
    numbered below the size of the registry, the workflows under a
    [workflow_] id are counted, and triggers point to [workflow_] ids. *)
Record registry_ok (a : agent) : Prop := RegistryOk {
  ok_keys : forall wid,
    is_Some (workflows a !! wid) ->
    exists k, (k < size (workflows a))%nat
              /\ (wid = workflow_key k \/ wid = rule_key k);
  ok_counted : forall k workflow,
    workflows a !! workflow_key k = Some workflow -> counted workflow;
  ok_triggers : forall key reg,
    In (key, reg) (triggers a) -> exists k, workflow_id reg = workflow_key k
}.

Lemma nat_repr_inj (m n : nat) : nat_repr m = nat_repr n -> m = n.
Proof.
  unfold nat_repr. intros H.
  apply Unsigned.to_uint_inj.
  assert (Hs : NilEmpty.uint_of_string (NilEmpty.string_of_uint (Nat.to_uint m))
               = NilEmpty.uint_of_string (NilEmpty.string_of_uint (Nat.to_uint n)))
    by (rewrite H; reflexivity).
  rewrite !NilEmpty.usu in Hs. congruence.
Qed.

Lemma append_inj_r (p s s' : string) : p +:+ s = p +:+ s' -> s = s'.
Proof.
  induction p as [|c p IH]; intros H; [exact H|].
  apply IH.
  change (String c (p +:+ s) = String c (p +:+ s')) in H.
  injection H as H. exact H.
Qed.

Lemma workflow_key_inj (m n : nat) : workflow_key m = workflow_key n -> m = n.
Proof. intros H. apply nat_repr_inj. exact (append_inj_r _ _ _ H). Qed.

Lemma rule_key_inj (m n : nat) : rule_key m = rule_key n -> m = n.
Proof. intros H. apply nat_repr_inj. exact (append_inj_r _ _ _ H). Qed.

Lemma workflow_key_not_rule (m n : nat) : workflow_key m <> rule_key n.
Proof.
  intros H.
  change (String "w" ("orkflow_" +:+ nat_repr m) = String "a" ("uto_" +:+ nat_repr n)) in H.
  discriminate H.
Qed.

Lemma fresh_workflow_key (a : agent) :
  registry_ok a -> workflows a !! workflow_key (size (workflows a)) = None.
Proof.
  intros Hok. destruct (workflows a !! _) eqn:E; [|reflexivity].
  destruct (ok_keys a Hok _ (mk_is_Some _ _ E)) as (k & Hk & [Heq|Heq]).
  - apply workflow_key_inj in Heq. lia.
  - exfalso. exact (workflow_key_not_rule _ _ Heq).
Qed.

Lemma fresh_rule_key (a : agent) :
  registry_ok a -> workflows a !! rule_key (size (workflows a)) = None.
Proof.
  intros Hok. destruct (workflows a !! _) eqn:E; [|reflexivity].
  destruct (ok_keys a Hok _ (mk_is_Some _ _ E)) as (k & Hk & [Heq|Heq]).
  - exfalso. exact (workflow_key_not_rule _ _ (eq_sym Heq)).
  - apply rule_key_inj in Heq. lia.
Qed.

Lemma in_triggers_set (key k : string) (reg r : registration)
  (l : list (string * registration)) :
  In (key, reg) (triggers_set k r l) -> (key, reg) = (k, r) \/ In (key, reg) l.
Proof.
  induction l as [|[k' r'] l IH]; simpl.
  - intros [H|[]]. left. congruence.
  - destruct (String.eqb k k').
    + intros [H|H]; [left; congruence|right; right; exact H].
    + intros [H|H]; [right; left; exact H|].
      destruct (IH H) as [H'|H']; [left; exact H'|right; right; exact H'].
Qed.

Lemma registry_ok_empty : registry_ok empty_agent.
Proof.
  split; simpl.
  - intros wid [w Hw]. rewrite lookup_empty in Hw. discriminate.
  - intros k w Hw. rewrite lookup_empty in Hw. discriminate.
  - intros key reg [].
Qed.

(** Adding a workflow under a fresh id, with one more trigger for it. *)
Lemma registry_ok_add_workflow (a : agent) (workflow : gmap string value)
  (regs : list (string * registration)) :
  registry_ok a -> counted workflow ->
  (forall key reg, In (key, reg) regs ->
     In (key, reg) (triggers a)
     \/ workflow_id reg = workflow_key (size (workflows a))) ->
  registry_ok
    {| workflows := <[workflow_key (size (workflows a)) := workflow]> (workflows a);
       triggers := regs |}.
Proof.
  intros Hok Hcounted Hregs.
  pose proof (fresh_workflow_key a Hok) as Hfresh.
  split; simpl.
  - intros wid Hsome. rewrite map_size_insert_None by exact Hfresh.
    apply lookup_insert_is_Some in Hsome. destruct Hsome as [<-|[_ Hsome]].
    + exists (size (workflows a)). split; [lia|left; reflexivity].
    + destruct (ok_keys a Hok _ Hsome) as (k & Hk & Hkey).
      exists k. split; [lia|exact Hkey].
  - intros k w Hw. apply lookup_insert_Some in Hw.
    destruct Hw as [[_ <-]|[_ Hw]]; [exact Hcounted|].
    exact (ok_counted a Hok _ _ Hw).
  - intros key reg Hin. destruct (Hregs _ _ Hin) as [H|H].
    + exact (ok_triggers a Hok _ _ H).
    + eexists. exact H.
Qed.

Lemma registry_ok_add_rule (a : agent) (workflow : gmap string value) :
  registry_ok a ->
  registry_ok
    {| workflows := <[rule_key (size (workflows a)) := workflow]> (workflows a);
       triggers := triggers a |}.
Proof.
  intros Hok. pose proof (fresh_rule_key a Hok) as Hfresh.
  split; simpl.
  - intros wid Hsome. rewrite map_size_insert_None by exact Hfresh.
    apply lookup_insert_is_Some in Hsome. destruct Hsome as [<-|[_ Hsome]].
    + exists (size (workflows a)). split; [lia|right; reflexivity].
    + destruct (ok_keys a Hok _ Hsome) as (k & Hk & Hkey).
      exists k. split; [lia|exact Hkey].
  - intros k w Hw. apply lookup_insert_Some in Hw.
    destruct Hw as [[Heq _]|[_ Hw]].
    + exfalso. exact (workflow_key_not_rule _ _ (eq_sym Heq)).
    + exact (ok_counted a Hok _ _ Hw).
  - exact (ok_triggers a Hok).
Qed.

Lemma registry_ok_run_registered (stamp : string) (k : nat) (a : agent) :
  registry_ok a -> registry_ok (snd (run_registered stamp (workflow_key k) a)).
Proof.
  intros Hok. unfold run_registered.
  destruct (workflows a !! workflow_key k) as [w|] eqn:Hw; [|exact Hok].
  destruct (ok_counted a Hok _ _ Hw) as (n & Hn & Hcount).
  pose proof (check_and_run_dict stamp _ _ Hcount) as Hsnd.
  destruct (_check_and_run_workflow stamp w) as [result w']. simpl in Hsnd.
  subst w'. simpl. split; simpl.
  - intros wid Hsome. rewrite map_size_insert_Some by (rewrite Hw; eauto).
    apply lookup_insert_is_Some in Hsome. destruct Hsome as [<-|[_ Hsome]].
    + apply (ok_keys a Hok). rewrite Hw. eauto.
    + apply (ok_keys a Hok). exact Hsome.
  - intros k' w' Hw'. apply lookup_insert_Some in Hw'.
    destruct Hw' as [[_ <-]|[_ Hw']].
    + exists (n + 1). split; [lia|]. apply lookup_insert_eq.
    + exact (ok_counted a Hok _ _ Hw').
  - exact (ok_triggers a Hok).
Qed.

Lemma registry_ok_run_time_triggers (stamps : nat -> string) (i : nat)
  (regs : list (string * registration)) (a : agent) :
  (forall key reg, In (key, reg) regs -> exists k, workflow_id reg = workflow_key k) ->
  registry_ok a -> registry_ok (snd (run_time_triggers stamps i regs a)).
Proof.
  revert i a. induction regs as [|[key reg] regs IH]; intros i a Hregs Hok.
  - exact Hok.
  - assert (Hrest : forall key reg, In (key, reg) regs ->
                      exists k, workflow_id reg = workflow_key k)
      by (intros; eapply Hregs; right; eauto).
    cbn [run_time_triggers].
    destruct (TriggerType_eqb _ _); [|apply IH; assumption].
    destruct (workflows a !! workflow_id reg) as [w|] eqn:Hw; [|apply IH; assumption].
    destruct (is_enabled w) as [[|]|e]; [|apply IH; assumption|exact Hok].
    destruct (Hregs key reg (or_introl eq_refl)) as (k & Hk).
    unfold bind. rewrite Hk.
    pose proof (registry_ok_run_registered (stamps i) k a Hok) as Hok'.
    destruct (run_registered (stamps i) (workflow_key k) a) as [[[]|e] a'];
      simpl in Hok'; [apply IH; assumption|exact Hok'].
Qed.

Lemma registry_ok_step (o : op) (a : agent) : registry_ok a -> registry_ok (step o a).
Proof.
  intros Hok. destruct o as [created now config|created config|stamps]; simpl.
  - unfold _create_workflow.
    destruct (_parse_trigger _) as [t|e]; [|exact Hok].
    assert (Hnew : registry_ok
              (snd (_register_trigger now ("workflow_" +:+ nat_repr (size (workflows a))) t
                 {| workflows :=
                      <["workflow_" +:+ nat_repr (size (workflows a)) :=
                          new_workflow ("workflow_" +:+ nat_repr (size (workflows a)))
                            config t created]> (workflows a);
                    triggers := triggers a |}))).
    { unfold _register_trigger. cbn [snd workflows triggers].
      apply registry_ok_add_workflow; [exact Hok| |].
      - exists 0. split; [lia|]. reflexivity.
      - intros key reg Hin. apply in_triggers_set in Hin.
        destruct Hin as [Heq|Hin]; [right|left; exact Hin].
        injection Heq as _ ->. reflexivity. }
    destruct (_describe_trigger py_str t); [|exact Hnew].
    destruct (py_len _); exact Hnew.
  - unfold _create_automation_rule.
    destruct (llm _); [|exact Hok].
    destruct (first_30 _ _); [|exact Hok].
    apply registry_ok_add_rule. exact Hok.
  - apply registry_ok_run_time_triggers; [|exact Hok].
    exact (ok_triggers a Hok).
Qed.

(** The keys of the Workflow data model. *)
Definition workflow_fields : list string :=
  ["id"; "name"; "description"; "trigger"; "conditions"; "actions"; "enabled";
   "created_at"; "last_run"; "run_count"].

Definition has_key (workflow : gmap string value) (k : string) : bool :=
  match workflow !! k with Some _ => true | None => false end.

Lemma new_workflow_complete (wid created : string)
  (config : list (string * pyval)) (t : trigger) :
  let workflow := new_workflow wid config t created in
  forallb (has_key workflow) workflow_fields = true
  /\ workflow !! "id" = Some (VJson (PStr wid))
  /\ workflow !! "trigger" = Some (VTrigger t)
  /\ workflow !! "enabled" = Some (VJson (PBool true))
  /\ workflow !! "last_run" = Some (VJson PNone)
  /\ workflow !! "run_count" = Some (VJson (PInt 0)).
Proof.
  cbv zeta.
  assert (Hkeys : Forall (fun k => has_key (new_workflow wid config t created) k = true)
                    workflow_fields).
  { unfold workflow_fields.
    repeat (apply Forall_cons; split; [unfold has_key, new_workflow; solve_lookup|]).
    apply Forall_nil_2. }
  split.
  { apply forallb_forall. intros k Hk.
    rewrite List.Forall_forall in Hkeys. apply Hkeys. exact Hk. }
  unfold new_workflow. repeat split; solve_lookup.
Qed.

(** [_create_workflow], when the trigger configuration is a dict: the new
    workflow goes under an id no existing workflow has, with every field
    of the data model, enabled, never run. *)
Lemma create_workflow_entry (created : string) (now : Datetime.datetime)
  (config : list (string * pyval)) (t : trigger) (a : agent) :
  registry_ok a ->
  _parse_trigger (get_or "trigger" config (PDict [])) = Ret t ->
  workflows a !! workflow_key (size (workflows a)) = None
  /\ workflows (snd (_create_workflow py_str created now config a))
       !! workflow_key (size (workflows a))
     = Some (new_workflow (workflow_key (size (workflows a))) config t created)
  /\ (forall wid, wid <> workflow_key (size (workflows a)) ->
        workflows (snd (_create_workflow py_str created now config a)) !! wid
        = workflows a !! wid).
Proof.
  intros Hok Ht. split; [apply fresh_workflow_key; exact Hok|].
  unfold _create_workflow. rewrite Ht. fold (workflow_key (size (workflows a))).
  assert (Hw : forall o : outcome string * agent,
             snd o = snd (_register_trigger now (workflow_key (size (workflows a))) t
                      {| workflows :=
                           <[workflow_key (size (workflows a)) :=
                               new_workflow (workflow_key (size (workflows a)))
                                 config t created]> (workflows a);
                         triggers := triggers a |}) ->
             workflows (snd o) !! workflow_key (size (workflows a))
             = Some (new_workflow (workflow_key (size (workflows a))) config t created)
             /\ (forall wid, wid <> workflow_key (size (workflows a)) ->
                   workflows (snd o) !! wid = workflows a !! wid)).
  { intros o ->. unfold _register_trigger. cbn [snd workflows].
    split; [apply lookup_insert_eq|].
    intros wid Hne. apply lookup_insert_ne. congruence. }
  destruct (_describe_trigger py_str t); [|apply Hw; reflexivity].
  destruct (py_len _); apply Hw; reflexivity.
Qed.

(** What [_create_automation_rule] stores has six keys only. *)
Lemma rule_workflow_fields (rule_id name created : string)
  (config : list (string * pyval)) :
  List.filter (fun k => negb (has_key (rule_workflow rule_id name config created) k))
    workflow_fields
  = ["description"; "conditions"; "last_run"; "run_count"].
Proof.
  set (w := rule_workflow rule_id name config created).
  assert (Hid : has_key w "id" = true)
    by (unfold has_key, w, rule_workflow; solve_lookup).
  assert (Hname : has_key w "name" = true)
    by (unfold has_key, w, rule_workflow; solve_lookup).
  assert (Hdescription : has_key w "description" = false)
    by (unfold has_key, w, rule_workflow; solve_lookup).
  assert (Htrigger : has_key w "trigger" = true)
    by (unfold has_key, w, rule_workflow; solve_lookup).
  assert (Hconditions : has_key w "conditions" = false)
    by (unfold has_key, w, rule_workflow; solve_lookup).
  assert (Hactions : has_key w "actions" = true)
    by (unfold has_key, w, rule_workflow; solve_lookup).
  assert (Henabled : has_key w "enabled" = true)
    by (unfold has_key, w, rule_workflow; solve_lookup).
  assert (Hcreated : has_key w "created_at" = true)
    by (unfold has_key, w, rule_workflow; solve_lookup).
  assert (Hlast : has_key w "last_run" = false)
    by (unfold has_key, w, rule_workflow; solve_lookup).
  assert (Hcount : has_key w "run_count" = false)
    by (unfold has_key, w, rule_workflow; solve_lookup).
  unfold workflow_fields. cbn [List.filter].
  rewrite Hid, Hname, Hdescription, Htrigger, Hconditions, Hactions, Henabled,
    Hcreated, Hlast, Hcount.
  reflexivity.
Qed.

Lemma create_rule_entry (created rule_text head : string)
  (config : list (string * pyval)) (a : agent) :
  llm (rule_prompt py_str config) = Ret rule_text ->
  first_30 py_str (get_or "if_condition" config PNone) = Ret head ->
  workflows (snd (_create_automation_rule py_str llm created config a))
    !! rule_key (size (workflows a))
  = Some (rule_workflow (rule_key (size (workflows a)))
            ("Automation: " +:+ head +:+ "...") config created).
Proof.
  intros Hllm Hhead. unfold _create_automation_rule. rewrite Hllm, Hhead.
  cbn [snd workflows]. apply lookup_insert_eq.
Qed.

(** Every state the agent can reach satisfies the invariant; so the
    engine runs [_check_and_run_workflow] on counted workflows only. *)
Lemma registry_ok_run (ops : list op) (a : agent) :
  registry_ok a -> registry_ok (run ops a).
Proof.
  revert a. induction ops as [|o ops IH]; intros a Hok; simpl; [exact Hok|].
  apply IH. apply registry_ok_step. exact Hok.
Qed.

End Registry.

(** ** Concrete runs *)

Definition plain_str (v : pyval) : string :=
  match v with
  | PStr s => s
  | PInt z => Json.int_repr z
  | PNone => "None"
  | other => Json.dumps other
  end.

Definition rule_llm : string -> outcome string :=
  fun _ => Ret "IF: temperature > 30 THEN: turn on fan".

Definition fan_rule : list (string * pyval) :=
  [("action", PStr "create_automation");
   ("if_condition", PStr "temperature > 30");
   ("then_action", PStr "turn on fan")].

Definition morning_config : list (string * pyval) :=
  [("action", PStr "create_workflow");
   ("workflow_name", PStr "Morning routine");
   ("trigger", PDict [("type", PStr "time"); ("schedule", PStr "0 7 * * *")]);
   ("actions", PList [PStr "lights on"; PStr "play news"])].

Definition created_text : string := "2024-03-10T09:26:53.589793".
Definition run_text : string := "2024-03-10T09:27:00".

(** The registry after one [create_automation] command. *)
Definition rule_agent : agent :=
  snd (_create_automation_rule plain_str rule_llm created_text fan_rule empty_agent).

(** The registry after one [create_workflow] command. *)
Definition morning_agent : agent :=
  snd (_create_workflow plain_str created_text
         (Datetime.make (Datetime.ordinal_of_ymd 2024 3 10) 9 26 53 589793)
         morning_config empty_agent).

(** The workflow dicts these two commands store. *)
Definition fan_workflow : gmap string value :=
  rule_workflow "auto_0" "Automation: temperature > 30..." fan_rule created_text.

Definition morning_workflow : gmap string value :=
  new_workflow "workflow_0" morning_config
    {| type := TIME;
       fields := [("schedule", PStr "0 7 * * *"); ("timezone", PStr "local")] |}
    created_text.

Lemma rule_agent_entry : workflows rule_agent !! "auto_0" = Some fan_workflow.
Proof.
  pose proof (create_rule_entry plain_str rule_llm created_text _ _ fan_rule
                empty_agent eq_refl eq_refl) as H.
  cbn [workflows empty_agent] in H. rewrite map_size_empty in H. exact H.
Qed.

Lemma morning_agent_entry :
  workflows morning_agent !! "workflow_0" = Some morning_workflow.
Proof.
  destruct (create_workflow_entry plain_str created_text
              (Datetime.make (Datetime.ordinal_of_ymd 2024 3 10) 9 26 53 589793)
              morning_config _ empty_agent registry_ok_empty eq_refl)
    as (_ & H & _).
  cbn [workflows empty_agent] in H. rewrite map_size_empty in H. exact H.
Qed.

Lemma morning_workflow_counted :
  morning_workflow !! "run_count" = Some (VJson (PInt 0)).
Proof. apply new_workflow_complete. Qed.


(** C8 (evaluation).  The command [create_automation] with an
    [if_condition] and a [then_action], on an empty registry, stores under
    [auto_0] a workflow without the keys [description], [conditions],
    [last_run] and [run_count]; the registry after a [create_workflow]
    command holds a workflow with all ten keys, enabled, never run. *)
Theorem rule_workflow_lacks_fields :
  (workflows rule_agent !! "auto_0" = Some fan_workflow
   /\ List.filter (fun k => negb (has_key fan_workflow k)) workflow_fields
      = ["description"; "conditions"; "last_run"; "run_count"]
   /\ fan_workflow !! "enabled" = Some (VJson (PBool true))
   /\ fan_workflow !! "run_count" <> Some (VJson (PInt 0))
   /\ fan_workflow !! "last_run" <> Some (VJson PNone))
  /\ (workflows morning_agent !! "workflow_0" = Some morning_workflow
      /\ forallb (has_key morning_workflow) workflow_fields = true
      /\ morning_workflow !! "enabled" = Some (VJson (PBool true))
      /\ morning_workflow !! "run_count" = Some (VJson (PInt 0))
      /\ morning_workflow !! "last_run" = Some (VJson PNone)).
Proof.
  split.
  - split; [exact rule_agent_entry|].
    split; [apply rule_workflow_fields|].
    unfold fan_workflow.
    rewrite rule_workflow_uncounted, rule_workflow_never_run.
    split; [|split; discriminate].
    unfold rule_workflow.
    rewrite !lookup_insert_ne by discriminate. apply lookup_insert_eq.
  - split; [exact morning_agent_entry|].
    pose proof (new_workflow_complete "workflow_0" created_text morning_config
                  {| type := TIME;
                     fields := [("schedule", PStr "0 7 * * *");
                                ("timezone", PStr "local")] |}) as H.
    cbv zeta in H. unfold morning_workflow. tauto.
Qed.

(** A direct call on a workflow that [_create_automation_rule] put into
    the registry would raise [KeyError('run_count')] and leave the workflow
    without a [run_count]: the keys missing from a rule are the ones
    [_check_and_run_workflow] writes.  The engine never makes that call
    (see [rules_are_never_run]). *)
Lemma check_and_run_rule_workflow_raises :
  workflows rule_agent !! "auto_0" = Some fan_workflow
  /\ fan_workflow !! "run_count" = None
  /\ fst (_check_and_run_workflow run_text fan_workflow)
     = Raise (KeyError "run_count")
  /\ snd (_check_and_run_workflow run_text fan_workflow) !! "run_count" = None.
Proof.
  split; [exact rule_agent_entry|].
  pose proof (rule_workflow_uncounted "auto_0" "Automation: temperature > 30..."
                fan_rule created_text) as Hnone.
  fold fan_workflow in Hnone.
  split; [exact Hnone|].
  rewrite (check_and_run_uncounted run_text _ Hnone). cbn [fst snd].
  split; [reflexivity|].
  rewrite lookup_insert_ne by discriminate. exact Hnone.
Qed.

(** ** What the engine runs *)

Lemma TriggerType_eqb_eq (a b : TriggerType) : TriggerType_eqb a b = true <-> a = b.
Proof. destruct a, b; cbn; split; congruence. Qed.

(** The ids of the workflows with a registered time trigger, in the order
    in which the engine visits the registrations. *)
Definition time_ids (regs : list (string * registration)) : list string :=
  List.map (fun kr => workflow_id (snd kr))
    (List.filter (fun kr => TriggerType_eqb (type (config (snd kr))) TIME) regs).

Lemma in_time_ids (regs : list (string * registration)) (wid : string) :
  In wid (time_ids regs)
  <-> exists key reg, In (key, reg) regs /\ workflow_id reg = wid
                      /\ type (config reg) = TIME.
Proof.
  unfold time_ids. rewrite List.in_map_iff. split.
  - intros ([key reg] & Hid & Hin). apply List.filter_In in Hin.
    destruct Hin as [Hin Ht]. cbn [snd] in *. apply TriggerType_eqb_eq in Ht.
    exists key, reg. auto.
  - intros (key & reg & Hin & Hid & Ht). exists (key, reg). split; [exact Hid|].
    apply List.filter_In. split; [exact Hin|]. cbn [snd].
    apply TriggerType_eqb_eq. exact Ht.
Qed.

(** A workflow the engine can run to the end: counted, enabled, with a
    list of actions. *)
Definition runnable (workflow : gmap string value) (n : Z) : Prop :=
  workflow !! "run_count" = Some (VJson (PInt n))
  /\ workflow !! "enabled" = Some (VJson (PBool true))
  /\ exists actions, workflow !! "actions" = Some (VJson (PList actions)).

(** The workflow dict after one run at [stamp]. *)
Definition ran (stamp : string) (workflow : gmap string value) (n : Z)
  : gmap string value :=
  <["run_count" := VJson (PInt (n + 1))]>
    (<["last_run" := VJson (PStr stamp)]> workflow).

Lemma run_registered_runnable (stamp wid : string) (a : agent)
  (workflow : gmap string value) (n : Z) :
  workflows a !! wid = Some workflow -> runnable workflow n ->
  run_registered stamp wid a
  = (Ret tt, {| workflows := <[wid := ran stamp workflow n]> (workflows a);
                triggers := triggers a |}).
Proof.
  intros Hwid (Hcount & _ & actions & Hactions).
  unfold run_registered. rewrite Hwid.
  assert (Hrun : _check_and_run_workflow stamp workflow = (Ret tt, ran stamp workflow n)).
  { unfold _check_and_run_workflow, ran.
    rewrite lookup_insert_ne by discriminate. rewrite Hcount. cbn [increment].
    rewrite !lookup_insert_ne by discriminate. rewrite Hactions. reflexivity. }
  rewrite Hrun. reflexivity.
Qed.

(** The engine touches only workflows named by a registration. *)
Lemma run_time_triggers_frame (stamps : nat -> string) (i : nat)
  (regs : list (string * registration)) (a : agent) (wid : string) :
  (forall key reg, In (key, reg) regs -> workflow_id reg <> wid) ->
  workflows (snd (run_time_triggers stamps i regs a)) !! wid = workflows a !! wid.
Proof.
  revert i a. induction regs as [|[key reg] regs IH]; intros i a Hregs; [reflexivity|].
  assert (Hrest : forall key reg, In (key, reg) regs -> workflow_id reg <> wid)
    by (intros; eapply Hregs; right; eauto).
  cbn [run_time_triggers].
  destruct (TriggerType_eqb _ _); [|apply IH; exact Hrest].
  destruct (workflows a !! workflow_id reg) as [w|] eqn:Hw; [|apply IH; exact Hrest].
  destruct (is_enabled w) as [[|]|e]; [|apply IH; exact Hrest|reflexivity].
  assert (Hne : workflow_id reg <> wid) by (eapply Hregs; left; reflexivity).
  unfold bind, run_registered. rewrite Hw.
  destruct (_check_and_run_workflow (stamps i) w) as [[[]|e] w'].
  - rewrite IH by exact Hrest. cbn [workflows]. apply lookup_insert_ne. exact Hne.
  - cbn [snd workflows]. apply lookup_insert_ne. exact Hne.
Qed.

Lemma run_time_triggers_exact (stamps : nat -> string) (i : nat)
  (regs : list (string * registration)) (a : agent) :
  List.NoDup (List.map (fun kr => workflow_id (snd kr)) regs) ->
  (forall key reg, In (key, reg) regs -> type (config reg) = TIME ->
     exists workflow n, workflows a !! workflow_id reg = Some workflow
                        /\ runnable workflow n) ->
  fst (run_time_triggers stamps i regs a) = Ret tt
  /\ triggers (snd (run_time_triggers stamps i regs a)) = triggers a
  /\ (forall j wid,
        time_ids regs !! j = Some wid ->
        exists workflow n,
          workflows a !! wid = Some workflow /\ runnable workflow n
          /\ workflows (snd (run_time_triggers stamps i regs a)) !! wid
             = Some (ran (stamps (i + j)%nat) workflow n))
  /\ (forall wid,
        ~ In wid (time_ids regs) ->
        workflows (snd (run_time_triggers stamps i regs a)) !! wid
        = workflows a !! wid).
Proof.
  revert i a. induction regs as [|[key reg] regs IH]; intros i a Hnodup Hrun.
  - split; [reflexivity|]. split; [reflexivity|]. split.
    + intros j wid Hj. destruct j; discriminate Hj.
    + reflexivity.
  - cbn [List.map snd] in Hnodup. inversion Hnodup as [|? ? Hfresh Hnodup']; subst.
    assert (Hfresh' : forall k r, In (k, r) regs -> workflow_id r <> workflow_id reg).
    { intros k r Hin Heq. apply Hfresh. rewrite <- Heq.
      apply (List.in_map (fun kr => workflow_id (snd kr)) _ (k, r)). exact Hin. }
    cbn [run_time_triggers].
    destruct (TriggerType_eqb (type (config reg)) TIME) eqn:Etype.
    + assert (Hids : time_ids ((key, reg) :: regs) = workflow_id reg :: time_ids regs)
        by (unfold time_ids; cbn [List.filter snd]; rewrite Etype; reflexivity).
      apply TriggerType_eqb_eq in Etype.
      destruct (Hrun key reg (or_introl eq_refl) Etype) as (w & n & Hw & Hrunnable).
      rewrite Hw. unfold is_enabled.
      destruct Hrunnable as (Hcount & Henabled & Hactions) eqn:Esave. clear Esave.
      rewrite Henabled. cbn [truthy]. unfold bind.
      rewrite (run_registered_runnable (stamps i) _ a w n Hw
                 (conj Hcount (conj Henabled Hactions))).
      set (a1 := {| workflows := <[workflow_id reg := ran (stamps i) w n]> (workflows a);
                    triggers := triggers a |}).
      destruct (IH (S i) a1 Hnodup') as (Hret & Htrig & Hyes & Hno).
      { intros k r Hin Ht.
        destruct (Hrun k r (or_intror Hin) Ht) as (w' & n' & Hw' & Hr').
        exists w', n'. split; [|exact Hr'].
        cbn [a1 workflows]. rewrite lookup_insert_ne; [exact Hw'|].
        intros Heq. exact (Hfresh' k r Hin (eq_sym Heq)). }
      split; [exact Hret|]. split; [exact Htrig|]. split.
      * intros j wid Hj. rewrite Hids in Hj. destruct j as [|j]; cbn in Hj.
        -- injection Hj as <-. exists w, n. split; [exact Hw|].
           split; [exact (conj Hcount (conj Henabled Hactions))|].
           rewrite (run_time_triggers_frame stamps (S i) regs a1 (workflow_id reg) Hfresh').
           rewrite Nat.add_0_r. cbn [a1 workflows]. apply lookup_insert_eq.
        -- destruct (Hyes j wid Hj) as (w' & n' & Hw' & Hr' & Hafter).
           assert (Hne : workflow_id reg <> wid).
           { apply list_elem_of_lookup_2, list_elem_of_In, in_time_ids in Hj.
             destruct Hj as (k & r & Hin & Hid & _).
             intros Heq. apply (Hfresh' k r Hin). congruence. }
           cbn [a1 workflows] in Hw'. rewrite lookup_insert_ne in Hw' by exact Hne.
           exists w', n'. split; [exact Hw'|]. split; [exact Hr'|].
           replace (i + S j)%nat with (S i + j)%nat by lia. exact Hafter.
      * intros wid Hnot. rewrite Hids in Hnot.
        assert (Hne : workflow_id reg <> wid)
          by (intros Heq; apply Hnot; left; exact Heq).
        rewrite Hno by (intros Hin; apply Hnot; right; exact Hin).
        cbn [a1 workflows]. apply lookup_insert_ne. exact Hne.
    + assert (Hids : time_ids ((key, reg) :: regs) = time_ids regs)
        by (unfold time_ids; cbn [List.filter snd]; rewrite Etype; reflexivity).
      rewrite Hids.
      apply (IH i a Hnodup').
      intros k r Hin Ht. exact (Hrun k r (or_intror Hin) Ht).
Qed.

(** One engine iteration, when every workflow with a time trigger is
    counted, enabled and has a list of actions, and no workflow has two
    registrations: the workflows with a time trigger are run in the order
    of their registrations, each once; the one run by call number [i] gets
    [run_count + 1] and, as [last_run], the clock reading of that call;
    every other workflow, and the trigger registry, are left as they
    are. *)
Theorem engine_iteration_runs_each_once (stamps : nat -> string) (a : agent) :
  List.NoDup (List.map (fun kr => workflow_id (snd kr)) (triggers a)) ->
  (forall key reg, In (key, reg) (triggers a) -> type (config reg) = TIME ->
     exists workflow n, workflows a !! workflow_id reg = Some workflow
                        /\ runnable workflow n) ->
  triggers (engine_iteration stamps a) = triggers a
  /\ (forall i wid,
        time_ids (triggers a) !! i = Some wid ->
        exists workflow n,
          workflows a !! wid = Some workflow
          /\ workflow !! "run_count" = Some (VJson (PInt n))
          /\ workflows (engine_iteration stamps a) !! wid
             = Some (<["run_count" := VJson (PInt (n + 1))]>
                       (<["last_run" := VJson (PStr (stamps i))]> workflow)))
  /\ (forall wid,
        ~ In wid (time_ids (triggers a)) ->
        workflows (engine_iteration stamps a) !! wid = workflows a !! wid).
Proof.
  intros Hnodup Hrun. unfold engine_iteration.
  destruct (run_time_triggers_exact stamps 0 (triggers a) a Hnodup Hrun)
    as (_ & Htrig & Hyes & Hno).
  split; [exact Htrig|]. split; [|exact Hno].
  intros i wid Hi. destruct (Hyes i wid Hi) as (w & n & Hw & (Hcount & _) & Hafter).
  exists w, n. auto.
Qed.

Lemma engine_iteration_triggers (stamps : nat -> string) (i : nat)
  (regs : list (string * registration)) (a : agent) :
  triggers (snd (run_time_triggers stamps i regs a)) = triggers a.
Proof.
  revert i a. induction regs as [|[key reg] regs IH]; intros i a; [reflexivity|].
  cbn [run_time_triggers].
  destruct (TriggerType_eqb _ _); [|apply IH].
  destruct (workflows a !! workflow_id reg) as [w|] eqn:Hw; [|apply IH].
  destruct (is_enabled w) as [[|]|e]; [|apply IH|reflexivity].
  unfold bind, run_registered. rewrite Hw.
  destruct (_check_and_run_workflow (stamps i) w) as [[[]|e] w'].
  - rewrite IH. reflexivity.
  - reflexivity.
Qed.

(** Two workflow dicts that differ at most in [last_run] and
    [run_count]. *)
Definition same_other_fields (w w' : gmap string value) : Prop :=
  forall k, k <> "run_count" -> k <> "last_run" -> w' !! k = w !! k.

Lemma check_and_run_other_fields (stamp : string) (w : gmap string value) :
  same_other_fields w (snd (_check_and_run_workflow stamp w)).
Proof.
  intros k H1 H2. unfold _check_and_run_workflow.
  destruct (_ !! "run_count") as [count|];
    [|cbn [snd]; rewrite lookup_insert_ne by congruence; reflexivity].
  destruct (increment count) as [count'|e];
    [|cbn [snd]; rewrite lookup_insert_ne by congruence; reflexivity].
  destruct (_ !! "actions") as [[actions|t]|];
    [destruct (py_iterations actions)| |];
    cbn [snd]; rewrite !lookup_insert_ne by congruence; reflexivity.
Qed.

Lemma run_time_triggers_fields (stamps : nat -> string) (i : nat)
  (regs : list (string * registration))
  (a : agent) (wid : string) (w : gmap string value) :
  workflows a !! wid = Some w ->
  exists w', workflows (snd (run_time_triggers stamps i regs a)) !! wid = Some w'
             /\ same_other_fields w w'.
Proof.
  revert i a w. induction regs as [|[key reg] regs IH]; intros i a w Hwid.
  - exists w. split; [exact Hwid|]. intros k _ _. reflexivity.
  - cbn [run_time_triggers].
    destruct (TriggerType_eqb _ _); [|apply IH; exact Hwid].
    destruct (workflows a !! workflow_id reg) as [w0|] eqn:Hw0; [|apply IH; exact Hwid].
    destruct (is_enabled w0) as [[|]|e]; [|apply IH; exact Hwid|].
    2:{ exists w. split; [exact Hwid|]. intros k _ _. reflexivity. }
    unfold bind, run_registered. rewrite Hw0.
    pose proof (check_and_run_other_fields (stamps i) w0) as Hsame.
    destruct (_check_and_run_workflow (stamps i) w0) as [result w0'].
    cbn [snd] in Hsame.
    destruct (String.eqb_spec (workflow_id reg) wid) as [Heq|Hne].
    + assert (w0 = w) by congruence. subst w0.
      assert (Hnew : workflows {| workflows := <[workflow_id reg := w0']> (workflows a);
                                  triggers := triggers a |} !! wid = Some w0')
        by (cbn [workflows]; rewrite Heq; apply lookup_insert_eq).
      destruct result as [[]|e].
      * destruct (IH (S i) _ _ Hnew) as (w' & Hw' & Hsame').
        exists w'. split; [exact Hw'|].
        intros k H1 H2. rewrite (Hsame' k H1 H2). exact (Hsame k H1 H2).
      * exists w0'. split; [exact Hnew|exact Hsame].
    + assert (Hold : workflows {| workflows := <[workflow_id reg := w0']> (workflows a);
                                  triggers := triggers a |} !! wid = Some w)
        by (cbn [workflows]; rewrite lookup_insert_ne by exact Hne; exact Hwid).
      destruct result as [[]|e].
      * apply IH. exact Hold.
      * exists w. split; [exact Hold|]. intros k _ _. reflexivity.
Qed.

Lemma in_triggers_set_new (k : string) (r : registration)
  (l : list (string * registration)) :
  In (k, r) (triggers_set k r l).
Proof.
  induction l as [|[k' r'] l IH]; simpl; [left; reflexivity|].
  destruct (String.eqb k k'); [left; reflexivity|right; exact IH].
Qed.

Lemma nodup_triggers_set (k : string) (r : registration)
  (l : list (string * registration)) :
  List.NoDup (List.map (fun kr => workflow_id (snd kr)) l) ->
  (forall k' r', In (k', r') l -> workflow_id r' <> workflow_id r) ->
  List.NoDup (List.map (fun kr => workflow_id (snd kr)) (triggers_set k r l)).
Proof.
  induction l as [|[k' r'] l IH]; intros Hnodup Hfresh.
  - simpl. constructor; [intros []|constructor].
  - cbn [List.map snd] in Hnodup. inversion Hnodup as [|? ? Hhead Hrest]; subst.
    assert (Hnot : ~ In (workflow_id r) (List.map (fun kr => workflow_id (snd kr)) l)).
    { intros Hin. apply List.in_map_iff in Hin. destruct Hin as ([k0 r0] & Heq & Hin).
      apply (Hfresh k0 r0); [right; exact Hin|exact Heq]. }
    cbn [triggers_set]. destruct (String.eqb k k').
    + cbn [List.map snd]. constructor; assumption.
    + cbn [List.map snd]. constructor.
      * intros Hin. apply List.in_map_iff in Hin.
        destruct Hin as ([k0 r0] & Heq & Hin). cbn [snd] in Heq.
        apply in_triggers_set in Hin. destruct Hin as [Hin|Hin].
        -- injection Hin as _ ->. apply (Hfresh k' r'); [left; reflexivity|].
           symmetry. exact Heq.
        -- apply Hhead. rewrite <- Heq.
           apply (List.in_map (fun kr => workflow_id (snd kr)) _ (k0, r0)). exact Hin.
      * apply IH; [exact Hrest|]. intros k0 r0 Hin. apply (Hfresh k0 r0). right. exact Hin.
Qed.

(** ** Creating workflows: triggers and failures *)

Section Creation.

Variable py_str : pyval -> string.
Variable llm : string -> outcome string.

(** The four triggers [_parse_trigger] can build from a dict. *)
Definition parsed_shape (c : list (string * pyval)) (t : trigger) : Prop :=
  t = {| type := TIME;
         fields := [("schedule", get_or "schedule" c (PStr "0 9 * * *"));
                    ("timezone", get_or "timezone" c (PStr "local"))] |}
  \/ t = {| type := EVENT;
            fields := [("event_name", get_or "event_name" c PNone);
                       ("source", get_or "source" c PNone)] |}
  \/ t = {| type := IOT;
            fields := [("device_id", get_or "device_id" c PNone);
                       ("condition", get_or "condition" c PNone)] |}
  \/ t = {| type := EVENT; fields := [("event_name", PStr "manual")] |}.

Lemma parse_trigger_shape (c : list (string * pyval)) :
  exists t, _parse_trigger (PDict c) = Ret t /\ parsed_shape c t.
Proof.
  unfold _parse_trigger, parsed_shape.
  generalize (get_or "type" c (PStr "manual")). intros v.
  repeat match goal with
         | |- context [match ?x with _ => _ end] => destruct x
         end;
    eexists; (split; [reflexivity|]); auto.
Qed.

(** [_parse_trigger] builds time, event and IoT triggers only: a
    configuration of any other type, [condition] and [webhook] included,
    becomes the manual event trigger; a trigger it builds has the keys
    [_describe_trigger] reads, so describing it never raises; a
    configuration that is not a dict raises [AttributeError]. *)
Theorem parse_trigger_kinds (trigger_config : pyval) :
  match _parse_trigger trigger_config with
  | Ret t =>
      (type t = TIME \/ type t = EVENT \/ type t = IOT)
      /\ (exists text, _describe_trigger py_str t = Ret text)
      /\ exists c, trigger_config = PDict c
  | Raise e =>
      (exists what, e = AttributeError what)
      /\ forall c, trigger_config <> PDict c
  end.
Proof.
  destruct trigger_config;
    try (cbn; split; [eexists; reflexivity|intros c; discriminate]).
  destruct (parse_trigger_shape d) as (t & -> & Hshape).
  destruct Hshape as [-> | [-> | [-> | ->]]]; cbn;
    (split; [auto|]); (split; [eexists; reflexivity|eexists; reflexivity]).
Qed.

Lemma parse_trigger_dict (trigger_config : pyval) :
  match _parse_trigger trigger_config with
  | Ret t => (exists text, _describe_trigger py_str t = Ret text)
             /\ exists c, trigger_config = PDict c
  | Raise e => exists what, e = AttributeError what
  end.
Proof.
  destruct trigger_config; try (cbn; eexists; reflexivity).
  destruct (parse_trigger_shape d) as (t & -> & Hshape).
  destruct Hshape as [-> | [-> | [-> | ->]]]; cbn;
    (split; [eexists; reflexivity|eexists; reflexivity]).
Qed.

(** A trigger configuration that is not a dict makes [_create_workflow]
    raise [AttributeError] before anything is stored. *)
Theorem create_workflow_bad_trigger
  (created : string) (now : Datetime.datetime)
  (command : list (string * pyval)) (a : agent) :
  (forall c, get_or "trigger" command (PDict []) <> PDict c) ->
  exists what,
    _create_workflow py_str created now command a = (Raise (AttributeError what), a).
Proof.
  intros Hbad. unfold _create_workflow.
  pose proof (parse_trigger_dict (get_or "trigger" command (PDict []))) as Hk.
  destruct (_parse_trigger (get_or "trigger" command (PDict []))) as [t|e].
  - destruct Hk as (_ & c & Hc). exfalso. exact (Hbad c Hc).
  - destruct Hk as [what ->]. eauto.
Qed.

(** When [config['actions']] has no length (a number, [true], [null]),
    [_create_workflow] raises [TypeError] while building its answer, after
    the workflow was stored and its trigger registered: the command fails
    but the workflow exists, and the engine will run it. *)
Theorem create_workflow_unsized_actions
  (created : string) (now : Datetime.datetime)
  (command : list (string * pyval)) (t : trigger) (e : exn) (a : agent) :
  _parse_trigger (get_or "trigger" command (PDict [])) = Ret t ->
  py_len (get_or "actions" command (PList [])) = Raise e ->
  let wid := "workflow_" +:+ nat_repr (size (workflows a)) in
  exists a',
    _create_workflow py_str created now command a = (Raise e, a')
    /\ workflows a' !! wid = Some (new_workflow wid command t created)
    /\ exists key reg, In (key, reg) (triggers a')
                       /\ workflow_id reg = wid /\ config reg = t.
Proof.
  intros Ht Hlen wid. unfold _create_workflow. rewrite Ht.
  pose proof (parse_trigger_dict (get_or "trigger" command (PDict []))) as Hk.
  rewrite Ht in Hk. destruct Hk as ([text Htext] & _).
  rewrite Htext, Hlen. eexists. split; [reflexivity|].
  unfold _register_trigger. cbn [snd workflows triggers].
  split; [apply lookup_insert_eq|].
  eexists _, _. split; [apply in_triggers_set_new|]. split; reflexivity.
Qed.

(** The registries [_create_workflow] leaves when the trigger parses. *)
Lemma create_workflow_state (created : string) (now : Datetime.datetime)
  (command : list (string * pyval)) (t : trigger) (a : agent) :
  _parse_trigger (get_or "trigger" command (PDict [])) = Ret t ->
  let wid := workflow_key (size (workflows a)) in
  snd (_create_workflow py_str created now command a)
  = {| workflows := <[wid := new_workflow wid command t created]> (workflows a);
       triggers := triggers_set (trigger_value (type t) +:+ "_" +:+ wid)
                     {| workflow_id := wid; config := t; registered_at := now |}
                     (triggers a) |}.
Proof.
  intros Ht wid. unfold _create_workflow. rewrite Ht.
  destruct (_describe_trigger py_str t); [|reflexivity].
  destruct (py_len _); reflexivity.
Qed.

Lemma create_rule_state (created : string) (command : list (string * pyval))
  (a : agent) :
  snd (_create_automation_rule py_str llm created command a) = a
  \/ exists name,
       snd (_create_automation_rule py_str llm created command a)
       = {| workflows :=
              <[rule_key (size (workflows a)) :=
                  rule_workflow (rule_key (size (workflows a))) name command created]>
                (workflows a);
            triggers := triggers a |}.
Proof.
  unfold _create_automation_rule.
  destruct (llm _); [|left; reflexivity].
  destruct (first_30 _ _); [|left; reflexivity].
  right. eexists. reflexivity.
Qed.

(** What holds of the registries besides [registry_ok]: rules are never
    run, no workflow has two registrations, and a registration points to
    an enabled workflow that carries the registered trigger. *)
Record registry_sound (a : agent) : Prop := RegistrySound {
  sound_ok : registry_ok a;
  sound_rules : forall k workflow,
    workflows a !! rule_key k = Some workflow ->
    workflow !! "run_count" = None /\ workflow !! "last_run" = None;
  sound_nodup : List.NoDup (List.map (fun kr => workflow_id (snd kr)) (triggers a));
  sound_registered : forall key reg,
    In (key, reg) (triggers a) ->
    key = trigger_value (type (config reg)) +:+ "_" +:+ workflow_id reg
    /\ exists workflow,
         workflows a !! workflow_id reg = Some workflow
         /\ workflow !! "enabled" = Some (VJson (PBool true))
         /\ workflow !! "trigger" = Some (VTrigger (config reg))
}.

Lemma registry_sound_empty : registry_sound empty_agent.
Proof.
  split; simpl.
  - exact registry_ok_empty.
  - intros k w Hw. rewrite lookup_empty in Hw. discriminate.
  - constructor.
  - intros key reg [].
Qed.

Lemma engine_keeps_rules (stamps : nat -> string) (a : agent) (k : nat) :
  registry_ok a ->
  workflows (engine_iteration stamps a) !! rule_key k = workflows a !! rule_key k.
Proof.
  intros Hok. unfold engine_iteration. apply run_time_triggers_frame.
  intros key reg Hin Heq. destruct (ok_triggers a Hok key reg Hin) as [k' Hk'].
  rewrite Hk' in Heq. exact (workflow_key_not_rule _ _ Heq).
Qed.

Lemma registry_sound_step (o : op) (a : agent) :
  registry_sound a -> registry_sound (step py_str llm o a).
Proof.
  intros Hsound. pose proof (sound_ok a Hsound) as Hok.
  pose proof (registry_ok_step py_str llm o a Hok) as Hok'.
  destruct o as [created now command|created command|stamps]; cbn [step] in *.
  - pose proof (parse_trigger_dict (get_or "trigger" command (PDict []))) as Hk.
    destruct (_parse_trigger (get_or "trigger" command (PDict []))) as [t|e] eqn:Ht.
    2:{ unfold _create_workflow. rewrite Ht. exact Hsound. }
    clear Hk. pose proof (create_workflow_state created now command t a Ht) as Hstate.
    cbv zeta in Hstate. rewrite Hstate in *.
    pose proof (fresh_workflow_key a Hok) as Hfresh.
    assert (Hold : forall key reg, In (key, reg) (triggers a) ->
                     workflow_id reg <> workflow_key (size (workflows a))).
    { intros key reg Hin Heq.
      destruct (sound_registered a Hsound key reg Hin) as (_ & w & Hw & _).
      rewrite Heq, Hfresh in Hw. discriminate. }
    split; cbn [workflows triggers].
    + exact Hok'.
    + intros k w Hw. rewrite lookup_insert_ne in Hw
        by (intros Heq; exact (workflow_key_not_rule _ _ Heq)).
      exact (sound_rules a Hsound k w Hw).
    + apply nodup_triggers_set; [exact (sound_nodup a Hsound)|].
      intros k' r' Hin. cbn [workflow_id]. exact (Hold k' r' Hin).
    + intros key reg Hin. apply in_triggers_set in Hin. destruct Hin as [Heq|Hin].
      * injection Heq as -> ->. cbn [workflow_id config].
        split; [reflexivity|]. eexists. split; [apply lookup_insert_eq|].
        pose proof (new_workflow_complete (workflow_key (size (workflows a))) created
                      command t) as Hnew.
        cbv zeta in Hnew. tauto.
      * destruct (sound_registered a Hsound key reg Hin) as (Hkey & w & Hw & Hfields).
        split; [exact Hkey|]. exists w. split; [|exact Hfields].
        rewrite lookup_insert_ne; [exact Hw|].
        intros Heq. exact (Hold key reg Hin (eq_sym Heq)).
  - destruct (create_rule_state created command a) as [Hsame|[name Hstate]].
    { rewrite Hsame. exact Hsound. }
    rewrite Hstate in *. pose proof (fresh_rule_key a Hok) as Hfresh.
    split; cbn [workflows triggers].
    + exact Hok'.
    + intros k w Hw. apply lookup_insert_Some in Hw.
      destruct Hw as [[_ <-]|[_ Hw]].
      * split; [apply rule_workflow_uncounted|apply rule_workflow_never_run].
      * exact (sound_rules a Hsound k w Hw).
    + exact (sound_nodup a Hsound).
    + intros key reg Hin.
      destruct (sound_registered a Hsound key reg Hin) as (Hkey & w & Hw & Hfields).
      split; [exact Hkey|]. exists w. split; [|exact Hfields].
      rewrite lookup_insert_ne; [exact Hw|].
      intros Heq. rewrite <- Heq, Hfresh in Hw. discriminate.
  - split.
    + exact Hok'.
    + intros k w Hw. rewrite (engine_keeps_rules stamps a k Hok) in Hw.
      exact (sound_rules a Hsound k w Hw).
    + unfold engine_iteration. rewrite engine_iteration_triggers.
      exact (sound_nodup a Hsound).
    + unfold engine_iteration. rewrite engine_iteration_triggers.
      intros key reg Hin.
      destruct (sound_registered a Hsound key reg Hin)
        as (Hkey & w & Hw & Henabled & Htrigger).
      split; [exact Hkey|].
      destruct (run_time_triggers_fields stamps 0 (triggers a) a _ w Hw)
        as (w' & Hw' & Hsame).
      exists w'. split; [exact Hw'|].
      rewrite !Hsame by discriminate. split; assumption.
Qed.

Lemma registry_sound_run (ops : list op) (a : agent) :
  registry_sound a -> registry_sound (run py_str llm ops a).
Proof.
  revert a. induction ops as [|o ops IH]; intros a Hsound; simpl; [exact Hsound|].
  apply IH. apply registry_sound_step. exact Hsound.
Qed.

(** Whatever commands and engine iterations came before, a workflow made
    by [_create_automation_rule] (an [auto_] id) has neither [run_count]
    nor [last_run], and no further command or engine iteration changes
    it: the engine never runs a rule. *)
Theorem rules_are_never_run (ops : list op) (o : op) (k : nat)
  (workflow : gmap string value) :
  workflows (run py_str llm ops empty_agent) !! rule_key k = Some workflow ->
  workflow !! "run_count" = None
  /\ workflow !! "last_run" = None
  /\ workflows (step py_str llm o (run py_str llm ops empty_agent)) !! rule_key k
     = Some workflow.
Proof.
  intros Hw.
  pose proof (registry_sound_run ops empty_agent registry_sound_empty) as Hsound.
  pose proof (sound_ok _ Hsound) as Hok.
  destruct (sound_rules _ Hsound k workflow Hw) as [Hcount Hlast].
  split; [exact Hcount|]. split; [exact Hlast|].
  set (s := run py_str llm ops empty_agent) in *.
  destruct o as [created now command|created command|stamps]; cbn [step].
  - destruct (_parse_trigger (get_or "trigger" command (PDict []))) as [t|e] eqn:Ht.
    + rewrite (create_workflow_state created now command t s Ht). cbn [workflows].
      rewrite lookup_insert_ne by (intros Heq; exact (workflow_key_not_rule _ _ Heq)).
      exact Hw.
    + unfold _create_workflow. rewrite Ht. exact Hw.
  - destruct (create_rule_state created command s) as [Hsame|[name Hstate]].
    + rewrite Hsame. exact Hw.
    + rewrite Hstate. cbn [workflows]. rewrite lookup_insert_ne; [exact Hw|].
      intros Heq. rewrite <- Heq, (fresh_rule_key s Hok) in Hw. discriminate.
  - rewrite (engine_keeps_rules stamps s k Hok). exact Hw.
Qed.

(** Whatever commands and engine iterations came before, no command and
    no engine iteration removes a workflow or changes any of its keys
    other than [last_run] and [run_count]: ids are never reused, and a
    workflow cannot be renamed, disabled or given another trigger. *)
Theorem workflows_keep_their_fields (ops : list op) (o : op) (wid : string)
  (workflow : gmap string value) :
  workflows (run py_str llm ops empty_agent) !! wid = Some workflow ->
  exists workflow',
    workflows (step py_str llm o (run py_str llm ops empty_agent)) !! wid
    = Some workflow'
    /\ forall k, k <> "run_count" -> k <> "last_run" ->
         workflow' !! k = workflow !! k.
Proof.
  intros Hw.
  pose proof (registry_ok_run py_str llm ops empty_agent registry_ok_empty) as Hok.
  set (s := run py_str llm ops empty_agent) in *.
  destruct o as [created now command|created command|stamps]; cbn [step].
  - exists workflow. split; [|reflexivity].
    destruct (_parse_trigger (get_or "trigger" command (PDict []))) as [t|e] eqn:Ht.
    + rewrite (create_workflow_state created now command t s Ht). cbn [workflows].
      rewrite lookup_insert_ne; [exact Hw|].
      intros Heq. rewrite <- Heq, (fresh_workflow_key s Hok) in Hw. discriminate.
    + unfold _create_workflow. rewrite Ht. exact Hw.
  - exists workflow. split; [|reflexivity].
    destruct (create_rule_state created command s) as [Hsame|[name Hstate]].
    + rewrite Hsame. exact Hw.
    + rewrite Hstate. cbn [workflows]. rewrite lookup_insert_ne; [exact Hw|].
      intros Heq. rewrite <- Heq, (fresh_rule_key s Hok) in Hw. discriminate.
  - exact (run_time_triggers_fields stamps 0 (triggers s) s wid workflow Hw).
Qed.

(** Whatever commands and engine iterations came before, the trigger
    registry is consistent with the workflows: no workflow has two
    registrations, and each registration sits under the key
    [<type>_<workflow id>] and points to an existing, enabled, counted
    workflow whose [trigger] is the registered one. *)
Theorem triggers_stay_consistent (ops : list op) :
  let s := run py_str llm ops empty_agent in
  List.NoDup (List.map (fun kr => workflow_id (snd kr)) (triggers s))
  /\ Forall (fun kr =>
       fst kr = trigger_value (type (config (snd kr))) +:+ "_" +:+ workflow_id (snd kr)
       /\ exists workflow n,
            workflows s !! workflow_id (snd kr) = Some workflow
            /\ workflow !! "run_count" = Some (VJson (PInt n)) /\ 0 <= n
            /\ workflow !! "enabled" = Some (VJson (PBool true))
            /\ workflow !! "trigger" = Some (VTrigger (config (snd kr))))
     (triggers s).
Proof.
  intros s.
  pose proof (registry_sound_run ops empty_agent registry_sound_empty) as Hsound.
  fold s in Hsound. split; [exact (sound_nodup s Hsound)|].
  apply List.Forall_forall. intros [key reg] Hin. cbn [fst snd].
  destruct (sound_registered s Hsound key reg Hin)
    as (Hkey & w & Hw & Henabled & Htrigger).
  split; [exact Hkey|].
  destruct (ok_triggers s (sound_ok s Hsound) key reg Hin) as [k Hk].
  pose proof Hw as Hw2. rewrite Hk in Hw2.
  destruct (ok_counted s (sound_ok s Hsound) k w Hw2) as (n & Hn & Hcount).
  exists w, n. auto.
Qed.


End Creation.

(** ** Concrete runs of creation and the engine *)

Definition morning_time : Datetime.datetime :=
  Datetime.make (Datetime.ordinal_of_ymd 2024 3 10) 9 26 53 589793.

Definition morning_trigger : trigger :=
  {| type := TIME;
     fields := [("schedule", PStr "0 7 * * *"); ("timezone", PStr "local")] |}.

Definition evening_config : list (string * pyval) :=
  [("action", PStr "create_workflow");
   ("workflow_name", PStr "Evening routine");
   ("trigger", PDict [("type", PStr "time"); ("schedule", PStr "0 21 * * *")]);
   ("actions", PList [PStr "lights off"])].

Definition evening_trigger : trigger :=
  {| type := TIME;
     fields := [("schedule", PStr "0 21 * * *"); ("timezone", PStr "local")] |}.

Definition evening_workflow : gmap string value :=
  new_workflow "workflow_1" evening_config evening_trigger created_text.

(** The registry after a second [create_workflow] command. *)
Definition two_agent : agent :=
  snd (_create_workflow plain_str created_text morning_time evening_config
         morning_agent).

(** The clock of an engine iteration: the readings of its first call and
    of the later ones. *)
Definition run_clock (i : nat) : string :=
  match i with
  | O => "2024-03-10T09:27:00.000150"
  | S _ => "2024-03-10T09:27:00.000275"
  end.

Lemma morning_agent_state :
  morning_agent
  = {| workflows := <["workflow_0" := morning_workflow]> ∅;
       triggers := [("time_workflow_0",
                     {| workflow_id := "workflow_0"; config := morning_trigger;
                        registered_at := morning_time |})] |}.
Proof.
  pose proof (create_workflow_state plain_str created_text morning_time
                morning_config morning_trigger empty_agent eq_refl) as H.
  cbv zeta in H. cbn [workflows triggers empty_agent] in H.
  rewrite map_size_empty in H. exact H.
Qed.

Lemma two_agent_state :
  two_agent
  = {| workflows := <["workflow_1" := evening_workflow]>
                      (<["workflow_0" := morning_workflow]> ∅);
       triggers := [("time_workflow_0",
                     {| workflow_id := "workflow_0"; config := morning_trigger;
                        registered_at := morning_time |});
                    ("time_workflow_1",
                     {| workflow_id := "workflow_1"; config := evening_trigger;
                        registered_at := morning_time |})] |}.
Proof.
  unfold two_agent.
  rewrite (create_workflow_state plain_str created_text morning_time
             evening_config evening_trigger morning_agent eq_refl).
  rewrite morning_agent_state. cbn [workflows triggers].
  rewrite map_size_insert_None by apply lookup_empty.
  rewrite map_size_empty. reflexivity.
Qed.

Lemma new_workflow_runnable (wid created : string)
  (command : list (string * pyval)) (t : trigger) (actions : list pyval) :
  get_or "actions" command (PList []) = PList actions ->
  runnable (new_workflow wid command t created) 0.
Proof.
  intros Hactions. unfold runnable.
  pose proof (new_workflow_complete wid created command t) as H.
  cbv zeta in H. destruct H as (_ & _ & _ & Henabled & _ & Hcount).
  split; [exact Hcount|]. split; [exact Henabled|].
  exists actions. unfold new_workflow. rewrite Hactions. solve_lookup.
Qed.

Lemma two_agent_morning :
  workflows two_agent !! "workflow_0" = Some morning_workflow.
Proof.
  rewrite two_agent_state. cbn [workflows].
  rewrite lookup_insert_ne by discriminate. apply lookup_insert_eq.
Qed.

Lemma two_agent_evening :
  workflows two_agent !! "workflow_1" = Some evening_workflow.
Proof. rewrite two_agent_state. cbn [workflows]. apply lookup_insert_eq. Qed.

Lemma evening_workflow_counted :
  evening_workflow !! "run_count" = Some (VJson (PInt 0)).
Proof. apply new_workflow_complete. Qed.

Lemma engine_iteration_runs_each_once_witness :
  time_ids (triggers two_agent) = ["workflow_0"; "workflow_1"]
  /\ workflows (engine_iteration run_clock two_agent) !! "workflow_0"
     = Some (<["run_count" := VJson (PInt 1)]>
               (<["last_run" := VJson (PStr "2024-03-10T09:27:00.000150")]>
                  morning_workflow))
  /\ workflows (engine_iteration run_clock two_agent) !! "workflow_1"
     = Some (<["run_count" := VJson (PInt 1)]>
               (<["last_run" := VJson (PStr "2024-03-10T09:27:00.000275")]>
                  evening_workflow)).
Proof.
  assert (Hids : time_ids (triggers two_agent) = ["workflow_0"; "workflow_1"])
    by (rewrite two_agent_state; reflexivity).
  split; [exact Hids|].
  assert (Hnodup : List.NoDup (List.map (fun kr => workflow_id (snd kr))
                                 (triggers two_agent))).
  { rewrite two_agent_state. cbn [triggers List.map snd workflow_id].
    constructor; [intros [H|[]]; discriminate H|].
    constructor; [intros []|constructor]. }
  assert (Hrun : forall key reg, In (key, reg) (triggers two_agent) ->
                   type (config reg) = TIME ->
                   exists workflow n,
                     workflows two_agent !! workflow_id reg = Some workflow
                     /\ runnable workflow n).
  { intros key reg Hin _. rewrite two_agent_state in Hin.
    cbn [triggers In] in Hin. destruct Hin as [Heq|[Heq|[]]];
      injection Heq as _ <-; cbn [workflow_id].
    - exists morning_workflow, 0. split; [exact two_agent_morning|].
      exact (new_workflow_runnable _ _ morning_config _ _ eq_refl).
    - exists evening_workflow, 0. split; [exact two_agent_evening|].
      exact (new_workflow_runnable _ _ evening_config _ _ eq_refl). }
  destruct (engine_iteration_runs_each_once run_clock two_agent Hnodup Hrun)
    as (_ & Hyes & _).
  split.
  - destruct (Hyes 0%nat "workflow_0") as (w & n & Hw & Hcount & Hafter).
    { rewrite Hids. reflexivity. }
    rewrite two_agent_morning in Hw. injection Hw as <-.
    rewrite morning_workflow_counted in Hcount. injection Hcount as <-.
    exact Hafter.
  - destruct (Hyes 1%nat "workflow_1") as (w & n & Hw & Hcount & Hafter).
    { rewrite Hids. reflexivity. }
    rewrite two_agent_evening in Hw. injection Hw as <-.
    rewrite evening_workflow_counted in Hcount. injection Hcount as <-.
    exact Hafter.
Defined.




Lemma create_workflow_bad_trigger_witness :
  exists what,
    _create_workflow plain_str created_text morning_time
      [("workflow_name", PStr "Morning routine"); ("trigger", PStr "every morning")]
      empty_agent
    = (Raise (AttributeError what), empty_agent).
Proof.
  apply (create_workflow_bad_trigger plain_str created_text morning_time
           [("workflow_name", PStr "Morning routine");
            ("trigger", PStr "every morning")] empty_agent).
  intros c. discriminate.
Defined.

Lemma create_workflow_unsized_actions_witness :
  exists a',
    _create_workflow plain_str created_text morning_time
      [("trigger", PDict [("type", PStr "time")]); ("actions", PInt 3)] empty_agent
    = (Raise (TypeError "object has no len()"), a')
    /\ is_Some (workflows a' !! ("workflow_" +:+ nat_repr (size (workflows empty_agent))))
    /\ triggers a' <> [].
Proof.
  destruct (create_workflow_unsized_actions plain_str created_text morning_time
              [("trigger", PDict [("type", PStr "time")]); ("actions", PInt 3)]
              {| type := TIME;
                 fields := [("schedule", PStr "0 9 * * *");
                            ("timezone", PStr "local")] |}
              (TypeError "object has no len()") empty_agent eq_refl eq_refl)
    as (a' & Hrun & Hw & key & reg & Hin & _).
  exists a'. split; [exact Hrun|]. split.
  - rewrite Hw. eexists. reflexivity.
  - intros Hnil. rewrite Hnil in Hin. exact Hin.
Defined.

Definition morning_ops : list op :=
  [CreateRule created_text fan_rule;
   CreateWorkflow created_text morning_time morning_config].

Lemma rule_then_morning_rule :
  workflows (run plain_str rule_llm morning_ops empty_agent) !! rule_key 0
  = Some fan_workflow.
Proof.
  cbn [run morning_ops step]. fold rule_agent.
  rewrite (create_workflow_state plain_str created_text morning_time
             morning_config morning_trigger rule_agent eq_refl).
  cbn [workflows].
  rewrite lookup_insert_ne by (intros Heq; exact (workflow_key_not_rule _ _ Heq)).
  exact rule_agent_entry.
Qed.

Lemma rules_are_never_run_witness :
  workflows (run plain_str rule_llm morning_ops empty_agent) !! rule_key 0
  = Some fan_workflow
  /\ fan_workflow !! "run_count" = None
  /\ workflows (step plain_str rule_llm (EngineIteration run_clock)
                  (run plain_str rule_llm morning_ops empty_agent)) !! rule_key 0
     = Some fan_workflow.
Proof.
  split; [exact rule_then_morning_rule|].
  destruct (rules_are_never_run plain_str rule_llm morning_ops
              (EngineIteration run_clock) 0 fan_workflow rule_then_morning_rule)
    as (Hcount & _ & Hstep).
  split; [exact Hcount|exact Hstep].
Defined.

Lemma workflows_keep_their_fields_witness :
  exists workflow',
    workflows (step plain_str rule_llm (EngineIteration run_clock)
                 (run plain_str rule_llm morning_ops empty_agent)) !! rule_key 0
    = Some workflow'
    /\ workflow' !! "name" = fan_workflow !! "name".
Proof.
  destruct (workflows_keep_their_fields plain_str rule_llm morning_ops
              (EngineIteration run_clock) (rule_key 0) fan_workflow
              rule_then_morning_rule)
    as (w' & Hw' & Hsame).
  exists w'. split; [exact Hw'|]. apply Hsame; discriminate.
Defined.

End Automation.
